(** * arXiv Gemini App: the session controller and its collaborators

    A shallow embedding of the command handlers [q], [n], [download],
    [cite], [compare] and [set] of [main.run_interactive_mode], of the
    one-shot run of [main.main] for the flags [--download], [--summarize]
    and [--compare], of [arxiv_client.py] (index queries and the PDF
    fetcher), of the upload, summary and comparison calls of
    [gemini_client.py], of [display.display_results] and of
    [citation_utils.py], followed by the properties of the session model.

    Conventions.
    - Python [str] values are Rocq strings over ASCII; the builtins used by
      the program ([strip], [lower], [split], [int], ...) are written out
      in module [Py] for ASCII text.
    - Python [int] is [Z]; dictionaries are [gmap]s; paths are POSIX.
    - Everything outside the process (the arXiv API, the PDF host, the
      Gemini file store, the terminal) is an [Env]: a reply for every
      request, which may depend on everything that happened before.  Every
      request and every printed message is appended to the [log] of the
      [World], so "performs no fetch" is a statement about the log.
    - Local storage is the set of paths of the files that exist; only the
      program changes it.  [os.makedirs] raises [OSError] for the empty
      path; creating any other directory is taken to succeed.
    - A feed entry is a dictionary: it is true in a Python condition when
      it has at least one key ([entry_truthy]).
    - Waiting ([time.sleep]) is not modelled; the loop that polls an
      upload takes a budget of rounds, [fuel].

    The file has three parts: the program, the vocabulary of the
    properties with some sample sessions, and the properties. *)

From Stdlib Require Import ZArith List String Ascii Bool Lia.
From stdpp Require Import base option list gmap strings pretty sorting.
Import ListNotations.

Local Open Scope string_scope.
Local Open Scope Z_scope.

(** ** Python builtins on ASCII strings *)

Module Py.

(** [str.isspace] on one ASCII character: TAB..CR, FS..US and space. *)
Definition isspace (c : ascii) : bool :=
  let n := N_of_ascii c in
  (((9 <=? n) && (n <=? 13)) || ((28 <=? n) && (n <=? 32)))%N.

Definition isdigit (c : ascii) : bool :=
  let n := N_of_ascii c in ((48 <=? n) && (n <=? 57))%N.

Definition isupper (c : ascii) : bool :=
  let n := N_of_ascii c in ((65 <=? n) && (n <=? 90))%N.

Definition islower (c : ascii) : bool :=
  let n := N_of_ascii c in ((97 <=? n) && (n <=? 122))%N.

(** [c.isalnum()] *)
Definition isalnum (c : ascii) : bool := isdigit c || isupper c || islower c.

Definition lower_char (c : ascii) : ascii :=
  if isupper c then ascii_of_N (N_of_ascii c + 32) else c.

(** [s.lower()] *)
Fixpoint lower (s : string) : string :=
  match s with
  | EmptyString => EmptyString
  | String c s' => String (lower_char c) (lower s')
  end.

(** [s.lstrip()], [s.rstrip()], [s.strip()] *)
Fixpoint lstrip (s : string) : string :=
  match s with
  | EmptyString => EmptyString
  | String c s' => if isspace c then lstrip s' else s
  end.

Definition rstrip (s : string) : string := String.rev (lstrip (String.rev s)).

Definition strip (s : string) : string := rstrip (lstrip s).

(** The longest prefix without whitespace, and the rest. *)
Fixpoint break_ws (s : string) : string * string :=
  match s with
  | EmptyString => (EmptyString, EmptyString)
  | String c s' =>
      if isspace c then (EmptyString, s)
      else let '(tok, rest) := break_ws s' in (String c tok, rest)
  end.

(** [s.split(maxsplit=1)]: the first word, then the remainder with its
    leading whitespace removed (and none when nothing is left). *)
Definition split_maxsplit1 (s : string) : list string :=
  match lstrip s with
  | EmptyString => []
  | t =>
      let '(tok, rest) := break_ws t in
      match lstrip rest with
      | EmptyString => [tok]
      | r => [tok; r]
      end
  end.

Fixpoint split_ws_go (cur : string) (s : string) : list string :=
  match s with
  | EmptyString => match cur with EmptyString => [] | _ => [String.rev cur] end
  | String c s' =>
      if isspace c then
        match cur with
        | EmptyString => split_ws_go EmptyString s'
        | _ => String.rev cur :: split_ws_go EmptyString s'
        end
      else split_ws_go (String c cur) s'
  end.

(** [s.split()] *)
Definition split_ws (s : string) : list string := split_ws_go EmptyString s.

(** [s.split(sep)] for a non-empty separator: [skip] counts the characters
    of a separator that was just matched and is being stepped over. *)
Fixpoint split_go (sep : string) (skip : nat) (cur : string) (s : string)
  : list string :=
  match s with
  | EmptyString => [String.rev cur]
  | String c s' =>
      match skip with
      | S k => split_go sep k cur s'
      | O =>
          if String.prefix sep s
          then String.rev cur :: split_go sep (String.length sep - 1) EmptyString s'
          else split_go sep O (String c cur) s'
      end
  end.

Definition split (sep : string) (s : string) : list string :=
  split_go sep O EmptyString s.

(** [sub in s] *)
Fixpoint contains (sub : string) (s : string) : bool :=
  String.prefix sub s ||
  match s with
  | EmptyString => false
  | String _ s' => contains sub s'
  end.

(** [s.startswith(p)], [s.endswith(p)] *)
Definition startswith (p s : string) : bool := String.prefix p s.

Definition endswith (p s : string) : bool :=
  String.prefix (String.rev p) (String.rev s).

(** [s.replace(a, b)] for single characters. *)
Fixpoint replace_char (a b : ascii) (s : string) : string :=
  match s with
  | EmptyString => EmptyString
  | String c s' => String (if Ascii.eqb c a then b else c) (replace_char a b s')
  end.

(** [sep.join(l)] *)
Fixpoint join (sep : string) (l : list string) : string :=
  match l with
  | [] => EmptyString
  | [x] => x
  | x :: l' => x ++ sep ++ join sep l'
  end.

(** [l[-1]] and [l[0]] on the lists [split] returns (never empty). *)
Definition last_item (l : list string) : string := List.last l EmptyString.
Definition first_item (l : list string) : string := List.hd EmptyString l.

Definition digit_of (c : ascii) : option Z :=
  if isdigit c then Some (Z.of_N (N_of_ascii c) - 48) else None.

(** The digits of a decimal literal; one underscore may separate two
    digits. *)
Fixpoint int_digits (acc : Z) (after_digit : bool) (s : string) : option Z :=
  match s with
  | EmptyString => if after_digit then Some acc else None
  | String c s' =>
      match digit_of c with
      | Some d => int_digits (10 * acc + d) true s'
      | None =>
          if Ascii.eqb c "_" && after_digit then int_digits acc false s'
          else None
      end
  end.

(** [int(s)]: [None] stands for [ValueError].  Surrounding whitespace and
    a sign are accepted. *)
Definition int (s : string) : option Z :=
  match strip s with
  | String "-" r => Z.opp <$> int_digits 0 false r
  | String "+" r => int_digits 0 false r
  | r => int_digits 0 false r
  end.

(** [str(n)] / [f"{n}"] for an [int]. *)
Definition str_of_int (n : Z) : string := pretty n.

(** [not s] for a string. *)
Definition is_empty (s : string) : bool :=
  match s with EmptyString => true | _ => false end.

End Py.

(** ** Data model: what the index returns *)

(** One element of [entry.links]. *)
Record Link := {
  link_title : option string;
  link_type : option string;
  link_href : option string
}.

Record Author := { author_name : option string }.

(** A feedparser entry: every key may be absent, as [entry.get(key, default)]
    expects. *)
Record Entry := {
  entry_id : option string;
  entry_title : option string;
  entry_link : option string;
  entry_authors : list Author;
  entry_links : list Link;
  entry_published : option string;
  entry_updated : option string;
  entry_summary : option string;
  entry_arxiv_doi : option string;
  entry_arxiv_journal_ref : option string;
  entry_arxiv_primary_category : option string;
  entry_tags : list (option string)
}.

(** [bool(entry)]: an entry is a dictionary, and a dictionary without keys
    is falsy. The record holds the keys the program reads; a list-valued
    key is there when its list has an element. *)
Definition has_key {A} (o : option A) : bool :=
  match o with Some _ => true | None => false end.

Definition has_item {A} (l : list A) : bool :=
  match l with [] => false | _ :: _ => true end.

Definition entry_truthy (e : Entry) : bool :=
  has_key (entry_id e) || has_key (entry_title e) || has_key (entry_link e)
  || has_item (entry_authors e) || has_item (entry_links e)
  || has_key (entry_published e) || has_key (entry_updated e)
  || has_key (entry_summary e) || has_key (entry_arxiv_doi e)
  || has_key (entry_arxiv_journal_ref e) || has_key (entry_arxiv_primary_category e)
  || has_item (entry_tags e).

(** What a test [if entry:] lets through, for [entry] a dictionary or
    [None]. *)
Definition truthy_entry (o : option Entry) : option Entry :=
  match o with
  | Some e => if entry_truthy e then Some e else None
  | None => None
  end.

(** [results_feed.feed]: the OpenSearch counters, as [int(...)] reads them. *)
Record FeedInfo := {
  opensearch_startindex : option Z;
  opensearch_totalresults : option Z
}.

(** A parsed response ([feedparser.FeedParserDict]). *)
Record Feed := {
  bozo : bool;
  feed : FeedInfo;
  entries : list Entry
}.

(** [genai.File]: the remote handle of an uploaded PDF. *)
Inductive FileState := STATE_UNSPECIFIED | PROCESSING | ACTIVE | FAILED.

Record GFile := {
  gname : string;
  gstate : FileState;
  guri : string;
  gmime_type : string
}.

Definition is_active (s : FileState) : bool :=
  match s with ACTIVE => true | _ => false end.

Definition is_processing (s : FileState) : bool :=
  match s with PROCESSING => true | _ => false end.

(** ** Session state ([class AppState]) *)

Record AppState := {
  current_query : string;
  current_start_index : Z;
  current_max_results : Z;
  current_sort_by : string;
  current_sort_order : string;
  last_results_feed : option Feed;
  total_results_count : Z;
  gemini_enabled : bool;
  serper_enabled : bool;
  downloaded_pdfs : gmap Z string;
  gemini_uploaded_files : gmap string GFile;
  gemini_model_name : string
}.

(** [AppState.__init__] *)
Definition AppState_init : AppState := {|
  current_query := "";
  current_start_index := 0;
  current_max_results := 10;
  current_sort_by := "submittedDate";
  current_sort_order := "descending";
  last_results_feed := None;
  total_results_count := 0;
  gemini_enabled := false;
  serper_enabled := false;
  downloaded_pdfs := ∅;
  gemini_uploaded_files := ∅;
  gemini_model_name := "gemini-2.5-pro-exp-03-25"
|}.

Definition set_current_query (v : string) (s : AppState) : AppState :=
  {| current_query := v; current_start_index := current_start_index s;
     current_max_results := current_max_results s; current_sort_by := current_sort_by s;
     current_sort_order := current_sort_order s; last_results_feed := last_results_feed s;
     total_results_count := total_results_count s; gemini_enabled := gemini_enabled s;
     serper_enabled := serper_enabled s; downloaded_pdfs := downloaded_pdfs s;
     gemini_uploaded_files := gemini_uploaded_files s; gemini_model_name := gemini_model_name s |}.

Definition set_current_start_index (v : Z) (s : AppState) : AppState :=
  {| current_query := current_query s; current_start_index := v;
     current_max_results := current_max_results s; current_sort_by := current_sort_by s;
     current_sort_order := current_sort_order s; last_results_feed := last_results_feed s;
     total_results_count := total_results_count s; gemini_enabled := gemini_enabled s;
     serper_enabled := serper_enabled s; downloaded_pdfs := downloaded_pdfs s;
     gemini_uploaded_files := gemini_uploaded_files s; gemini_model_name := gemini_model_name s |}.

Definition set_current_max_results (v : Z) (s : AppState) : AppState :=
  {| current_query := current_query s; current_start_index := current_start_index s;
     current_max_results := v; current_sort_by := current_sort_by s;
     current_sort_order := current_sort_order s; last_results_feed := last_results_feed s;
     total_results_count := total_results_count s; gemini_enabled := gemini_enabled s;
     serper_enabled := serper_enabled s; downloaded_pdfs := downloaded_pdfs s;
     gemini_uploaded_files := gemini_uploaded_files s; gemini_model_name := gemini_model_name s |}.

Definition set_current_sort (by_ order : string) (s : AppState) : AppState :=
  {| current_query := current_query s; current_start_index := current_start_index s;
     current_max_results := current_max_results s; current_sort_by := by_;
     current_sort_order := order; last_results_feed := last_results_feed s;
     total_results_count := total_results_count s; gemini_enabled := gemini_enabled s;
     serper_enabled := serper_enabled s; downloaded_pdfs := downloaded_pdfs s;
     gemini_uploaded_files := gemini_uploaded_files s; gemini_model_name := gemini_model_name s |}.

Definition set_last_results_feed (v : option Feed) (s : AppState) : AppState :=
  {| current_query := current_query s; current_start_index := current_start_index s;
     current_max_results := current_max_results s; current_sort_by := current_sort_by s;
     current_sort_order := current_sort_order s; last_results_feed := v;
     total_results_count := total_results_count s; gemini_enabled := gemini_enabled s;
     serper_enabled := serper_enabled s; downloaded_pdfs := downloaded_pdfs s;
     gemini_uploaded_files := gemini_uploaded_files s; gemini_model_name := gemini_model_name s |}.

Definition set_total_results_count (v : Z) (s : AppState) : AppState :=
  {| current_query := current_query s; current_start_index := current_start_index s;
     current_max_results := current_max_results s; current_sort_by := current_sort_by s;
     current_sort_order := current_sort_order s; last_results_feed := last_results_feed s;
     total_results_count := v; gemini_enabled := gemini_enabled s;
     serper_enabled := serper_enabled s; downloaded_pdfs := downloaded_pdfs s;
     gemini_uploaded_files := gemini_uploaded_files s; gemini_model_name := gemini_model_name s |}.

Definition set_downloaded_pdfs (v : gmap Z string) (s : AppState) : AppState :=
  {| current_query := current_query s; current_start_index := current_start_index s;
     current_max_results := current_max_results s; current_sort_by := current_sort_by s;
     current_sort_order := current_sort_order s; last_results_feed := last_results_feed s;
     total_results_count := total_results_count s; gemini_enabled := gemini_enabled s;
     serper_enabled := serper_enabled s; downloaded_pdfs := v;
     gemini_uploaded_files := gemini_uploaded_files s; gemini_model_name := gemini_model_name s |}.

Definition set_gemini_uploaded_files (v : gmap string GFile) (s : AppState) : AppState :=
  {| current_query := current_query s; current_start_index := current_start_index s;
     current_max_results := current_max_results s; current_sort_by := current_sort_by s;
     current_sort_order := current_sort_order s; last_results_feed := last_results_feed s;
     total_results_count := total_results_count s; gemini_enabled := gemini_enabled s;
     serper_enabled := serper_enabled s; downloaded_pdfs := downloaded_pdfs s;
     gemini_uploaded_files := v; gemini_model_name := gemini_model_name s |}.

Definition set_gemini_enabled (v : bool) (s : AppState) : AppState :=
  {| current_query := current_query s; current_start_index := current_start_index s;
     current_max_results := current_max_results s; current_sort_by := current_sort_by s;
     current_sort_order := current_sort_order s; last_results_feed := last_results_feed s;
     total_results_count := total_results_count s; gemini_enabled := v;
     serper_enabled := serper_enabled s; downloaded_pdfs := downloaded_pdfs s;
     gemini_uploaded_files := gemini_uploaded_files s; gemini_model_name := gemini_model_name s |}.

Definition set_gemini_model_name (v : string) (s : AppState) : AppState :=
  {| current_query := current_query s; current_start_index := current_start_index s;
     current_max_results := current_max_results s; current_sort_by := current_sort_by s;
     current_sort_order := current_sort_order s; last_results_feed := last_results_feed s;
     total_results_count := total_results_count s; gemini_enabled := gemini_enabled s;
     serper_enabled := serper_enabled s; downloaded_pdfs := downloaded_pdfs s;
     gemini_uploaded_files := gemini_uploaded_files s; gemini_model_name := v |}.

(** ** Resolving a display number ([_get_entry_from_results]) *)

(** [None] is Python's [None]: no page loaded, an empty page, or a number
    outside the page. *)
Definition _get_entry_from_results (results_feed : option Feed) (display_index : Z)
  : option Entry :=
  match results_feed with
  | None => None
  | Some rf =>
      match entries rf with
      | [] => None
      | _ =>
          let current_page_start := default 0 (opensearch_startindex (feed rf)) in
          let entry_index := display_index - 1 - current_page_start in
          if (0 <=? entry_index) && (entry_index <? Z.of_nat (length (entries rf)))
          then entries rf !! Z.to_nat entry_index
          else None
      end
  end.

(** ** The outside world *)

(** Exceptions that reach a handler of the command loop or end a one-shot
    run. [OSError] stands for its subclasses too ([FileNotFoundError]);
    [RemoteError] is any exception raised inside a remote call. *)
Inductive Exn :=
  ValueError | AttributeError | KeyError | EOFError | RemoteError | TypeError | OSError.

Inductive Prompt :=
| PromptQuery                          (* "Enter new search query: " *)
| PromptConfirmDownload (n : nat).     (* "[?] You're about to download n papers. Continue? (y/n): " *)

(** The messages the modelled code prints, with the values they carry. *)
Inductive Msg :=
(* arxiv_client.search_arxiv *)
| MsgQuerying (query : string) (start max_results : Z)
| MsgFeedError
| MsgApiError
| MsgWarnEmptyPage (start : Z)
| MsgRequestError
(* arxiv_client.download_pdf *)
| MsgNoArxivId
| MsgNoPdfLink (arxiv_id_full : string)
| MsgUnusualLink (pdf_link : string)
| MsgPdfExists (filepath : string)
| MsgAttemptDownload (pdf_link filepath : string)
| MsgDownloaded (filename : string)
| MsgDownloadFailed (filename : string)
(* display.display_results *)
| MsgNoMoreResults
| MsgNoResultsFound
| MsgResultsHeader (first last : Z) (total : option Z)
| MsgResult (display_index : Z) (e : Entry)
(* gemini_client *)
| MsgUploading (filepath : string)
| MsgUploadedInitially (f : GFile)
| MsgWaiting (name : string)
| MsgCurrentState (s : FileState)
| MsgRefreshedState (s : FileState)
| MsgFileActive (name : string)
| MsgProcessingFailed (s : FileState)
| MsgAttemptDelete (name : string)
| MsgDeleted (name : string)
| MsgDeleteWarning (name : string)
| MsgUploadError
| MsgCompareNeedsTwo
| MsgInvalidFileObject (i : nat)
| MsgAskingCompare (model : string) (n : nat) (comparison_type : string)
| MsgGeminiResponded
| MsgCompareError
(* main._get_or_upload_gemini_file *)
| MsgUsingCached (name : string)
| MsgCachedNotActive (name : string) (s : FileState)
| MsgCachedCheckError (name : string)
(* main.run_interactive_mode and main.main *)
| MsgQueryEmpty
| MsgReachedEnd
| MsgNoActiveQuery
| MsgNoPreviousResults
| MsgAlreadyAtEnd
| MsgNoResultsDisplayed
| MsgMissingNumbers
| MsgDownloadCancelled
| MsgDownloadingResult (num : Z)
| MsgInvalidResultNumber (num : Z)
| MsgDownloadComplete (ok : Z) (total : nat)
| MsgInvalidNumberFormat
| MsgDownloadException (e : Exn)
| MsgGeminiDisabled
| MsgCompareMissingArgs
| MsgCompareNeedTwoNumbers
| MsgCompareBadNumbers
| MsgBadComparisonType (comparison_type : string)
| MsgNotDownloaded (missing : list Z)
| MsgPdfFileMissing (filepath : string)
| MsgEnsuring (num : Z)
| MsgUploadFailedFor (num : Z)
| MsgNeedTwoValidPdfs
| MsgComparing (n : nat) (comparison_type : string)
| MsgComparisonHeader (comparison_type : string)
| MsgComparisonResult (text : string)
| MsgComparisonFailed
| MsgRule
| MsgInvalidPaperIndex (num : Z)
| MsgDownloadingPaper (num : Z)
| MsgFailedDownload (num : Z)
| MsgNotEnoughPapers
| MsgSetUsage
| MsgMaxSet (n : Z)
| MsgInvalidMax
| MsgSortSet
| MsgInvalidSort
| MsgModelSet (name : string)
| MsgModelEmpty
| MsgUnknownSetting (setting : string)
| MsgUnexpectedError (e : Exn)
| MsgEOF
(* gemini_client.summarize_or_explain_pdf *)
| MsgInvalidFileForSummary
| MsgAskingSummary (model request_type name style : string)
| MsgGeminiAnswered
| MsgSummaryError
(* main.main, one-shot mode *)
| MsgNonInteractive
| MsgInvalidDownloadNumber
| MsgCheckingPdf (num : Z)
| MsgFailedPdfDownload (num : Z)
| MsgTargetOutOfRange (num : Z)
| MsgCannotDownload
| MsgActionNotConfigured
| MsgActionWithoutPdf
| MsgActionHeader (action_description : string)
| MsgActionResponse (text : string)
| MsgActionFailed (action_description : string)
| MsgActionUploadFailed
| MsgExiting.

(** What the process does to the outside, in the order it does it. *)
Inductive Event :=
| EvInput (p : Prompt)
| EvPrint (m : Msg)
| EvArxivQuery (query : string) (start max_results : Z) (sort_by sort_order : string)
| EvPdfGet (url : string) (stored : bool)
| EvUploadFile (path display_name : string)
| EvGetFile (name : string)
| EvDeleteFile (name : string)
| EvGenerate (model prompt_key : string) (files : list GFile).

(** The replies of the outside, each a function of the history so far.
    [None] (or [false]) is the call raising. *)
Record Env := {
  input_reply : list Event -> Prompt -> option string;
  arxiv_reply : list Event -> string -> Z -> Z -> string -> string -> option Feed;
  pdf_reply : list Event -> string -> bool;
  upload_reply : list Event -> string -> option GFile;
  get_file_reply : list Event -> string -> option GFile;
  delete_file_reply : list Event -> string -> bool;
  generate_reply : list Event -> string -> string -> list GFile -> option string
}.

(** Local storage (the set of files that exist) and the history. *)
Record World := {
  files : gset string;
  log : list Event
}.

Definition record (e : Event) (w : World) : World :=
  {| files := files w; log := log w ++ [e] |}.

(** ** The monad of the controller

    A computation reads and writes the session state and the world, and
    ends with a value, with a Python exception, or unfinished when the
    polling budget [fuel] of an upload is used up.  State changes made
    before an exception stay, as in Python. *)

Inductive Res (A : Type) :=
| Ok (a : A)
| Raise (e : Exn)
| OutOfFuel.
Arguments Ok {A} a.
Arguments Raise {A} e.
Arguments OutOfFuel {A}.

Definition M (A : Type) : Type := AppState -> World -> Res A * AppState * World.

Definition ret {A} (a : A) : M A := fun st w => (Ok a, st, w).

Definition bind {A B} (m : M A) (k : A -> M B) : M B :=
  fun st w =>
    match m st w with
    | (Ok a, st', w') => k a st' w'
    | (Raise e, st', w') => (Raise e, st', w')
    | (OutOfFuel, st', w') => (OutOfFuel, st', w')
    end.

Notation "x <- c1 ;; c2" := (bind c1 (fun x => c2))
  (at level 100, c1 at next level, right associativity).
Notation "c1 ;; c2" := (bind c1 (fun _ => c2))
  (at level 100, right associativity).

Definition raise {A} (e : Exn) : M A := fun st w => (Raise e, st, w).

Definition out_of_fuel {A} : M A := fun st w => (OutOfFuel, st, w).

(** [try: m except Exception: h] *)
Definition try_except {A} (m : M A) (h : Exn -> M A) : M A :=
  fun st w =>
    match m st w with
    | (Raise e, st', w') => h e st' w'
    | r => r
    end.

Definition get_state : M AppState := fun st w => (Ok st, st, w).

Definition modify (f : AppState -> AppState) : M unit := fun st w => (Ok tt, f st, w).

Definition emit (e : Event) : M unit := fun st w => (Ok tt, st, record e w).

Definition print (m : Msg) : M unit := emit (EvPrint m).

(** [os.path.exists(path)] *)
Definition path_exists (path : string) : M bool :=
  fun st w => (Ok (bool_decide (path ∈ files w)), st, w).

Definition write_file (path : string) : M unit :=
  fun st w => (Ok tt, st, {| files := {[path]} ∪ files w; log := log w |}).

(** [if os.path.exists(path): os.remove(path)] *)
Definition remove_if_exists (path : string) : M unit :=
  fun st w => (Ok tt, st, {| files := files w ∖ {[path]}; log := log w |}).

(** ** Constants *)

Definition DOWNLOAD_DIR : string := "arxiv_downloads".

(** ** The arguments of a one-shot run ([main.main] with [--query])

    Of the action flags, [--download], [--summarize] and [--compare] are
    modelled; [--ask], [--ask-fig], [--extract], [--related] and [--cite]
    are taken as not given. [--summarize] takes one or more words: the
    number and what follows it. *)
Record Args := {
  args_query : string;
  args_max_results : Z;
  args_start : Z;
  args_sort_by : string;
  args_sort_order : string;
  args_download : option string;
  args_download_dir : string;
  args_summarize : option (string * list string);
  args_compare : option (string * string);
  args_model : option string
}.

(** The keys of [comparison_utils.COMPARISON_TYPES]. *)
Definition COMPARISON_TYPES : list string := ["general"; "methods"; "results"; "impact"].

Definition in_list (x : string) (l : list string) : bool := existsb (String.eqb x) l.

(** [os.path.join(a, b)] and [os.path.basename(p)] (POSIX). *)
Definition os_path_join (a b : string) : string :=
  if Py.startswith "/" b then b
  else if Py.is_empty a || Py.endswith "/" a then a ++ b
  else a ++ "/" ++ b.

Definition os_path_basename (p : string) : string := Py.last_item (Py.split "/" p).

Section Controller.

Variable env : Env.

(** *** Requests to the outside *)

Definition input (p : Prompt) : M string :=
  fun st w =>
    match input_reply env (log w) p with
    | Some line => (Ok line, st, record (EvInput p) w)
    | None => (Raise EOFError, st, record (EvInput p) w)
    end.

Definition requests_get_arxiv (query : string) (start max_results : Z)
    (sort_by sort_order : string) : M (option Feed) :=
  fun st w =>
    (Ok (arxiv_reply env (log w) query start max_results sort_by sort_order), st,
     record (EvArxivQuery query start max_results sort_by sort_order) w).

(** The streamed GET of a PDF: [true] when the whole body was received. *)
Definition requests_get_pdf (url : string) : M bool :=
  fun st w =>
    let stored := pdf_reply env (log w) url in
    (Ok stored, st, record (EvPdfGet url stored) w).

Definition genai_upload_file (path display_name : string) : M GFile :=
  fun st w =>
    match upload_reply env (log w) path with
    | Some f => (Ok f, st, record (EvUploadFile path display_name) w)
    | None => (Raise RemoteError, st, record (EvUploadFile path display_name) w)
    end.

Definition genai_get_file (name : string) : M GFile :=
  fun st w =>
    match get_file_reply env (log w) name with
    | Some f => (Ok f, st, record (EvGetFile name) w)
    | None => (Raise RemoteError, st, record (EvGetFile name) w)
    end.

Definition genai_delete_file (name : string) : M unit :=
  fun st w =>
    if delete_file_reply env (log w) name
    then (Ok tt, st, record (EvDeleteFile name) w)
    else (Raise RemoteError, st, record (EvDeleteFile name) w).

Definition generate_content (model prompt_key : string) (file_objects : list GFile)
  : M (option string) :=
  fun st w =>
    (Ok (generate_reply env (log w) model prompt_key file_objects), st,
     record (EvGenerate model prompt_key file_objects) w).

(** *** [arxiv_client.search_arxiv] *)

(** [feed.entries and 'Error' in feed.entries[0].get('title', '')] *)
Definition has_error_entry (fd : Feed) : bool :=
  match entries fd with
  | [] => false
  | e :: _ => Py.contains "Error" (default "" (entry_title e))
  end.

(** Every [except] clause returns [None]; their messages are the one
    [MsgRequestError], and the lines of [handle_api_error] the one
    [MsgApiError]. *)
Definition search_arxiv (query : string) (start max_results : Z)
    (sort_by sort_order : string) : M (option Feed) :=
  print (MsgQuerying query start max_results);;
  r <- requests_get_arxiv query start max_results sort_by sort_order;;
  match r with
  | None => print MsgRequestError;; ret None
  | Some fd =>
      if bozo fd then
        print MsgFeedError;;
        (if has_error_entry fd then print MsgApiError else ret tt);;
        ret None
      else if has_error_entry fd then
        print MsgApiError;; ret None
      else
        (match entries fd with
         | [] => if 0 <? default 0 (opensearch_totalresults (feed fd))
                 then print (MsgWarnEmptyPage start) else ret tt
         | _ => ret tt
         end);;
        ret (Some fd)
  end.

(** *** [arxiv_client.download_pdf] *)

(** The loop over [entry.links]: a link titled [pdf] wins and stops the
    search; a link of type [application/pdf] is kept as a fallback. *)
Fixpoint find_pdf_link (links : list Link) (pdf_link : option string) : option string :=
  match links with
  | [] => pdf_link
  | l :: rest =>
      if bool_decide (link_title l = Some "pdf") then link_href l
      else if bool_decide (link_type l = Some "application/pdf")
           then find_pdf_link rest (link_href l)
           else find_pdf_link rest pdf_link
  end.

Definition arxiv_id_full (entry : Entry) : string :=
  Py.last_item (Py.split "/abs/" (default "" (entry_id entry))).

Definition arxiv_id_base (entry : Entry) : string :=
  Py.first_item (Py.split "v" (arxiv_id_full entry)).

Fixpoint safe_id (s : string) : string :=
  match s with
  | EmptyString => EmptyString
  | String c s' =>
      String (if Py.isalnum c || Ascii.eqb c "." || Ascii.eqb c "-" then c else "_"%char)
             (safe_id s')
  end.

Definition pdf_filename (entry : Entry) : string := safe_id (arxiv_id_full entry) ++ ".pdf".

Definition pdf_filepath_of (entry : Entry) (directory : string) : string :=
  os_path_join directory (pdf_filename entry).

(** [os.makedirs(directory, exist_ok=True)], which is called outside the
    [try]: it raises for the empty path (a [FileNotFoundError]); creating
    any other directory is taken to succeed. *)
Definition os_makedirs (directory : string) : M unit :=
  if Py.is_empty directory then raise OSError else ret tt.

(** The four [except] clauses do the same thing: report, remove the partial
    file, return [None]. *)
Definition download_pdf (entry : Entry) (directory : string) : M (option string) :=
  if Py.is_empty (arxiv_id_base entry) then
    print MsgNoArxivId;; ret None
  else
    match find_pdf_link (entry_links entry) None with
    | None | Some EmptyString =>
        print (MsgNoPdfLink (arxiv_id_full entry));; ret None
    | Some found =>
        pdf_link <- (if Py.startswith "//" found then ret ("https:" ++ found)
                     else if negb (Py.startswith "http://" found || Py.startswith "https://" found)
                          then print (MsgUnusualLink found);; ret found
                          else ret found);;
        let filename := pdf_filename entry in
        let filepath := pdf_filepath_of entry directory in
        os_makedirs directory;;
        present <- path_exists filepath;;
        if present then
          print (MsgPdfExists filepath);; ret (Some filepath)
        else
          print (MsgAttemptDownload pdf_link filepath);;
          stored <- requests_get_pdf pdf_link;;
          if stored then
            write_file filepath;; print (MsgDownloaded filename);; ret (Some filepath)
          else
            print (MsgDownloadFailed filename);; remove_if_exists filepath;; ret None
    end.

(** *** [display.display_results] *)

Fixpoint print_results (display_index : Z) (es : list Entry) : M unit :=
  match es with
  | [] => ret tt
  | e :: es' => print (MsgResult display_index e);; print_results (display_index + 1) es'
  end.

Definition display_results (feed_ : option Feed) (start_index : Z) : M Z :=
  match feed_ with
  | Some fd =>
      match entries fd with
      | [] =>
          (if (0 <? default 0 (opensearch_totalresults (feed fd))) && (0 <? start_index)
           then print MsgNoMoreResults else print MsgNoResultsFound);;
          ret 0
      | es =>
          let current_start := default start_index (opensearch_startindex (feed fd)) in
          print (MsgResultsHeader (current_start + 1) (current_start + Z.of_nat (length es))
                   (opensearch_totalresults (feed fd)));;
          print_results (current_start + 1) es;;
          ret (Z.of_nat (length es))
      end
  | None => print MsgNoResultsFound;; ret 0
  end.

(** *** [gemini_client.upload_pdf_to_gemini] *)

(** The loop [while file_state == "PROCESSING"]: each round asks the file
    store again.  [fuel] bounds the number of rounds. *)
Fixpoint poll (fuel : nat) (name : string) (refreshed_file : GFile) (file_state : FileState)
  : M (GFile * FileState) :=
  if is_processing file_state then
    match fuel with
    | O => out_of_fuel
    | S fuel' =>
        print (MsgCurrentState file_state);;
        r <- genai_get_file name;;
        print (MsgRefreshedState (gstate r));;
        poll fuel' name r (gstate r)
    end
  else ret (refreshed_file, file_state).

(** [try: genai.delete_file(name) except Exception: warn] *)
Definition try_delete (name : string) : M unit :=
  try_except
    (print (MsgAttemptDelete name);; genai_delete_file name;; print (MsgDeleted name))
    (fun _ => print (MsgDeleteWarning name)).

(** The rest of the [try] block once [genai.upload_file] has returned
    [uploaded_file], with the [except] clause for that case: wait for the
    file to leave PROCESSING, then keep it or delete it. *)
Definition await_ready (fuel : nat) (uploaded_file : GFile) : M (option GFile) :=
  try_except
    (print (MsgUploadedInitially uploaded_file);;
     print (MsgWaiting (gname uploaded_file));;
     polled <- poll fuel (gname uploaded_file) uploaded_file (gstate uploaded_file);;
     let '(refreshed_file, file_state) := polled in
     if is_active file_state then
       print (MsgFileActive (gname uploaded_file));; ret (Some refreshed_file)
     else
       print (MsgProcessingFailed file_state);;
       try_delete (gname uploaded_file);;
       ret None)
    (fun _ =>
       print MsgUploadError;;
       (if Py.is_empty (gname uploaded_file) then ret tt
        else try_delete (gname uploaded_file));;
       ret None).

Definition upload_pdf_to_gemini (fuel : nat) (filepath : string) : M (option GFile) :=
  print (MsgUploading (os_path_basename filepath));;
  let display_name := os_path_basename filepath in
  first <- try_except (f <- genai_upload_file filepath display_name;; ret (Some f))
                      (fun _ => ret None);;
  match first with
  | None =>
      (* the upload itself raised: [uploaded_file] is still [None] *)
      print MsgUploadError;; ret None
  | Some uploaded_file => await_ready fuel uploaded_file
  end.

(** *** [gemini_client.compare_papers] *)

Fixpoint first_invalid (i : nat) (file_objects : list GFile) : option nat :=
  match file_objects with
  | [] => None
  | f :: rest =>
      if Py.is_empty (guri f) || Py.is_empty (gmime_type f) then Some i
      else first_invalid (S i) rest
  end.

(** [comparison_utils.get_comparison_prompt], by the key of the prompt it
    selects. *)
Definition get_comparison_prompt (comparison_type : string) : string :=
  if in_list comparison_type COMPARISON_TYPES then comparison_type else "general".

Definition compare_papers (file_objects : list GFile) (comparison_type model_name : string)
  : M (option string) :=
  if (length file_objects <? 2)%nat then
    print MsgCompareNeedsTwo;; ret None
  else
    match first_invalid 0 file_objects with
    | Some i => print (MsgInvalidFileObject i);; ret None
    | None =>
        let prompt := get_comparison_prompt comparison_type in
        print (MsgAskingCompare model_name (length file_objects) comparison_type);;
        r <- generate_content model_name prompt file_objects;;
        match r with
        | Some text => print MsgGeminiResponded;; ret (Some text)
        | None => print MsgCompareError;; ret None
        end
    end.

(** *** [gemini_client.summarize_or_explain_pdf] *)

Definition summary_prompt (request_type style : string) : string :=
  if String.eqb request_type "explain" then
    "Explain the main concepts and findings of the document attached."
    ++ (if negb (String.eqb style "default") && negb (Py.is_empty style)
        then " Use a " ++ style ++ " style." else "")
  else if String.eqb style "key_findings" then
    "Summarize the key findings and results presented in the attached document."
  else if String.eqb style "technical" then
    "Provide a technical summary of the attached document, focusing on methodology and results for a researcher in the field."
  else if String.eqb style "simple" || String.eqb style "eli5" then
    "Provide a simple, easy-to-understand summary of the main points of the attached document. Explain it like I'm 5 years old."
  else "Provide a concise summary of the attached document.".

(** The request carries the prompt and the one file object. *)
Definition summarize_or_explain_pdf (file_object : GFile)
    (request_type style model_name : string) : M (option string) :=
  if Py.is_empty (guri file_object) || Py.is_empty (gmime_type file_object) then
    print MsgInvalidFileForSummary;; ret None
  else
    let prompt := summary_prompt request_type style in
    print (MsgAskingSummary model_name request_type (gname file_object) style);;
    r <- generate_content model_name prompt [file_object];;
    match r with
    | Some text => print MsgGeminiAnswered;; ret (Some text)
    | None => print MsgSummaryError;; ret None
    end.

(** *** [main._get_or_upload_gemini_file] *)

Definition _get_or_upload_gemini_file (fuel : nat) (pdf_filepath : string)
  : M (option GFile) :=
  st <- get_state;;
  cached <-
    match gemini_uploaded_files st !! pdf_filepath with
    | Some existing_file =>
        try_except
          (refreshed_file <- genai_get_file (gname existing_file);;
           if is_active (gstate refreshed_file) then
             print (MsgUsingCached (gname refreshed_file));; ret (Some refreshed_file)
           else
             print (MsgCachedNotActive (gname existing_file) (gstate refreshed_file));;
             try_except (genai_delete_file (gname existing_file)) (fun _ => ret tt);;
             ret None)
          (fun _ => print (MsgCachedCheckError (gname existing_file));; ret None)
    | None => ret None
    end;;
  match cached with
  | Some refreshed_file => ret (Some refreshed_file)
  | None =>
      uploaded_file <- upload_pdf_to_gemini fuel pdf_filepath;;
      match uploaded_file with
      | Some f =>
          if is_active (gstate f) then
            modify (fun s => set_gemini_uploaded_files
                               (<[pdf_filepath := f]> (gemini_uploaded_files s)) s);;
            ret (Some f)
          else
            modify (fun s => set_gemini_uploaded_files
                               (delete pdf_filepath (gemini_uploaded_files s)) s);;
            ret None
      | None =>
          modify (fun s => set_gemini_uploaded_files
                             (delete pdf_filepath (gemini_uploaded_files s)) s);;
          ret None
      end
  end.

(** *** The command loop of [run_interactive_mode] *)

(** [not state.last_results_feed or ... or not state.last_results_feed.entries] *)
Definition no_results (st : AppState) : bool :=
  match last_results_feed st with
  | None => true
  | Some fd => match entries fd with [] => true | _ => false end
  end.

(** [o.entries] where [o] may be [None]. *)
Definition attr_entries (o : option Feed) : M (list Entry) :=
  match o with
  | Some fd => ret (entries fd)
  | None => raise AttributeError
  end.

(** [num_displayed < max or start + num_displayed >= total] *)
Definition at_end (st : AppState) (num_displayed : Z) : bool :=
  (num_displayed <? current_max_results st)
  || (total_results_count st <=? current_start_index st + num_displayed).

(** Command [q]. *)
Definition cmd_q : M unit :=
  line <- input PromptQuery;;
  let new_query := Py.strip line in
  if Py.is_empty new_query then print MsgQueryEmpty
  else
    modify (set_current_query new_query);;
    modify (set_current_start_index 0);;
    modify (set_downloaded_pdfs ∅);;
    modify (set_gemini_uploaded_files ∅);;
    st <- get_state;;
    r <- search_arxiv (current_query st) (current_start_index st) (current_max_results st)
           (current_sort_by st) (current_sort_order st);;
    modify (set_last_results_feed r);;
    st <- get_state;;
    match last_results_feed st with
    | Some fd =>
        modify (set_total_results_count (default 0 (opensearch_totalresults (feed fd))));;
        st <- get_state;;
        num_displayed <- display_results (last_results_feed st) (current_start_index st);;
        st <- get_state;;
        if at_end st num_displayed then print MsgReachedEnd else ret tt
    | None => modify (set_total_results_count 0)
    end.

(** Command [n]. *)
Definition cmd_n : M unit :=
  st <- get_state;;
  if Py.is_empty (current_query st) then print MsgNoActiveQuery
  else if no_results st then print MsgNoPreviousResults
  else
    es <- attr_entries (last_results_feed st);;
    if total_results_count st <=? current_start_index st + Z.of_nat (length es)
    then print MsgAlreadyAtEnd
    else
      modify (fun s => set_current_start_index
                         (current_start_index s + Z.of_nat (length es)) s);;
      st <- get_state;;
      r <- search_arxiv (current_query st) (current_start_index st) (current_max_results st)
             (current_sort_by st) (current_sort_order st);;
      modify (set_last_results_feed r);;
      st <- get_state;;
      match last_results_feed st with
      | Some fd =>
          modify (set_total_results_count (default 0 (opensearch_totalresults (feed fd))));;
          st <- get_state;;
          num_displayed <- display_results (last_results_feed st) (current_start_index st);;
          st <- get_state;;
          if at_end st num_displayed then print MsgReachedEnd else ret tt
      | None =>
          (* state.current_start_index -= len(state.last_results_feed.entries) *)
          st <- get_state;;
          es' <- attr_entries (last_results_feed st);;
          modify (fun s => set_current_start_index
                             (current_start_index s - Z.of_nat (length es')) s);;
          modify (fun s => set_current_start_index (Z.max 0 (current_start_index s)) s)
      end.

(** [[int(num.strip()) for num in parts]]; [None] is [ValueError]. *)
Fixpoint parse_nums (parts : list string) : option (list Z) :=
  match parts with
  | [] => Some []
  | p :: ps =>
      match Py.int (Py.strip p), parse_nums ps with
      | Some n, Some ns => Some (n :: ns)
      | _, _ => None
      end
  end.

(** The body of the download loop for one number: resolve, fetch, record. *)
Definition download_one (num : Z) : M (option string) :=
  st <- get_state;;
  match truthy_entry (_get_entry_from_results (last_results_feed st) num) with
  | Some entry_to_download =>
      print (MsgDownloadingResult num);;
      downloaded_filepath <- download_pdf entry_to_download DOWNLOAD_DIR;;
      match downloaded_filepath with
      | Some path =>
          if Py.is_empty path then ret None
          else
            modify (fun s => set_downloaded_pdfs (<[num := path]> (downloaded_pdfs s)) s);;
            ret (Some path)
      | None => ret None
      end
  | None => print (MsgInvalidResultNumber num);; ret None
  end.

Fixpoint download_each (paper_nums : list Z) (successful_downloads : Z) : M Z :=
  match paper_nums with
  | [] => ret successful_downloads
  | num :: rest =>
      r <- download_one num;;
      match r with
      | Some _ => download_each rest (successful_downloads + 1)
      | None => download_each rest successful_downloads
      end
  end.

(** Commands [download] and [d]. *)
Definition cmd_download (args_str : string) : M unit :=
  st <- get_state;;
  if no_results st then print MsgNoResultsDisplayed
  else
    try_except
      (if Py.is_empty (Py.strip args_str) then print MsgMissingNumbers
       else
         match parse_nums (Py.split "," args_str) with
         | None => raise ValueError
         | Some paper_nums =>
             go <- (if (20 <? length paper_nums)%nat then
                      answer <- input (PromptConfirmDownload (length paper_nums));;
                      let confirm := Py.lower (Py.strip answer) in
                      if String.eqb confirm "y" then ret true
                      else print MsgDownloadCancelled;; ret false
                    else ret true);;
             if go : bool then
               successful_downloads <- download_each paper_nums 0;;
               if (1 <? length paper_nums)%nat
               then print (MsgDownloadComplete successful_downloads (length paper_nums))
               else ret tt
             else ret tt
         end)
      (fun e =>
         match e with
         | ValueError => print MsgInvalidNumberFormat
         | _ => print (MsgDownloadException e)
         end).

(** The loop of [compare] that collects one file object per paper. *)
Fixpoint compare_collect (fuel : nat) (paper_nums : list Z) (file_objects : list GFile)
  : M (list GFile) :=
  match paper_nums with
  | [] => ret file_objects
  | paper_num :: rest =>
      st <- get_state;;
      match downloaded_pdfs st !! paper_num with
      | None => raise KeyError
      | Some pdf_filepath =>
          present <- path_exists pdf_filepath;;
          if negb present then
            print (MsgPdfFileMissing pdf_filepath);;
            modify (fun s => set_downloaded_pdfs (delete paper_num (downloaded_pdfs s)) s);;
            modify (fun s => set_gemini_uploaded_files
                               (delete pdf_filepath (gemini_uploaded_files s)) s);;
            compare_collect fuel rest file_objects
          else
            print (MsgEnsuring paper_num);;
            uploaded_file <- _get_or_upload_gemini_file fuel pdf_filepath;;
            match uploaded_file with
            | None => print (MsgUploadFailedFor paper_num);;
                      compare_collect fuel rest file_objects
            | Some f => compare_collect fuel rest (file_objects ++ [f])
            end
      end
  end.

(** The call of the comparison and the report of its result. *)
Definition perform_comparison (file_objects : list GFile) (comparison_type : string)
  : M unit :=
  print (MsgComparing (length file_objects) comparison_type);;
  st <- get_state;;
  comparison_result <- compare_papers file_objects comparison_type (gemini_model_name st);;
  print (MsgComparisonHeader comparison_type);;
  (match comparison_result with
   | Some text => if Py.is_empty text then print MsgComparisonFailed
                  else print (MsgComparisonResult text)
   | None => print MsgComparisonFailed
   end);;
  print MsgRule.

(** Command [compare]. *)
Definition cmd_compare (fuel : nat) (args_str : string) : M unit :=
  st <- get_state;;
  if negb (gemini_enabled st) then print MsgGeminiDisabled
  else
    match Py.split_maxsplit1 args_str with
    | [] => print MsgCompareMissingArgs
    | numbers :: rest =>
        match parse_nums (Py.split "," numbers) with
        | None => print MsgCompareBadNumbers
        | Some paper_nums =>
            if (length paper_nums <? 2)%nat then print MsgCompareNeedTwoNumbers
            else
              let comparison_type :=
                match rest with t :: _ => Py.lower t | [] => "general" end in
              if negb (in_list comparison_type COMPARISON_TYPES)
              then print (MsgBadComparisonType comparison_type)
              else
                let missing_papers :=
                  filter (fun num => downloaded_pdfs st !! num = None) paper_nums in
                match missing_papers with
                | _ :: _ => print (MsgNotDownloaded missing_papers)
                | [] =>
                    file_objects <- compare_collect fuel paper_nums [];;
                    if (length file_objects <? 2)%nat then print MsgNeedTwoValidPdfs
                    else perform_comparison file_objects comparison_type
                end
        end
    end.

(** [f.startswith(prefix)] for the first [f] of [candidates]. *)
Definition first_starting_with (p : string) (candidates : list string) : option string :=
  List.find (Py.startswith p) candidates.

Definition api_field_name_of (matched_field : string) : string :=
  if String.eqb matched_field "lastupdateddate" then "lastUpdatedDate"
  else if String.eqb matched_field "submitteddate" then "submittedDate"
  else matched_field.

(** Command [set]. *)
Definition cmd_set (args_str : string) : M unit :=
  match Py.split_maxsplit1 args_str with
  | [first; value_str] =>
      let setting := Py.lower first in
      if String.eqb setting "max" then
        match Py.int value_str with
        | Some new_max =>
            modify (set_current_max_results (Z.max 1 (Z.min 2000 new_max)));;
            st <- get_state;;
            print (MsgMaxSet (current_max_results st));;
            modify (set_current_start_index 0)
        | None => print MsgInvalidMax
        end
      else if String.eqb setting "sort" then
        let chosen :=
          match Py.split_ws value_str with
          | [f; o] =>
              match first_starting_with (Py.lower f) ["relevance"; "lastupdateddate"; "submitteddate"],
                    first_starting_with (Py.lower o) ["ascending"; "descending"] with
              | Some matched_field, Some matched_order =>
                  Some (api_field_name_of matched_field, matched_order)
              | _, _ => None
              end
          | _ => None
          end in
        match chosen with
        | Some (api_field_name, matched_order) =>
            modify (set_current_sort api_field_name matched_order);;
            print MsgSortSet;;
            modify (set_current_start_index 0)
        | None => print MsgInvalidSort
        end
      else if String.eqb setting "model" then
        let new_model := Py.strip value_str in
        if Py.is_empty new_model then print MsgModelEmpty
        else modify (set_gemini_model_name new_model);; print (MsgModelSet new_model)
      else print (MsgUnknownSetting setting)
  | _ => print MsgSetUsage
  end.

(** One turn of [while True: try: ... except EOFError: break
    except Exception: report]. *)
Inductive Ctl := Continue | Break.

Definition loop_iteration (handler : M unit) : M Ctl :=
  try_except (handler;; ret Continue)
    (fun e =>
       match e with
       | EOFError => print MsgEOF;; ret Break
       | _ => print (MsgUnexpectedError e);; ret Continue
       end).

(** *** The [--compare] action of [main] (one-shot mode)

    The action is the last one of a one-shot run ([main_one_shot] below).
    Nothing before it writes the download map, so [main] reaches it with
    the map empty; the handles that the Gemini action before it obtained
    are in the cache. *)

Fixpoint main_compare_collect (fuel : nat) (results_feed : option Feed)
    (download_dir : string) (paper_nums : list Z) (file_objects : list GFile)
  : M (list GFile) :=
  match paper_nums with
  | [] => ret file_objects
  | paper_num :: rest =>
      match truthy_entry (_get_entry_from_results results_feed paper_num) with
      | None => print (MsgInvalidPaperIndex paper_num);;
                main_compare_collect fuel results_feed download_dir rest file_objects
      | Some entry =>
          st <- get_state;;
          let known :=
            match downloaded_pdfs st !! paper_num with
            | Some path => if Py.is_empty path then None else Some path
            | None => None
            end in
          pdf_filepath <-
            match known with
            | Some path => ret (Some path)
            | None =>
                print (MsgDownloadingPaper paper_num);;
                got <- download_pdf entry download_dir;;
                match got with
                | Some path =>
                    if Py.is_empty path then print (MsgFailedDownload paper_num);; ret None
                    else
                      modify (fun s => set_downloaded_pdfs
                                         (<[paper_num := path]> (downloaded_pdfs s)) s);;
                      ret (Some path)
                | None => print (MsgFailedDownload paper_num);; ret None
                end
            end;;
          match pdf_filepath with
          | None => main_compare_collect fuel results_feed download_dir rest file_objects
          | Some path =>
              print (MsgEnsuring paper_num);;
              uploaded_file <- _get_or_upload_gemini_file fuel path;;
              match uploaded_file with
              | Some f =>
                  main_compare_collect fuel results_feed download_dir rest (file_objects ++ [f])
              | None =>
                  print (MsgUploadFailedFor paper_num);;
                  main_compare_collect fuel results_feed download_dir rest file_objects
              end
          end
      end
  end.

Definition main_compare (fuel : nat) (results_feed : option Feed) (download_dir : string)
    (paper_nums_str comparison_type_arg : string) : M unit :=
  st <- get_state;;
  if negb (gemini_enabled st) then print MsgGeminiDisabled
  else
    let comparison_type := Py.lower comparison_type_arg in
    paper_nums <-
      match parse_nums (Py.split "," paper_nums_str) with
      | Some nums =>
          (if (length nums <? 2)%nat then print MsgCompareNeedTwoNumbers else ret tt);;
          ret nums
      | None => print MsgCompareBadNumbers;; ret []
      end;;
    if negb (in_list comparison_type COMPARISON_TYPES)
    then print (MsgBadComparisonType comparison_type)
    else
      match paper_nums with
      | [] => ret tt
      | _ =>
          file_objects <- main_compare_collect fuel results_feed download_dir paper_nums [];;
          if (2 <=? length file_objects)%nat
          then perform_comparison file_objects comparison_type
          else print MsgNotEnoughPapers
      end.

(** *** The one-shot run of [main] (a non-empty [--query])

    The session of a run: [AppState()] with the settings of the command
    line; [gemini_ok] and [serper_ok] say whether the clients could be
    configured. *)
Definition configured_state (args : Args) (gemini_ok serper_ok : bool) : AppState :=
  {| current_query := "";
     current_start_index := 0;
     current_max_results := args_max_results args;
     current_sort_by := args_sort_by args;
     current_sort_order := args_sort_order args;
     last_results_feed := None;
     total_results_count := 0;
     gemini_enabled := gemini_ok;
     serper_enabled := serper_ok;
     downloaded_pdfs := ∅;
     gemini_uploaded_files := ∅;
     gemini_model_name :=
       match args_model args with
       | Some name => if Py.is_empty name then "gemini-2.5-pro-exp-03-25" else name
       | None => "gemini-2.5-pro-exp-03-25"
       end |}.

(** [results_feed and hasattr(results_feed, 'entries') and results_feed.entries] *)
Definition has_entries (results_feed : option Feed) : bool :=
  match results_feed with
  | Some fd => has_item (entries fd)
  | None => false
  end.

(** The number of the PDF that the Gemini action is about: the first
    number of [--download], overridden by the number of [--summarize],
    which is read outside any [try]. *)
Definition action_target (args : Args) : M (option Z) :=
  from_download <-
    match args_download args with
    | Some text =>
        if Py.is_empty text then ret None
        else
          let first :=
            if Py.contains "," text then Py.strip (Py.first_item (Py.split "," text))
            else text in
          match Py.int first with
          | Some n => ret (Some n)
          | None => print MsgInvalidDownloadNumber;; ret None
          end
    | None => ret None
    end;;
  match args_summarize args with
  | Some (number, _) =>
      match Py.int number with
      | Some n => ret (Some n)
      | None => raise ValueError
      end
  | None => ret from_download
  end.

(** The download that precedes the actions. With a target and a Gemini
    action the PDF of the target is fetched; it is not entered in the
    download map. Otherwise [--download] alone passes its text, a string,
    to [_get_entry_from_results], whose subtraction raises a [TypeError]
    when the page has records; and without [--download] the test of
    [args.batch_download], an argument the parser does not define, raises
    an [AttributeError]. The result is the path of the PDF for the Gemini
    action. *)
Definition fetch_target (args : Args) (results_feed : option Feed)
    (action_target_num_pdf : option Z) : M (option string) :=
  match action_target_num_pdf, args_summarize args with
  | Some num, Some _ =>
      if has_entries results_feed then
        match truthy_entry (_get_entry_from_results results_feed num) with
        | Some entry_action =>
            print (MsgCheckingPdf num);;
            pdf_filepath_action <- download_pdf entry_action (args_download_dir args);;
            match pdf_filepath_action with
            | Some path =>
                if Py.is_empty path then print (MsgFailedPdfDownload num);; ret None
                else ret (Some path)
            | None => print (MsgFailedPdfDownload num);; ret None
            end
        | None => print (MsgTargetOutOfRange num);; ret None
        end
      else print MsgCannotDownload;; ret None
  | _, _ =>
      match args_download args with
      | Some _ =>
          if has_entries results_feed then raise TypeError
          else print MsgCannotDownload;; ret None
      | None => raise AttributeError
      end
  end.

(** The Gemini action of [--summarize]. *)
Definition summarize_action (fuel : nat) (args : Args) (action_target_num_pdf : option Z)
    (pdf_filepath_action : option string) : M unit :=
  match args_summarize args with
  | None => ret tt
  | Some (_, rest) =>
      st <- get_state;;
      if negb (gemini_enabled st) then print MsgActionNotConfigured
      else
        match pdf_filepath_action, action_target_num_pdf with
        | Some path, Some result_num_action =>
            print (MsgEnsuring result_num_action);;
            uploaded_file <- _get_or_upload_gemini_file fuel path;;
            match uploaded_file with
            | Some f =>
                let style := match rest with s :: _ => Py.lower s | [] => "default" end in
                let action_description := "summarizing (Style: " ++ style ++ ")" in
                st <- get_state;;
                gemini_response <-
                  summarize_or_explain_pdf f "summarize" style (gemini_model_name st);;
                match gemini_response with
                | Some text =>
                    print (MsgActionHeader action_description);;
                    print (MsgActionResponse text);;
                    print MsgRule
                | None => print (MsgActionFailed action_description)
                end
            | None => print MsgActionUploadFailed
            end
        | _, _ => print MsgActionWithoutPdf
        end
  end.

(** Everything before the [--compare] action; the result is the page. *)
Definition main_before_compare (fuel : nat) (args : Args) : M (option Feed) :=
  print MsgNonInteractive;;
  modify (set_current_query (args_query args));;
  results_feed <- search_arxiv (args_query args) (args_start args) (args_max_results args)
                    (args_sort_by args) (args_sort_order args);;
  display_results results_feed (args_start args);;
  action_target_num_pdf <- action_target args;;
  pdf_filepath_action <- fetch_target args results_feed action_target_num_pdf;;
  summarize_action fuel args action_target_num_pdf pdf_filepath_action;;
  ret results_feed.

Definition main_one_shot (fuel : nat) (args : Args) : M unit :=
  results_feed <- main_before_compare fuel args;;
  (match args_compare args with
   | Some (paper_nums_str, comparison_type) =>
       main_compare fuel results_feed (args_download_dir args) paper_nums_str comparison_type
   | None => ret tt
   end);;
  print MsgExiting.

End Controller.

(** [resolve]: how every handler looks a display number up, on the page the
    session currently holds. *)
Definition resolve (display_number : Z) : M (option Entry) :=
  st <- get_state;;
  ret (_get_entry_from_results (last_results_feed st) display_number).

(** The start offset of a page: [int(feed.get('opensearch_startindex', 0))]. *)
Definition page_start_offset (fd : Feed) : Z := default 0 (opensearch_startindex (feed fd)).

(** * Citations ([citation_utils.py]) *)

Definition CITATION_FORMATS : list string := ["bibtex"; "apa"; "mla"; "chicago"; "ieee"].

(** A line feed and a double quote, as one-character strings. *)
Definition nl : string := String "010"%char EmptyString.
Definition dq : string := String "034"%char EmptyString.

(** [pub_year] is an [int] when the date parses and a [str] otherwise;
    [f"{year}"] prints either. *)
Inductive Year := YearInt (y : Z) | YearStr (s : string).

Definition year_text (y : Year) : string :=
  match y with
  | YearInt n => Py.str_of_int n
  | YearStr s => s
  end.

(** [name.split()[-1]]: the last name of an author, as [format_ieee] takes
    it; [None] is [IndexError]. *)
Definition last_name (name : string) : option string := List.last (Some <$> Py.split_ws name) None.

Fixpoint filter_alnum (s : string) : string :=
  match s with
  | EmptyString => EmptyString
  | String c s' => if Py.isalnum c then String c (filter_alnum s') else filter_alnum s'
  end.

Definition format_bibtex (arxiv_id title : string) (authors : list string) (year : Year)
    (month : Z) (url doi journal_ref category abstract : string) : string :=
  let clean_id := filter_alnum arxiv_id in
  let author_str := match authors with [] => "Unknown Author" | _ => Py.join " and " authors end in
  let optional (value : string) (line : string) : list string :=
    if Py.is_empty value then [] else [line] in
  let short_abstract :=
    if (500 <? String.length abstract)%nat
    then String.substring 0 500 abstract ++ "..." else abstract in
  let bibtex : list string :=
    List.concat
      [ [ "@article{" ++ clean_id ++ ",";
          "  title = {" ++ title ++ "},";
          "  author = {" ++ author_str ++ "},";
          "  year = {" ++ year_text year ++ "},";
          "  month = {" ++ Py.str_of_int month ++ "},";
          "  eprint = {" ++ arxiv_id ++ "},";
          "  archivePrefix = {arXiv},";
          "  primaryClass = {" ++ category ++ "}," ];
        optional doi ("  doi = {" ++ doi ++ "},");
        optional journal_ref ("  journal = {" ++ journal_ref ++ "},");
        optional url ("  url = {" ++ url ++ "},");
        optional abstract ("  abstract = {" ++ short_abstract ++ "},");
        ["}"] ] in
  Py.join nl bibtex.

Definition format_apa (title : string) (authors : list string) (year : Year)
    (month url doi journal_ref : string) : string :=
  let author_str :=
    match authors with
    | [] => "Unknown Author"
    | [a0] => a0
    | [a0; a1] => a0 ++ " & " ++ a1
    | a0 :: _ => a0 ++ " et al."
    end in
  let apa := author_str ++ ". (" ++ year_text year ++ "). " ++ title ++ "." in
  let apa := if Py.is_empty journal_ref then apa ++ " arXiv preprint."
             else apa ++ (" " ++ journal_ref ++ ".") in
  let apa := if negb (Py.is_empty doi) then apa ++ (" https://doi.org/" ++ doi)
             else if negb (Py.is_empty url) then apa ++ (" Retrieved from " ++ url)
             else apa in
  apa.

Definition format_mla (today : string) (title : string) (authors : list string) (year : Year)
    (url : string) : string :=
  let author_str :=
    match authors with
    | [] => "Unknown Author"
    | [a0] => a0
    | [a0; a1] => a0 ++ " and " ++ a1
    | a0 :: _ => a0 ++ " et al."
    end in
  let mla := author_str ++ ". " ++ dq ++ title ++ "." ++ dq ++ " arXiv, " ++ year_text year ++ "." in
  if Py.is_empty url then mla else mla ++ (" " ++ url ++ ". Accessed " ++ today ++ ".").

Definition format_chicago (title : string) (authors : list string) (year : Year)
    (month url doi : string) : string :=
  let author_str :=
    match authors with
    | [] => "Unknown Author"
    | [a0] => a0
    | a0 :: _ => a0 ++ ", et al."
    end in
  let chicago := author_str ++ ". " ++ dq ++ title ++ "." ++ dq ++ " " ++ month ++ " "
                 ++ year_text year ++ "." in
  if negb (Py.is_empty doi) then chicago ++ (" https://doi.org/" ++ doi ++ ".")
  else if negb (Py.is_empty url) then chicago ++ (" " ++ url ++ ".")
  else chicago.

(** [[name.split()[-1] for name in authors[:3]]]; [None] is [IndexError]. *)
Fixpoint last_names (authors : list string) : option (list string) :=
  match authors with
  | [] => Some []
  | a :: rest =>
      match last_name a, last_names rest with
      | Some n, Some ns => Some (n :: ns)
      | _, _ => None
      end
  end.

(** [None] is the [IndexError] of a name without a word. *)
Definition format_ieee (title : string) (authors : list string) (year : Year)
    (month : Z) (url doi journal_ref : string) : option string :=
  author_str ←
    match authors with
    | [] => Some "Unknown Author"
    | [a0] => Some a0
    | [a0; a1] => Some (a0 ++ " and " ++ a1)
    | _ => names ← last_names (take 3 authors); Some (Py.join ", " names ++ " et al.")
    end;
  let ieee := author_str ++ ", " ++ dq ++ title ++ dq ++ ", " in
  let ieee := if negb (Py.is_empty journal_ref)
              then ieee ++ (journal_ref ++ ", " ++ year_text year ++ ".")
              else ieee ++ ("arXiv preprint arXiv:" ++ Py.last_item (Py.split "/" url) ++ ", "
                            ++ year_text year ++ ".") in
  Some (if negb (Py.is_empty doi) then ieee ++ (" doi: " ++ doi ++ ".") else ieee).

Section Citation.

(** [datetime.strptime(s, "%Y-%m-%dT%H:%M:%SZ")], reduced to what the
    formatter reads from the result: the year, the month and the name of
    the month; [None] when it raises. A library function, not modelled. *)
Variable strptime : string -> option (Z * Z * string).

(** [datetime.now().strftime('%d %b. %Y')] *)
Variable today : string.

Definition author_display (a : Author) : string := default "Unknown Author" (author_name a).

Definition format_citation (entry : Entry) (format_type : string) : string :=
  if negb (in_list (Py.lower format_type) CITATION_FORMATS) then
    "Error: Unsupported citation format '" ++ format_type ++ "'. Supported formats: "
    ++ Py.join ", " CITATION_FORMATS
  else
    let title := Py.strip (Py.replace_char "010" " " (default "Unknown Title" (entry_title entry))) in
    let arxiv_id := Py.last_item (Py.split "/abs/" (default "" (entry_id entry))) in
    let arxiv_url := default ("https://arxiv.org/abs/" ++ arxiv_id) (entry_link entry) in
    let authors := author_display <$> entry_authors entry in
    let published_date := default "" (entry_published entry) in
    let '(pub_year, pub_month, pub_month_name) :=
      match strptime published_date with
      | Some (y, m, name) => (YearInt y, m, name)
      | None =>
          (if Py.contains "-" published_date
           then YearStr (Py.first_item (Py.split "-" published_date))
           else YearStr "Unknown Year",
           1, "January")
      end in
    let doi := default "" (entry_arxiv_doi entry) in
    let journal_ref := default "" (entry_arxiv_journal_ref entry) in
    let primary_category := default "" (entry_arxiv_primary_category entry) in
    let summary := Py.strip (Py.replace_char "010" " " (default "" (entry_summary entry))) in
    let fmt := Py.lower format_type in
    if String.eqb fmt "bibtex" then
      format_bibtex arxiv_id title authors pub_year pub_month arxiv_url doi journal_ref
        primary_category summary
    else if String.eqb fmt "apa" then
      format_apa title authors pub_year pub_month_name arxiv_url doi journal_ref
    else if String.eqb fmt "mla" then
      format_mla today title authors pub_year arxiv_url
    else if String.eqb fmt "chicago" then
      format_chicago title authors pub_year pub_month_name arxiv_url doi
    else
      match format_ieee title authors pub_year pub_month arxiv_url doi journal_ref with
      | Some s => s
      | None => "Error generating citation: list index out of range"
      end.

End Citation.

(** * Reading a command ([run_interactive_mode], the head of the loop body)

    The line is stripped and split once at whitespace; the first word,
    lowercased, is the command and the remainder its argument text. *)
Definition parse_command (line : string) : string * string :=
  let command_input := Py.strip line in
  let parts := Py.split_maxsplit1 command_input in
  let command := match parts with p0 :: _ => Py.lower p0 | [] => "" end in
  let args_str := match parts with _ :: p1 :: _ => p1 | _ => "" end in
  (command, args_str).

(** * The commands [cite] and [show] ([run_interactive_mode])

    Both only read the session and print; a handler is the list of the
    lines it prints. *)

(** The lines of [cite]. The header shows the style in upper case. *)
Inductive CiteLine :=
| CiteNoResults
| CiteMissingArgs
| CiteBadNumber (text : string)
| CiteBadFormat (citation_format : string)
| CiteBadResult (result_num : Z)
| CiteHeader (result_num : Z) (citation_format : string)
| CiteText (citation : string)
| CiteRule.

Section Cite.

Variable strptime : string -> option (Z * Z * string).
Variable today : string.

(** Command [cite]. *)
Definition cmd_cite (st : AppState) (args_str : string) : list CiteLine :=
  if no_results st then [CiteNoResults]
  else
    match Py.split_maxsplit1 args_str with
    | [] => [CiteMissingArgs]
    | p0 :: rest =>
        match Py.int p0 with
        | None => [CiteBadNumber p0]
        | Some result_num =>
            let citation_format :=
              match rest with p1 :: _ => Py.lower p1 | [] => "bibtex" end in
            if negb (in_list citation_format CITATION_FORMATS)
            then [CiteBadFormat citation_format]
            else
              match truthy_entry
                      (_get_entry_from_results (last_results_feed st) result_num) with
              | None => [CiteBadResult result_num]
              | Some entry =>
                  [ CiteHeader result_num citation_format;
                    CiteText (format_citation strptime today entry citation_format);
                    CiteRule ]
              end
        end
    end.

End Cite.

(** The lines of [show]. *)
Inductive ShowLine :=
| ShowHeader
| ShowItem (idx : Z) (path : string) (on_disk uploaded : bool)
| ShowNone
| ShowRule
| ShowModel (name : string)
| ShowUnknown.

(** [sorted(state.downloaded_pdfs.items())]: the keys of a dictionary
    differ, so the pairs are ordered by their numbers. *)
Definition number_le (a b : Z * string) : Prop := fst a <= fst b.

#[export] Instance number_le_dec : RelDecision number_le :=
  fun a b => Z_le_dec (fst a) (fst b).

Definition sorted_items (m : gmap Z string) : list (Z * string) :=
  merge_sort number_le (map_to_list m).

(** Command [show]. The rule that closes the list is printed only under
    the line that says there are no downloads. *)
Definition cmd_show (st : AppState) (w : World) (args_str : string) : list ShowLine :=
  let sub_command := Py.lower args_str in
  if String.eqb sub_command "downloads" then
    ShowHeader ::
    (if bool_decide (downloaded_pdfs st = ∅) then [ShowNone; ShowRule]
     else
       (fun '(idx, path) =>
          ShowItem idx path (bool_decide (path ∈ files w))
            (bool_decide (is_Some (gemini_uploaded_files st !! path))))
       <$> sorted_items (downloaded_pdfs st))
  else if String.eqb sub_command "model" then [ShowModel (gemini_model_name st)]
  else [ShowUnknown].

(** * Related work: the search strategies ([rel_command.handle_rel_command])

    From the keywords of a paper the handler prepares up to three lists
    of search terms and starts with the first. *)

Definition DOMAIN_TERMS : list string :=
  ["tissue"; "biolog"; "cell"; "cancer"; "organ"; "medical"].

Definition METHOD_TERMS : list string :=
  ["model"; "field"; "simulation"; "method"; "approach"].

Definition GENERAL_TERMS : list string := ["model"; "simulation"; "method"].

(** [any(term in s for term in terms)] *)
Definition any_in (terms : list string) (s : string) : bool :=
  existsb (fun term => Py.contains term s) terms.

(** The loop over the keywords: the last keyword that names a domain and
    the last other keyword that names a method. *)
Fixpoint pick_keywords (keywords : list string) (domain_keyword method_keyword : option string)
  : option string * option string :=
  match keywords with
  | [] => (domain_keyword, method_keyword)
  | kw :: rest =>
      let kw_lower := Py.lower kw in
      if any_in DOMAIN_TERMS kw_lower then pick_keywords rest (Some kw) method_keyword
      else if any_in METHOD_TERMS kw_lower then pick_keywords rest domain_keyword (Some kw)
      else pick_keywords rest domain_keyword method_keyword
  end.

Definition search_strategies (keywords : list string) : list (list string) :=
  let '(domain_keyword, method_keyword) := pick_keywords keywords None None in
  let strategy1 :=
    match domain_keyword, method_keyword with
    | Some d, Some m =>
        if negb (Py.is_empty d) && negb (Py.is_empty m) then [[d; m]] else []
    | _, _ => []
    end in
  let strategy2 :=
    if (2 <=? length keywords)%nat
    then [take (Nat.min 3 (length keywords)) keywords] else [] in
  let strategy3 :=
    match keywords with
    | [] => []
    | k0 :: _ =>
        [k0 :: (if negb (any_in (Py.lower <$> GENERAL_TERMS) (Py.lower k0))
                then ["model"] else [])]
    end in
  List.concat [strategy1; strategy2; strategy3].

(** [search_strategies[0]]; [None] is [IndexError]. *)
Definition first_strategy (keywords : list string) : option (list string) :=
  head (search_strategies keywords).

(** [' '.join(f'"{kw}"' if ' ' in kw else kw for kw in strategy)] *)
Definition quote_term (kw : string) : string :=
  if Py.contains " " kw then dq ++ kw ++ dq else kw.

Definition strategy_terms (strategy : list string) : string :=
  Py.join " " (quote_term <$> strategy).

Local Close Scope string_scope.

(** * The vocabulary of the properties *)

(** ** Traces

    What a computation may do to the session and to the world is stated as
    a relation between the pair before and the pair after; when the
    relation is a preorder it passes through [bind] and [try_except]. *)

Definition Config : Type := AppState * World.

Definition respects {A} (R : relation Config) (m : M A) : Prop :=
  forall st w, R (st, w) (snd (fst (m st w)), snd (m st w)).

(** The relations used below. *)

(** The log grows by events that all satisfy [Q]; nothing else is said. *)
Definition log_grows (Q : Event -> Prop) : relation Config :=
  fun c c' => exists d, log (snd c') = log (snd c) ++ d /\ Forall Q d.

(** Local storage is untouched. *)
Definition same_files : relation Config := fun c c' => files (snd c') = files (snd c).

(** A component of the session state is untouched. *)
Definition same_on {X} (f : AppState -> X) : relation Config :=
  fun c c' => f (fst c') = f (fst c).

(** The session state is untouched. *)
Definition same_state : relation Config := same_on (fun st => st).

(** ** Counting events *)

Fixpoint count_events (p : Event -> bool) (l : list Event) : nat :=
  match l with
  | [] => 0
  | e :: l' => ((if p e then 1 else 0) + count_events p l')%nat
  end.

Definition is_input (e : Event) : bool := match e with EvInput _ => true | _ => false end.
Definition is_arxiv_query (e : Event) : bool :=
  match e with EvArxivQuery _ _ _ _ _ => true | _ => false end.
Definition is_pdf_get (e : Event) : bool := match e with EvPdfGet _ _ => true | _ => false end.
Definition is_stored_pdf (e : Event) : bool :=
  match e with EvPdfGet _ stored => stored | _ => false end.
Definition is_upload (e : Event) : bool := match e with EvUploadFile _ _ => true | _ => false end.
Definition is_get_file (name : string) (e : Event) : bool :=
  match e with EvGetFile n => String.eqb n name | _ => false end.

(** The message that announces a comparison. *)
Definition is_comparing_msg (m : Msg) : bool :=
  match m with MsgComparing _ _ => true | _ => false end.

(** A comparison is called: the announcement of the controller, or the
    request to the model. *)
Definition is_compare_call (e : Event) : bool :=
  match e with
  | EvPrint m => is_comparing_msg m
  | EvGenerate _ _ _ => true
  | _ => false
  end.

(** The events of the Gemini file store, and other messages. *)
Definition file_store_event (e : Event) : Prop :=
  match e with
  | EvPrint m => is_comparing_msg m = false
  | EvGetFile _ | EvDeleteFile _ | EvUploadFile _ _ => True
  | _ => False
  end.

(** The events of the PDF fetcher, and other messages. *)
Definition fetch_event (e : Event) : Prop :=
  match e with
  | EvPrint m => is_comparing_msg m = false
  | EvPdfGet _ _ => True
  | _ => False
  end.

(** The events of waiting for an upload: refreshes, deletions, messages. *)
Definition refresh_event (e : Event) : Prop :=
  match e with
  | EvPrint m => is_comparing_msg m = false
  | EvGetFile _ | EvDeleteFile _ => True
  | _ => False
  end.

(** A request to the outside: one event, the session untouched. *)
Definition emits_one {A} (P : Event -> Prop) (m : M A) : Prop :=
  forall st w, exists res e, m st w = (res, st, record e w) /\ P e.

(** ** The upload path *)

(** The file store stops answering PROCESSING for a file once the file has
    been refreshed [k] times. *)
Definition settles_within (env : Env) (k : nat) : Prop :=
  forall hist name f,
    (k <= count_events (is_get_file name) hist)%nat ->
    get_file_reply env hist name = Some f ->
    is_processing (gstate f) = false.

(** ** The PDF fetcher *)

(** The link [download_pdf] will fetch, when the entry has an arXiv id and
    a PDF link. *)
Definition pdf_source (entry : Entry) : option string :=
  if Py.is_empty (arxiv_id_base entry) then None
  else
    match find_pdf_link (entry_links entry) None with
    | None | Some EmptyString => None
    | Some found => Some (if Py.startswith "//" found then "https:" +:+ found else found)
    end.

(** What one call of [download_pdf] does, by cases: nothing to fetch from;
    the file is there; the fetch is made, and stored or not. *)
Definition fetch_outcome (entry : Entry) (directory : string) (w w' : World)
    (d : list Event) (r : option string) : Prop :=
  let path := pdf_filepath_of entry directory in
  match pdf_source entry with
  | None => r = None /\ files w' = files w /\ count_events is_pdf_get d = 0%nat
  | Some link =>
      if bool_decide (path ∈ files w)
      then r = Some path /\ files w' = files w /\ count_events is_pdf_get d = 0%nat
      else exists stored : bool,
          count_events is_pdf_get d = 1%nat /\
          count_events is_stored_pdf d = (if stored then 1 else 0)%nat /\
          In (EvPdfGet link stored) d /\
          if stored then r = Some path /\ files w' = {[path]} ∪ files w
          else r = None /\ files w' = files w ∖ {[path]}
  end.

(** ** Exact traces *)






(** ** The download loop *)

(** The number that the download loop says it has turned to. *)
Definition announced (e : Event) : option Z :=
  match e with
  | EvPrint (MsgDownloadingResult num) => Some num
  | EvPrint (MsgInvalidResultNumber num) => Some num
  | _ => None
  end.

(** The numbers the loop turned to, in order. *)
Fixpoint turns (d : list Event) : list Z :=
  match d with
  | [] => []
  | e :: d' => match announced e with Some num => num :: turns d' | None => turns d' end
  end.

Definition no_turn (e : Event) : Prop := announced e = None.

(** The batch [paper_nums] was worked through, from the session [st] and
    the world [w] to [st'] and [w'] with the events [d]: the loop turned to
    every number, in the order given; no file was lost; and every number
    of a record with an arXiv id and a PDF link is in the download map
    afterwards, with its file on disk, unless a fetch of its PDF failed. *)
Definition batch_downloaded (paper_nums : list Z) (st st' : AppState) (w w' : World)
    (d : list Event) : Prop :=
  turns d = paper_nums /\
  files w ⊆ files w' /\
  forall num e link,
    In num paper_nums ->
    _get_entry_from_results (last_results_feed st) num = Some e ->
    pdf_source e = Some link ->
    (downloaded_pdfs st' !! num = Some (pdf_filepath_of e DOWNLOAD_DIR) /\
     pdf_filepath_of e DOWNLOAD_DIR ∈ files w') \/
    In (EvPdfGet link false) d.

(** ** Comparisons *)

(** No condition on the events: [log_grows anything] says that the log
    only grows. *)
Definition anything (e : Event) : Prop := True.

(** ** Requests, by kind *)

Definition is_delete (e : Event) : bool :=
  match e with EvDeleteFile _ => true | _ => false end.

Definition is_generate (e : Event) : bool :=
  match e with EvGenerate _ _ _ => true | _ => false end.

(** The events of the polling loop: refreshes and messages. *)
Definition poll_event (e : Event) : Prop :=
  match e with
  | EvPrint m => is_comparing_msg m = false
  | EvGetFile _ => True
  | _ => False
  end.

(** ** Invariants of the session *)

(** The session state a run ends with, however it ends. *)
Definition final_state {A} (out : Res A * AppState * World) : AppState := snd (fst out).

Definition final_world {A} (out : Res A * AppState * World) : World := snd out.

(** A relation between the session state before and after, whatever
    happens to the world. *)
Definition on_state (RS : relation AppState) : relation Config :=
  fun c c' => RS (fst c) (fst c').

(** Every handle the cache holds has the state ACTIVE. *)
Definition cache_active (st : AppState) : Prop :=
  forall p f, gemini_uploaded_files st !! p = Some f -> is_active (gstate f) = true.

(** The cache gains only ACTIVE handles. *)
Definition cache_gains (st st' : AppState) : Prop :=
  forall p f, gemini_uploaded_files st' !! p = Some f ->
    is_active (gstate f) = true \/ gemini_uploaded_files st !! p = Some f.

(** The paging settings are usable: the offset is not negative and a page
    has room for a record. *)
Definition paging_ok (st : AppState) : Prop :=
  0 <= current_start_index st /\ 1 <= current_max_results st.

Definition paging_kept (st st' : AppState) : Prop := paging_ok st -> paging_ok st'.

(** Every path in the download map is the path of a file that exists. *)
Definition downloads_on_disk (st : AppState) (w : World) : Prop :=
  forall n p, downloaded_pdfs st !! n = Some p -> p ∈ files w.

(** No file is lost, and the download map gains only paths of files that
    exist. *)
Definition disk_kept : relation Config := fun c c' =>
  files (snd c) ⊆ files (snd c') /\
  forall n p, downloaded_pdfs (fst c') !! n = Some p ->
    p ∈ files (snd c') \/ downloaded_pdfs (fst c) !! n = Some p.

(** After a run that started in the world [w]: no file of [w] is lost, and
    every path in the download map is the path of a file that exists. *)
Definition on_disk_after {A} (w : World) (out : Res A * AppState * World) : Prop :=
  files w ⊆ files (final_world out) /\
  downloads_on_disk (final_state out) (final_world out).

(** ** Requests to the model *)

(** What a computation returns, when it returns. *)
Definition returns {A} (Q : A -> Prop) (m : M A) : Prop :=
  forall st w, match fst (fst (m st w)) with Ok a => Q a | _ => True end.

Definition all_active (file_objects : list GFile) : Prop :=
  Forall (fun f => is_active (gstate f) = true) file_objects.

Definition usable (f : GFile) : Prop := guri f <> ""%string /\ gmime_type f <> ""%string.

(** A request to the model is sound when it names the session's model and
    one of the comparison prompts, and carries at least two file objects,
    all of them ACTIVE. Other events are not judged. *)
Definition sound_request (model : string) (e : Event) : Prop :=
  match e with
  | EvGenerate m prompt_key file_objects =>
      m = model /\ In prompt_key COMPARISON_TYPES /\
      (2 <= length file_objects)%nat /\ all_active file_objects
  | _ => True
  end.

(** While the session's model is [model], the log grows by sound requests
    and other events, and the model stays. *)
Definition requests_sound (model : string) : relation Config := fun c c' =>
  gemini_model_name (fst c) = model ->
  gemini_model_name (fst c') = model /\
  exists d, log (snd c') = log (snd c) ++ d /\ Forall (sound_request model) d.

(** ** Settings *)

(** The names the index accepts for [sortBy] and [sortOrder]. *)
Definition SORT_FIELDS : list string :=
  ["relevance"%string; "lastUpdatedDate"%string; "submittedDate"%string].

Definition SORT_ORDERS : list string := ["ascending"%string; "descending"%string].

(** ** Whitespace *)

(** Only whitespace; no whitespace. *)
Fixpoint all_space (s : string) : bool :=
  match s with
  | EmptyString => true
  | String c s' => Py.isspace c && all_space s'
  end.

Fixpoint no_space (s : string) : bool :=
  match s with
  | EmptyString => true
  | String c s' => negb (Py.isspace c) && no_space s'
  end.

(** An event that is not a query to the index. *)
Definition no_query (e : Event) : Prop := is_arxiv_query e = false.

(** ** The displayed page *)

(** The lines of the records of a page, numbered from [i]. *)
Fixpoint result_events (i : Z) (es : list Entry) : list Event :=
  match es with
  | [] => []
  | e :: es' => EvPrint (MsgResult i e) :: result_events (i + 1) es'
  end.

(** ** Citations *)

(** Only letters and digits. *)
Fixpoint all_alnum (s : string) : bool :=
  match s with
  | EmptyString => true
  | String c s' => Py.isalnum c && all_alnum s'
  end.

(** The message of the [IndexError] that [format_citation] reports. *)
Definition citation_index_error : string :=
  "Error generating citation: list index out of range"%string.

(** An entry with three authors, the second without a name to speak of. *)
Definition entry_blank_author : Entry := {|
  entry_id := Some "http://arxiv.org/abs/2301.00001v2"%string;
  entry_title := Some "A Paper"%string;
  entry_link := None;
  entry_authors := [ {| author_name := Some "Alan Turing"%string |};
                     {| author_name := Some " "%string |};
                     {| author_name := Some "Alonzo Church"%string |} ];
  entry_links := [];
  entry_published := Some "2023-01-15T12:34:56Z"%string;
  entry_updated := None;
  entry_summary := None;
  entry_arxiv_doi := None;
  entry_arxiv_journal_ref := None;
  entry_arxiv_primary_category := None;
  entry_tags := []
|}.

(** ** The list of downloads *)

(** How [show downloads] prints one download. *)
Definition show_item (st : AppState) (w : World) (item : Z * string) : ShowLine :=
  ShowItem (fst item) (snd item) (bool_decide (snd item ∈ files w))
    (bool_decide (is_Some (gemini_uploaded_files st !! snd item))).

Definition number_lt (a b : Z * string) : Prop := fst a < fst b.

(** An event other than the summary line of a batch of downloads. *)
Definition no_summary (e : Event) : Prop :=
  match e with
  | EvPrint (MsgDownloadComplete _ _) => False
  | _ => True
  end.

(** ** The one-shot run *)

(** An event that is no work on a PDF: no fetch, no upload, no request to
    the model. *)
Definition is_pdf_work (e : Event) : bool := is_pdf_get e || is_upload e || is_generate e.

Definition offline (e : Event) : Prop := is_pdf_work e = false.

(** A printed message. *)
Definition only_print (e : Event) : Prop :=
  match e with EvPrint _ => True | _ => False end.

(** What [search_arxiv] returns for the reply [reply] of the index. *)
Definition usable_feed (reply : option Feed) : option Feed :=
  match reply with
  | Some fd => if bozo fd || has_error_entry fd then None else Some fd
  | None => None
  end.

(** The prompts of a summary. *)
Definition SUMMARY_PROMPTS : list string :=
  [ "Summarize the key findings and results presented in the attached document."%string;
    "Provide a technical summary of the attached document, focusing on methodology and results for a researcher in the field."%string;
    "Provide a simple, easy-to-understand summary of the main points of the attached document. Explain it like I'm 5 years old."%string;
    "Provide a concise summary of the attached document."%string ].

(** * Sample sessions and worlds *)

(** The index and the PDF host are down; the user types a query. *)
Definition env_down : Env := {|
  input_reply := fun _ _ => Some "  graph neural networks ";
  arxiv_reply := fun _ _ _ _ _ _ => None;
  pdf_reply := fun _ _ => false;
  upload_reply := fun _ _ => None;
  get_file_reply := fun _ _ => None;
  delete_file_reply := fun _ _ => false;
  generate_reply := fun _ _ _ _ => None
|}.

Definition world0 : World := {| files := ∅; log := [] |}.

Definition st_busy : AppState :=
  set_gemini_uploaded_files
    {[ "arxiv_downloads/1707.08567v1.pdf" :=
         {| gname := "files/abc"; gstate := ACTIVE; guri := "uri"; gmime_type := "application/pdf" |} ]}
    (set_downloaded_pdfs {[ 3 := "arxiv_downloads/1707.08567v1.pdf" ]}
       (set_current_start_index 10
          (set_current_query "graph neural networks" AppState_init))).

Definition sample_entry (id : string) : Entry := {|
  entry_id := Some ("http://arxiv.org/abs/" +:+ id);
  entry_title := Some "A Paper";
  entry_link := Some ("http://arxiv.org/abs/" +:+ id);
  entry_authors := [ {| author_name := Some "Alan Turing" |} ];
  entry_links := [ {| link_title := Some "pdf"; link_type := Some "application/pdf";
                      link_href := Some ("http://arxiv.org/pdf/" +:+ id) |} ];
  entry_published := Some "2023-01-15T12:34:56Z";
  entry_updated := Some "2023-01-15T12:34:56Z";
  entry_summary := Some "An abstract.";
  entry_arxiv_doi := None;
  entry_arxiv_journal_ref := None;
  entry_arxiv_primary_category := Some "cs.LG";
  entry_tags := [Some "cs.LG"]
|}.

(** A page of two records at offset 0. *)
Definition page_of_two (total : Z) : Feed := {|
  bozo := false;
  feed := {| opensearch_startindex := Some 0; opensearch_totalresults := Some total |};
  entries := [sample_entry "1707.08567v1"; sample_entry "2301.00001v2"]
|}.

Definition st_page (total : Z) : AppState :=
  set_total_results_count total
    (set_last_results_feed (Some (page_of_two total))
       (set_current_max_results 2
          (set_current_query "graph neural networks" AppState_init))).

(** The library's answer on the timestamp of the sample entries. *)
Definition strptime_sample (s : string) : option (Z * Z * string) :=
  if String.eqb s "2023-01-15T12:34:56Z" then Some (2023, 1, "January") else None.

(** A file store whose cached handle has failed and which accepts the new
    upload at once. *)
Definition failed_file : GFile :=
  {| gname := "files/old"; gstate := FAILED; guri := "uri-old"; gmime_type := "application/pdf" |}.

Definition fresh_file : GFile :=
  {| gname := "files/new"; gstate := ACTIVE; guri := "uri-new"; gmime_type := "application/pdf" |}.

Definition env_stale : Env := {|
  input_reply := fun _ _ => None;
  arxiv_reply := fun _ _ _ _ _ _ => None;
  pdf_reply := fun _ _ => true;
  upload_reply := fun _ _ => Some fresh_file;
  get_file_reply := fun _ _ => Some failed_file;
  delete_file_reply := fun _ _ => true;
  generate_reply := fun _ _ _ _ => Some "analysis"
|}.

Definition st_cached : AppState :=
  set_gemini_uploaded_files {[ "arxiv_downloads/1707.08567v1.pdf" := failed_file ]}
    (set_downloaded_pdfs {[ 1 := "arxiv_downloads/1707.08567v1.pdf" ]} (st_page 25)).

(** A file store that needs time: a file is PROCESSING until it has been
    refreshed twice. *)
Definition env_slow : Env := {|
  input_reply := fun _ _ => None;
  arxiv_reply := fun _ _ _ _ _ _ => None;
  pdf_reply := fun _ _ => true;
  upload_reply := fun _ path =>
    Some {| gname := "files/new"; gstate := PROCESSING; guri := path;
            gmime_type := "application/pdf" |};
  get_file_reply := fun hist name =>
    Some {| gname := name;
            gstate := if (count_events (is_get_file name) hist <? 2)%nat
                      then PROCESSING else ACTIVE;
            guri := "uri"; gmime_type := "application/pdf" |};
  delete_file_reply := fun _ _ => true;
  generate_reply := fun _ _ _ _ => Some "analysis"
|}.

(** A batch of 21 numbers and a user who answers "N". *)
Definition env_says_no : Env := {|
  input_reply := fun _ _ => Some " N ";
  arxiv_reply := fun _ _ _ _ _ _ => None;
  pdf_reply := fun _ _ => true;
  upload_reply := fun _ _ => None;
  get_file_reply := fun _ _ => None;
  delete_file_reply := fun _ _ => false;
  generate_reply := fun _ _ _ _ => None
|}.

Definition twenty_one : string := "1,2,3,4,5,6,7,8,9,10,11,12,13,14,15,16,17,18,19,20,21".

(** A world in which everything works: the PDF host serves, uploads are
    ACTIVE at once, cached handles are still ACTIVE, the model answers. *)
Definition env_ok : Env := {|
  input_reply := fun _ _ => Some "y";
  arxiv_reply := fun _ _ _ _ _ _ => Some (page_of_two 25);
  pdf_reply := fun _ _ => true;
  upload_reply := fun _ path =>
    Some {| gname := "files/new"; gstate := ACTIVE; guri := path; gmime_type := "application/pdf" |};
  get_file_reply := fun _ name =>
    Some {| gname := name; gstate := ACTIVE; guri := "uri"; gmime_type := "application/pdf" |};
  delete_file_reply := fun _ _ => true;
  generate_reply := fun _ _ _ _ => Some "analysis"
|}.

(** The same, but the PDF host is down. *)
Definition env_no_pdf : Env := {|
  input_reply := input_reply env_ok;
  arxiv_reply := arxiv_reply env_ok;
  pdf_reply := fun _ _ => false;
  upload_reply := upload_reply env_ok;
  get_file_reply := get_file_reply env_ok;
  delete_file_reply := delete_file_reply env_ok;
  generate_reply := generate_reply env_ok
|}.

Definition path1 : string := "arxiv_downloads/1707.08567v1.pdf".
Definition path2 : string := "arxiv_downloads/2301.00001v2.pdf".

Definition handle1 : GFile :=
  {| gname := "files/one"; gstate := ACTIVE; guri := "uri"; gmime_type := "application/pdf" |}.

(** Paper 1 downloaded and uploaded, paper 2 untouched. *)
Definition st_one_ready : AppState :=
  set_gemini_uploaded_files {[ path1 := handle1 ]}
    (set_downloaded_pdfs {[ 1 := path1 ]} (set_gemini_enabled true (st_page 25))).

Definition world_one : World := {| files := {[ path1 ]}; log := [] |}.

(** A one-shot run that summarises paper 1 and then compares papers 1
    and 2; the same without the summary. *)
Definition args_summarize_compare : Args := {|
  args_query := "graph neural networks"%string;
  args_max_results := 10;
  args_start := 0;
  args_sort_by := "submittedDate"%string;
  args_sort_order := "descending"%string;
  args_download := None;
  args_download_dir := DOWNLOAD_DIR;
  args_summarize := Some ("1"%string, []);
  args_compare := Some ("1,2"%string, "methods"%string);
  args_model := None
|}.

Definition args_compare_only : Args := {|
  args_query := "graph neural networks"%string;
  args_max_results := 10;
  args_start := 0;
  args_sort_by := "submittedDate"%string;
  args_sort_order := "descending"%string;
  args_download := None;
  args_download_dir := DOWNLOAD_DIR;
  args_summarize := None;
  args_compare := Some ("1,2"%string, "methods"%string);
  args_model := None
|}.

(** The session of that run when it comes to the comparison: paper 1 is
    on disk and uploaded, the download map is empty. *)
Definition st_summarized : AppState :=
  set_gemini_uploaded_files {[ path1 := handle1 ]}
    (set_current_query "graph neural networks"%string
       (configured_state args_summarize_compare true false)).

(** A page whose feed does not say where it starts. *)
Definition page_without_offset : Feed := {|
  bozo := false;
  feed := {| opensearch_startindex := None; opensearch_totalresults := Some 25 |};
  entries := [sample_entry "1707.08567v1"; sample_entry "2301.00001v2"]
|}.

(** Three downloads, recorded out of order; the second file is gone and
    only the third is uploaded. *)
Definition st_three : AppState :=
  set_gemini_uploaded_files {[ "arxiv_downloads/c.pdf"%string := handle1 ]}
    (set_downloaded_pdfs
       (<[ 12 := "arxiv_downloads/c.pdf"%string ]>
          (<[ 3 := "arxiv_downloads/a.pdf"%string ]>
             {[ 7 := "arxiv_downloads/b.pdf"%string ]}))
       (st_page 25)).

Definition world_three : World :=
  {| files := {[ "arxiv_downloads/a.pdf"%string; "arxiv_downloads/c.pdf"%string ]}; log := [] |}.

(** * Properties *)

Local Close Scope Z_scope.
Local Open Scope string_scope.
Local Open Scope Z_scope.

(** ** The builtins on examples *)

Example split_maxsplit1_ex :
  Py.split_maxsplit1 "max   25 " = ["max"; "25 "] /\
  Py.split_maxsplit1 "  n  " = ["n"] /\ Py.split_maxsplit1 "   " = [].
Proof. repeat split; reflexivity. Qed.

Example split_ex :
  Py.split "," "3, 7,,15" = ["3"; " 7"; ""; "15"] /\
  Py.split "/abs/" "http://arxiv.org/abs/1707.08567v1" = ["http://arxiv.org"; "1707.08567v1"] /\
  Py.split "," "" = [""] /\ Py.split "," "1," = ["1"; ""].
Proof. repeat split; reflexivity. Qed.

Example int_ex :
  Py.int " 42 " = Some 42 /\ Py.int "-7" = Some (-7) /\ Py.int "1_000" = Some 1000 /\
  Py.int "ten" = None /\ Py.int "" = None /\ Py.int "1__0" = None /\ Py.int "3.5" = None.
Proof. repeat split; reflexivity. Qed.

Example strip_lower_ex : Py.lower (Py.strip "  Y ") = "y" /\ Py.strip "   " = "".
Proof. split; reflexivity. Qed.

(** ** Counting events *)

Lemma count_events_app p l1 l2 :
  count_events p (l1 ++ l2) = (count_events p l1 + count_events p l2)%nat.
Proof. induction l1 as [|e l1 IH]; simpl; [reflexivity | rewrite IH; lia]. Qed.

Lemma count_events_none p l : Forall (fun e => p e = false) l -> count_events p l = 0%nat.
Proof. induction 1 as [|e l He _ IH]; simpl; [reflexivity | now rewrite He, IH]. Qed.

(** ** Running the collaborators: results that do not touch the session *)

Lemma search_arxiv_keeps_state env query start max_results sort_by sort_order st w :
  exists r w', search_arxiv env query start max_results sort_by sort_order st w = (Ok r, st, w').
Proof.
  unfold search_arxiv, bind, print, emit, requests_get_arxiv, ret. simpl.
  destruct (arxiv_reply env _ _ _ _ _ _) as [fd|]; simpl; eauto.
  destruct (bozo fd); simpl.
  - destruct (has_error_entry fd); simpl; eauto.
  - destruct (has_error_entry fd); simpl; eauto.
    destruct (entries fd); simpl; eauto.
    destruct (0 <? _); simpl; eauto.
Qed.

Lemma print_results_keeps_state i es st w :
  exists w', print_results i es st w = (Ok tt, st, w').
Proof.
  revert i w. induction es as [|e es IH]; intros i w; simpl.
  - eexists. reflexivity.
  - unfold bind, print, emit. simpl. apply IH.
Qed.

Lemma display_results_keeps_state fd start_index st w :
  exists n w', display_results fd start_index st w = (Ok n, st, w').
Proof.
  unfold display_results.
  destruct fd as [fd|]; [|unfold bind, print, emit, ret; simpl; eauto].
  destruct (entries fd) as [|e es] eqn:E.
  - unfold bind, print, emit, ret. destruct (_ && _); simpl; eauto.
  - unfold bind at 1. unfold print at 1, emit.
    unfold bind at 1.
    match goal with
    | |- context [print_results ?i ?l ?s ?x] =>
        destruct (print_results_keeps_state i l s x) as [w' Hw']
    end.
    rewrite Hw'. unfold ret. eauto.
Qed.

(** ** C1: resolving a display number *)

(** C1. For every session state and every integer display number, [resolve]
    returns [None] when no page is loaded or when
    [index = display_number - 1 - page_start_offset] is outside
    [0, len(records)); otherwise it returns the record at position [index]
    of the current page; and in every case the session state (and the
    world) is left as it was. *)
Theorem resolve_spec (st : AppState) (w : World) (display_number : Z) :
  exists r : option Entry,
    resolve display_number st w = (Ok r, st, w) /\
    match last_results_feed st with
    | None => r = None
    | Some fd =>
        let index := display_number - 1 - page_start_offset fd in
        (0 <= index < Z.of_nat (length (entries fd)) ->
           exists e, r = Some e /\ entries fd !! Z.to_nat index = Some e) /\
        (~ 0 <= index < Z.of_nat (length (entries fd)) -> r = None)
    end.
Proof.
  unfold resolve, bind, get_state, ret. eexists. split; [reflexivity|].
  unfold _get_entry_from_results, page_start_offset.
  destruct (last_results_feed st) as [fd|]; [|reflexivity].
  cbv zeta. set (index := display_number - 1 - default 0 (opensearch_startindex (feed fd))).
  destruct (entries fd) as [|e0 es] eqn:E.
  - split; [simpl; lia | reflexivity].
  - rewrite <- E. split.
    + intros Hin.
      replace ((0 <=? index) && (index <? Z.of_nat (length (entries fd)))) with true
        by (symmetry; apply andb_true_iff; split; [apply Z.leb_le | apply Z.ltb_lt]; lia).
      destruct (entries fd !! Z.to_nat index) as [e|] eqn:L; [eauto|].
      apply lookup_ge_None in L. lia.
    + intros Hout.
      replace ((0 <=? index) && (index <? Z.of_nat (length (entries fd)))) with false;
        [reflexivity|].
      symmetry. apply andb_false_iff.
      destruct (Z.leb_spec 0 index); [right; apply Z.ltb_ge; lia | left; reflexivity].
Qed.

Example resolve_runs :
  _get_entry_from_results (Some (page_of_two 25)) 2 = Some (sample_entry "2301.00001v2") /\
  _get_entry_from_results (Some (page_of_two 25)) 3 = None /\
  _get_entry_from_results (Some (page_of_two 25)) 0 = None /\
  _get_entry_from_results None 1 = None.
Proof. repeat split; reflexivity. Qed.

(** ** C2: a new query resets the numbering *)

(** C2. For every session state and every behaviour of the outside, the
    [q] command with a query that is non-empty (once stripped, as the code
    reads it) ends with an empty download map, an empty upload map and the
    page offset 0. The state and the replies are arbitrary: the query may
    equal the current one and the index fetch may fail. *)
Theorem query_resets_session (env : Env) (st : AppState) (w : World) (line : string)
    (Hline : input_reply env (log w) PromptQuery = Some line)
    (Hquery : Py.strip line <> "") :
  exists st' w',
    cmd_q env st w = (Ok tt, st', w') /\
    current_query st' = Py.strip line /\
    downloaded_pdfs st' = ∅ /\
    gemini_uploaded_files st' = ∅ /\
    current_start_index st' = 0.
Proof.
  unfold cmd_q. unfold bind at 1. unfold input. rewrite Hline.
  destruct (Py.strip line) as [|c q] eqn:Eq; [congruence|].
  cbn [Py.is_empty].
  set (new_query := String c q).
  unfold bind at 1; unfold modify at 1.
  unfold bind at 1; unfold modify at 1.
  unfold bind at 1; unfold modify at 1.
  unfold bind at 1; unfold modify at 1.
  unfold bind at 1; unfold get_state at 1.
  unfold bind at 1.
  match goal with
  | |- context [search_arxiv env ?a ?b ?c ?d ?e ?s ?x] =>
      destruct (search_arxiv_keeps_state env a b c d e s x) as (r & w1 & Hs); rewrite Hs
  end.
  unfold bind at 1; unfold modify at 1.
  unfold bind at 1; unfold get_state at 1.
  cbn [last_results_feed set_last_results_feed].
  destruct r as [fd|].
  - unfold bind at 1; unfold modify at 1.
    unfold bind at 1; unfold get_state at 1.
    unfold bind at 1.
    match goal with
    | |- context [display_results ?f ?s ?s0 ?x] =>
        destruct (display_results_keeps_state f s s0 x) as (n & w2 & Hd); rewrite Hd
    end.
    unfold bind at 1; unfold get_state at 1.
    destruct (at_end _ n); unfold print, emit, ret; do 2 eexists; (split; [reflexivity|]);
      cbn; auto.
  - unfold modify. do 2 eexists. split; [reflexivity|]. cbn. auto.
Qed.

Lemma query_resets_session_witness :
  exists st' w',
    cmd_q env_down st_busy world0 = (Ok tt, st', w') /\
    current_query st' = "graph neural networks" /\
    downloaded_pdfs st' = ∅ /\
    gemini_uploaded_files st' = ∅ /\
    current_start_index st' = 0.
Proof.
  apply (query_resets_session env_down st_busy world0 "  graph neural networks ").
  - reflexivity.
  - vm_compute. discriminate.
Defined.

(** ** C3: the next page past the end *)

(** C3. For every session state with an active query and a non-empty last
    page, the [n] command with
    [current_offset + len(last_page_records) >= total_result_count]
    reports the end of the results and does nothing else: the only new
    event is that message, so no query is sent to the index, and the whole
    session state, with its offset, page and both maps, stays as it was. *)
Theorem next_page_at_end (env : Env) (st : AppState) (w : World) (fd : Feed)
    (Hquery : current_query st <> "")
    (Hpage : last_results_feed st = Some fd)
    (Hnonempty : entries fd <> [])
    (Hend : current_start_index st + Z.of_nat (length (entries fd)) >= total_results_count st) :
  cmd_n env st w = (Ok tt, st, record (EvPrint MsgAlreadyAtEnd) w) /\
  count_events is_arxiv_query (log (record (EvPrint MsgAlreadyAtEnd) w))
  = count_events is_arxiv_query (log w).
Proof.
  split; [|cbn [log record]; rewrite count_events_app; cbn; lia].
  unfold cmd_n. unfold bind at 1. unfold get_state at 1.
  destruct (current_query st) as [|c q] eqn:Eq; [congruence|]. cbn [Py.is_empty].
  unfold no_results. rewrite Hpage.
  destruct (entries fd) as [|e es] eqn:E; [congruence|].
  unfold bind at 1. unfold attr_entries, ret. rewrite E.
  replace (total_results_count st <=? current_start_index st + Z.of_nat (length (e :: es)))
    with true by (symmetry; apply Z.leb_le; lia).
  reflexivity.
Qed.

Lemma next_page_at_end_witness :
  cmd_n env_down (st_page 2) world0
  = (Ok tt, st_page 2, record (EvPrint MsgAlreadyAtEnd) world0) /\
  count_events is_arxiv_query (log (record (EvPrint MsgAlreadyAtEnd) world0))
  = count_events is_arxiv_query (log world0).
Proof.
  apply (next_page_at_end env_down (st_page 2) world0 (page_of_two 2)).
  - discriminate.
  - reflexivity.
  - discriminate.
  - vm_compute. discriminate.
Defined.

(** ** C4: a failed fetch of the next page *)

(** What [n] does when the index client fails: the offset has been advanced,
    the page has been replaced by [None], and the statement that should
    take the advance back reads [.entries] of that [None]. The exception
    ends the handler; the loop reports it and goes on. *)
Lemma next_page_fetch_failure (env : Env) (st : AppState) (w : World) (fd : Feed)
    (Hquery : current_query st <> "")
    (Hpage : last_results_feed st = Some fd)
    (Hnonempty : entries fd <> [])
    (Hmore : current_start_index st + Z.of_nat (length (entries fd)) < total_results_count st)
    (Hfail : forall h start, arxiv_reply env h (current_query st) start (current_max_results st)
                               (current_sort_by st) (current_sort_order st) = None) :
  exists st' w',
    loop_iteration (cmd_n env) st w = (Ok Continue, st', w') /\
    current_start_index st' = current_start_index st + Z.of_nat (length (entries fd)) /\
    last_results_feed st' = None /\
    List.last (log w') (EvPrint MsgRule) = EvPrint (MsgUnexpectedError AttributeError).
Proof.
  unfold loop_iteration, try_except, cmd_n.
  unfold bind at 1. unfold bind at 1. unfold get_state at 1.
  destruct (current_query st) as [|c q] eqn:Eq; [congruence|]. cbn [Py.is_empty].
  unfold no_results. rewrite Hpage.
  destruct (entries fd) as [|e es] eqn:E; [congruence|].
  unfold bind at 1. unfold attr_entries at 1, ret at 1. rewrite E.
  replace (total_results_count st <=? current_start_index st + Z.of_nat (length (e :: es)))
    with false by (symmetry; apply Z.leb_gt; lia).
  unfold bind at 1; unfold modify at 1.
  unfold bind at 1; unfold get_state at 1.
  unfold bind at 1.
  unfold search_arxiv, bind at 1, print at 1, emit at 1.
  unfold bind at 1, requests_get_arxiv.
  cbn [current_query current_max_results current_sort_by current_sort_order
       set_current_start_index].
  rewrite Eq, Hfail.
  unfold bind, print, emit, ret, modify, get_state, attr_entries, raise.
  cbn. do 2 eexists. split; [reflexivity|]. cbn.
  repeat split; try reflexivity.
  rewrite !last_last. reflexivity.
Qed.

(** C4 (what the code does at a failing input). The session shows the page
    of records 1-2 of 25 at offset 0 and the index is unreachable: after
    [n] the offset is 2, not 0, no page is loaded, and the log ends with the
    report of the [AttributeError] that cut the roll-back short. *)
Theorem next_page_failure_leaves_offset_advanced :
  exists st' w',
    loop_iteration (cmd_n env_down) (st_page 25) world0 = (Ok Continue, st', w') /\
    current_start_index (st_page 25) = 0 /\
    current_start_index st' = 2 /\
    last_results_feed st' = None /\
    log w' = [ EvPrint (MsgQuerying "graph neural networks" 2 2);
               EvArxivQuery "graph neural networks" 2 2 "submittedDate" "descending";
               EvPrint MsgRequestError;
               EvPrint (MsgUnexpectedError AttributeError) ].
Proof.
  do 2 eexists. split; [vm_compute; reflexivity|].
  repeat split; reflexivity.
Qed.

(** ** C9: the page size *)

(** C9. After [set max N] with an integer [N] the page size is
    [max(1, min(2000, N))], so it lies in [1, 2000] (1 below the range,
    2000 above it, [N] inside it), and the page offset is 0; with a value
    that [int] rejects the session state is unchanged. *)
Theorem set_max_clamps (st : AppState) (w : World) (args_str first value_str : string)
    (Hargs : Py.split_maxsplit1 args_str = [first; value_str])
    (Hmax : Py.lower first = "max") :
  exists st' w',
    cmd_set args_str st w = (Ok tt, st', w') /\
    match Py.int value_str with
    | Some n =>
        st' = set_current_start_index 0 (set_current_max_results (Z.max 1 (Z.min 2000 n)) st) /\
        1 <= current_max_results st' <= 2000 /\
        (n < 1 -> current_max_results st' = 1) /\
        (2000 < n -> current_max_results st' = 2000) /\
        (1 <= n <= 2000 -> current_max_results st' = n) /\
        current_start_index st' = 0
    | None => st' = st
    end.
Proof.
  unfold cmd_set. rewrite Hargs, Hmax. cbn [String.eqb Ascii.eqb Bool.eqb].
  destruct (Py.int value_str) as [n|].
  - unfold bind, modify, get_state, print, emit. do 2 eexists.
    split; [reflexivity|]. cbn. repeat split; lia.
  - unfold print, emit. do 2 eexists. split; reflexivity.
Qed.

Lemma set_max_clamps_witness :
  exists st' w',
    cmd_set "MAX 5000" (st_page 25) world0 = (Ok tt, st', w') /\
    match Py.int "5000" with
    | Some n =>
        st' = set_current_start_index 0
                (set_current_max_results (Z.max 1 (Z.min 2000 n)) (st_page 25)) /\
        1 <= current_max_results st' <= 2000 /\
        (n < 1 -> current_max_results st' = 1) /\
        (2000 < n -> current_max_results st' = 2000) /\
        (1 <= n <= 2000 -> current_max_results st' = n) /\
        current_start_index st' = 0
    | None => st' = st_page 25
    end.
Proof.
  apply (set_max_clamps (st_page 25) world0 "MAX 5000" "MAX" "5000"); reflexivity.
Defined.

Example set_max_runs :
  cmd_set "max 0" (st_page 25) world0
  = (Ok tt, set_current_start_index 0 (set_current_max_results 1 (st_page 25)),
     record (EvPrint (MsgMaxSet 1)) world0) /\
  cmd_set "max 12" (st_page 25) world0
  = (Ok tt, set_current_start_index 0 (set_current_max_results 12 (st_page 25)),
     record (EvPrint (MsgMaxSet 12)) world0) /\
  cmd_set "max ten" (st_page 25) world0
  = (Ok tt, st_page 25, record (EvPrint MsgInvalidMax) world0).
Proof. repeat split; reflexivity. Qed.

Example cite_apa_ex :
  format_citation strptime_sample "03 Nov. 2026" (sample_entry "2301.00001v2") "apa"
  = "Alan Turing. (2023). A Paper. arXiv preprint. Retrieved from http://arxiv.org/abs/2301.00001v2".
Proof. vm_compute. reflexivity. Qed.

(** ** Prefixes and suffixes of concatenations *)

Lemma append_nil_l (s : string) : "" ++ s = s.
Proof. reflexivity. Qed.

Lemma append_cons (x : ascii) (a b : string) : String x a ++ b = String x (a ++ b).
Proof. reflexivity. Qed.

Lemma append_assoc (a b c : string) : (a ++ b) ++ c = a ++ (b ++ c).
Proof.
  induction a as [|x a IH]; [reflexivity|].
  rewrite !append_cons, IH. reflexivity.
Qed.

Lemma append_empty_r (a : string) : a ++ "" = a.
Proof.
  induction a as [|x a IH]; [reflexivity|].
  rewrite append_cons, IH. reflexivity.
Qed.

Lemma prefix_append (p s : string) : String.prefix p (p ++ s) = true.
Proof.
  induction p as [|x p IH].
  - destruct s; reflexivity.
  - rewrite append_cons. simpl.
    destruct (ascii_dec x x); [exact IH | congruence].
Qed.

Lemma rev_app_append (s acc : string) : String.rev_app s acc = String.rev s ++ acc.
Proof.
  unfold String.rev. revert acc.
  induction s as [|x s IH]; intros acc; simpl; [reflexivity|].
  rewrite (IH (String x acc)), (IH (String x "")), append_assoc. reflexivity.
Qed.

Lemma rev_append (a b : string) : String.rev (a ++ b) = String.rev b ++ String.rev a.
Proof.
  induction a as [|x a IH].
  - rewrite append_nil_l. change (String.rev "") with "". now rewrite append_empty_r.
  - rewrite append_cons. unfold String.rev in *. simpl.
    rewrite (rev_app_append (a ++ b)), (rev_app_append a).
    unfold String.rev. rewrite IH, append_assoc. reflexivity.
Qed.

Lemma startswith_append (p s : string) : Py.startswith p (p ++ s) = true.
Proof. apply prefix_append. Qed.

Lemma endswith_append (p s : string) : Py.endswith s (p ++ s) = true.
Proof. unfold Py.endswith. rewrite rev_append. apply prefix_append. Qed.

(** ** C8: the APA citation *)

Lemma format_apa_starts title a0 rest year month url doi journal_ref :
  Py.startswith a0 (format_apa title (a0 :: rest) year month url doi journal_ref) = true.
Proof.
  unfold format_apa.
  assert (H : exists tail, (match a0 :: rest with
                            | [] => "Unknown Author"
                            | [a] => a
                            | [a; a1] => a ++ " & " ++ a1
                            | a :: _ => a ++ " et al."
                            end) = a0 ++ tail).
  { destruct rest as [|a1 [|a2 rest]]; eauto. exists "". now rewrite append_empty_r. }
  destruct H as [tail ->].
  destruct (Py.is_empty journal_ref), (Py.is_empty doi), (Py.is_empty url); cbn [negb];
    rewrite ?append_assoc; apply startswith_append.
Qed.

Lemma format_apa_ends_doi title authors year month url doi journal_ref :
  doi <> "" ->
  Py.endswith doi (format_apa title authors year month url doi journal_ref) = true /\
  Py.endswith ("https://doi.org/" ++ doi)
    (format_apa title authors year month url doi journal_ref) = true.
Proof.
  intros Hdoi. unfold format_apa.
  destruct doi as [|c d]; [congruence|]. cbn [Py.is_empty negb].
  split.
  - match goal with
    | |- Py.endswith ?d (?x ++ (" https://doi.org/" ++ ?d)) = true =>
        rewrite <- (append_assoc x " https://doi.org/" d)
    end.
    apply endswith_append.
  - match goal with
    | |- Py.endswith _ (?x ++ (" https://doi.org/" ++ ?d)) = true =>
        change (x ++ (" https://doi.org/" ++ d)) with (x ++ (" " ++ ("https://doi.org/" ++ d)));
        rewrite <- (append_assoc x " " ("https://doi.org/" ++ d))
    end.
    apply endswith_append.
Qed.

Lemma format_apa_ends_url title authors year month url journal_ref :
  url <> "" ->
  Py.endswith url (format_apa title authors year month url "" journal_ref) = true.
Proof.
  intros Hurl. unfold format_apa.
  destruct url as [|c u]; [congruence|]. cbn [Py.is_empty negb].
  match goal with
  | |- Py.endswith ?u (?x ++ (" Retrieved from " ++ ?u)) = true =>
      rewrite <- (append_assoc x " Retrieved from " u)
  end.
  apply endswith_append.
Qed.

(** What [format_citation] hands to [format_apa]. *)
Lemma format_citation_apa strptime today (e : Entry) :
  exists title year month,
    format_citation strptime today e "apa"
    = format_apa title (author_display <$> entry_authors e) year month
        (default ("https://arxiv.org/abs/"
                  ++ Py.last_item (Py.split "/abs/" (default "" (entry_id e))))
           (entry_link e))
        (default "" (entry_arxiv_doi e)) (default "" (entry_arxiv_journal_ref e)).
Proof.
  unfold format_citation.
  change (negb (in_list (Py.lower "apa") CITATION_FORMATS)) with false. cbv iota.
  change (Py.lower "apa") with "apa".
  change (String.eqb "apa" "bibtex") with false.
  change (String.eqb "apa" "apa") with true.
  destruct (strptime (default "" (entry_published e))) as [[[y m] name]|]; cbv iota beta;
    eauto.
Qed.

(** C8 (as the code has it). For every entry with at least one author and
    a non-empty abstract-page link, whatever its published date, the APA
    citation starts with the first author's name as the entry records it
    (the whole name, not the surname) and ends with the DOI, behind
    [https://doi.org/], when the entry has one, and with the abstract-page
    URL otherwise. *)
Theorem cite_apa_shape (strptime : string -> option (Z * Z * string)) (today : string)
    (e : Entry) (a : Author) (rest : list Author) (url : string)
    (Hauthors : entry_authors e = a :: rest)
    (Hlink : entry_link e = Some url)
    (Hurl : url <> "") :
  let cite := format_citation strptime today e "apa" in
  let doi := default "" (entry_arxiv_doi e) in
  Py.startswith (author_display a) cite = true /\
  (doi <> "" -> Py.endswith doi cite = true /\ Py.endswith ("https://doi.org/" ++ doi) cite = true) /\
  (doi = "" -> Py.endswith url cite = true).
Proof.
  cbv zeta.
  destruct (format_citation_apa strptime today e) as (title & year & month & ->).
  rewrite Hauthors, Hlink. cbn [default fmap list_fmap].
  split; [apply format_apa_starts|]. split.
  - apply format_apa_ends_doi.
  - intros ->. apply format_apa_ends_url. exact Hurl.
Qed.

Lemma cite_apa_shape_witness :
  let e := sample_entry "2301.00001v2" in
  let cite := format_citation strptime_sample "03 Nov. 2026" e "apa" in
  let doi := default "" (entry_arxiv_doi e) in
  Py.startswith "Alan Turing" cite = true /\
  (doi <> "" -> Py.endswith doi cite = true /\ Py.endswith ("https://doi.org/" ++ doi) cite = true) /\
  (doi = "" -> Py.endswith "http://arxiv.org/abs/2301.00001v2" cite = true).
Proof.
  apply (cite_apa_shape strptime_sample "03 Nov. 2026" (sample_entry "2301.00001v2")
           {| author_name := Some "Alan Turing" |} [] "http://arxiv.org/abs/2301.00001v2").
  - reflexivity.
  - reflexivity.
  - discriminate.
Defined.

(** Against C8 as the specification words it: the entry's first author is
    "Alan Turing", its date parses and it has an abstract link; the
    citation starts with "Alan", not with the surname "Turing". *)
Lemma cite_apa_surname_counterexample :
  let e := sample_entry "2301.00001v2" in
  let cite := format_citation strptime_sample "03 Nov. 2026" e "apa" in
  entry_authors e = [ {| author_name := Some "Alan Turing" |} ] /\
  strptime_sample (default "" (entry_published e)) = Some (2023, 1, "January") /\
  entry_link e = Some "http://arxiv.org/abs/2301.00001v2" /\
  last_name "Alan Turing" = Some "Turing" /\
  cite = "Alan Turing. (2023). A Paper. arXiv preprint. Retrieved from http://arxiv.org/abs/2301.00001v2" /\
  Py.startswith "Turing" cite = false.
Proof. vm_compute. repeat split; reflexivity. Qed.

Local Close Scope string_scope.

(** ** Traces: the relations pass through the monad *)

Section Respects.

Context (R : relation Config) `{!PreOrder R}.

Lemma respects_ret {A} (a : A) : respects R (ret a).
Proof. intros st w. simpl. reflexivity. Qed.

Lemma respects_raise {A} (e : Exn) : respects R (@raise A e).
Proof. intros st w. simpl. reflexivity. Qed.

Lemma respects_out_of_fuel {A} : respects R (@out_of_fuel A).
Proof. intros st w. simpl. reflexivity. Qed.

Lemma respects_get_state : respects R get_state.
Proof. intros st w. simpl. reflexivity. Qed.

Lemma respects_path_exists p : respects R (path_exists p).
Proof. intros st w. simpl. reflexivity. Qed.

Lemma respects_bind {A B} (m : M A) (k : A -> M B) :
  respects R m -> (forall a, respects R (k a)) -> respects R (bind m k).
Proof.
  intros Hm Hk st w. unfold bind.
  specialize (Hm st w).
  destruct (m st w) as [[[a|e|] st1] w1]; simpl in *; try exact Hm.
  etransitivity; [exact Hm | apply Hk].
Qed.

Lemma respects_try_except {A} (m : M A) (h : Exn -> M A) :
  respects R m -> (forall e, respects R (h e)) -> respects R (try_except m h).
Proof.
  intros Hm Hh st w. unfold try_except.
  specialize (Hm st w).
  destruct (m st w) as [[[a|e|] st1] w1]; simpl in *; try exact Hm.
  etransitivity; [exact Hm | apply Hh].
Qed.

End Respects.

#[export] Instance log_grows_preorder Q : PreOrder (log_grows Q).
Proof.
  split.
  - intros c. exists []. split; [now rewrite app_nil_r | constructor].
  - intros c1 c2 c3 (d1 & H1 & F1) (d2 & H2 & F2).
    exists (d1 ++ d2). split; [now rewrite H2, H1, app_assoc | now apply Forall_app].
Qed.

#[export] Instance same_files_preorder : PreOrder same_files.
Proof. split; [intros c; reflexivity | intros c1 c2 c3 H1 H2; unfold same_files in *; congruence]. Qed.

#[export] Instance same_on_preorder {X} (f : AppState -> X) : PreOrder (same_on f).
Proof. split; [intros c; reflexivity | intros c1 c2 c3 H1 H2; unfold same_on in *; congruence]. Qed.

Lemma respects_emit_log (Q : Event -> Prop) e : Q e -> respects (log_grows Q) (emit e).
Proof. intros H st w. exists [e]. split; [reflexivity | repeat constructor; exact H]. Qed.

Lemma respects_modify_log (Q : Event -> Prop) f : respects (log_grows Q) (modify f).
Proof. intros st w. exists []. split; [simpl; now rewrite app_nil_r | constructor]. Qed.

Lemma respects_emit_files e : respects same_files (emit e).
Proof. intros st w. reflexivity. Qed.

Lemma respects_modify_files f : respects same_files (modify f).
Proof. intros st w. reflexivity. Qed.

Lemma respects_emit_on {X} (f : AppState -> X) e : respects (same_on f) (emit e).
Proof. intros st w. reflexivity. Qed.

Lemma respects_modify_on {X} (f : AppState -> X) g :
  (forall st, f (g st) = f st) -> respects (same_on f) (modify g).
Proof. intros H st w. apply H. Qed.

Lemma emits_one_log {A} (P Q : Event -> Prop) (m : M A) :
  emits_one P m -> (forall e, P e -> Q e) -> respects (log_grows Q) m.
Proof.
  intros Hm HPQ st w. destruct (Hm st w) as (res & e & -> & He).
  exists [e]. split; [reflexivity | repeat constructor; auto].
Qed.

Lemma emits_one_files {A} (P : Event -> Prop) (m : M A) :
  emits_one P m -> respects same_files m.
Proof. intros Hm st w. destruct (Hm st w) as (res & e & -> & He). reflexivity. Qed.

Lemma emits_one_on {A X} (P : Event -> Prop) (f : AppState -> X) (m : M A) :
  emits_one P m -> respects (same_on f) m.
Proof. intros Hm st w. destruct (Hm st w) as (res & e & -> & He). reflexivity. Qed.

Lemma emit_emits e : emits_one (eq e) (emit e).
Proof. intros st w. do 2 eexists. split; reflexivity. Qed.

Lemma input_emits env p : emits_one (eq (EvInput p)) (input env p).
Proof.
  intros st w. unfold input. destruct (input_reply env (log w) p); do 2 eexists; split; reflexivity.
Qed.

Lemma requests_get_arxiv_emits env q s m sb so :
  emits_one (eq (EvArxivQuery q s m sb so)) (requests_get_arxiv env q s m sb so).
Proof. intros st w. do 2 eexists. split; reflexivity. Qed.

Lemma requests_get_pdf_emits env url :
  emits_one (fun e => exists stored, e = EvPdfGet url stored) (requests_get_pdf env url).
Proof. intros st w. do 2 eexists. split; [reflexivity | eauto]. Qed.

Lemma genai_upload_file_emits env path name :
  emits_one (eq (EvUploadFile path name)) (genai_upload_file env path name).
Proof.
  intros st w. unfold genai_upload_file.
  destruct (upload_reply env (log w) path); do 2 eexists; split; reflexivity.
Qed.

Lemma genai_get_file_emits env name :
  emits_one (eq (EvGetFile name)) (genai_get_file env name).
Proof.
  intros st w. unfold genai_get_file.
  destruct (get_file_reply env (log w) name); do 2 eexists; split; reflexivity.
Qed.

Lemma genai_delete_file_emits env name :
  emits_one (eq (EvDeleteFile name)) (genai_delete_file env name).
Proof.
  intros st w. unfold genai_delete_file.
  destruct (delete_file_reply env (log w) name); do 2 eexists; split; reflexivity.
Qed.

Lemma generate_content_emits env model key fs :
  emits_one (eq (EvGenerate model key fs)) (generate_content env model key fs).
Proof. intros st w. do 2 eexists. split; reflexivity. Qed.

(** Structural steps for goals [respects R m]. *)
Create HintDb traces.

Ltac respects_step :=
  lazymatch goal with
  | |- respects _ (print _) => unfold print
  | |- respects _ (bind _ _) => apply respects_bind; try exact _; [| intros ?]
  | |- respects _ (try_except _ _) => apply respects_try_except; try exact _; [| intros ?]
  | |- respects _ (ret _) => apply respects_ret; exact _
  | |- respects _ (raise _) => apply respects_raise; exact _
  | |- respects _ out_of_fuel => apply respects_out_of_fuel; exact _
  | |- respects _ get_state => apply respects_get_state; exact _
  | |- respects _ (path_exists _) => apply respects_path_exists; exact _
  | |- respects _ (os_makedirs _) => unfold os_makedirs
  | |- respects _ (if ?b then _ else _) => destruct b
  | |- respects _ (match ?x with _ => _ end) => destruct x
  | |- respects _ (let '(_, _) := ?x in _) => destruct x
  end.

Ltac respects_log :=
  repeat first
    [ solve [auto with traces]
    | respects_step
    | apply respects_modify_log
    | apply respects_emit_log; first [exact I | reflexivity]
    | eapply emits_one_log;
      [ first [ apply emit_emits | apply input_emits | apply requests_get_arxiv_emits
              | apply requests_get_pdf_emits | apply genai_upload_file_emits
              | apply genai_get_file_emits | apply genai_delete_file_emits
              | apply generate_content_emits ]
      | intros ? ?; repeat match goal with H : exists _, _ |- _ => destruct H end;
        subst; first [exact I | reflexivity] ] ].

Ltac respects_files :=
  repeat first
    [ solve [auto with traces]
    | respects_step
    | apply respects_modify_files
    | apply respects_emit_files
    | eapply emits_one_files;
      first [ apply emit_emits | apply input_emits | apply requests_get_arxiv_emits
            | apply requests_get_pdf_emits | apply genai_upload_file_emits
            | apply genai_get_file_emits | apply genai_delete_file_emits
            | apply generate_content_emits ] ].

Ltac respects_on :=
  repeat first
    [ solve [auto with traces]
    | respects_step
    | apply respects_modify_on; intros ?; reflexivity
    | apply respects_emit_on
    | eapply emits_one_on;
      first [ apply emit_emits | apply input_emits | apply requests_get_arxiv_emits
            | apply requests_get_pdf_emits | apply genai_upload_file_emits
            | apply genai_get_file_emits | apply genai_delete_file_emits
            | apply generate_content_emits ] ].

(** ** The upload path *)

Lemma poll_log env fuel name rf fs :
  respects (log_grows refresh_event) (poll env fuel name rf fs).
Proof.
  revert rf fs. induction fuel as [|fuel IH]; intros rf fs; simpl; respects_log.
Qed.

Lemma poll_files env fuel name rf fs : respects same_files (poll env fuel name rf fs).
Proof.
  revert rf fs. induction fuel as [|fuel IH]; intros rf fs; simpl; respects_files.
Qed.

Lemma poll_state env fuel name rf fs : respects same_state (poll env fuel name rf fs).
Proof.
  unfold same_state.
  revert rf fs. induction fuel as [|fuel IH]; intros rf fs; simpl; respects_on.
Qed.

#[export] Hint Resolve poll_log poll_files poll_state : traces.

Lemma try_delete_log env name : respects (log_grows refresh_event) (try_delete env name).
Proof. unfold try_delete. respects_log. Qed.

Lemma try_delete_files env name : respects same_files (try_delete env name).
Proof. unfold try_delete. respects_files. Qed.

Lemma try_delete_state env name : respects same_state (try_delete env name).
Proof. unfold same_state, try_delete. respects_on. Qed.

#[export] Hint Resolve try_delete_log try_delete_files try_delete_state : traces.

Lemma await_ready_log env fuel uf : respects (log_grows refresh_event) (await_ready env fuel uf).
Proof. unfold await_ready. respects_log. Qed.

Lemma await_ready_files env fuel uf : respects same_files (await_ready env fuel uf).
Proof. unfold await_ready. respects_files. Qed.

Lemma await_ready_state env fuel uf : respects same_state (await_ready env fuel uf).
Proof. unfold same_state, await_ready. respects_on; apply poll_state || apply try_delete_state. Qed.

#[export] Hint Resolve await_ready_log await_ready_files await_ready_state : traces.

(** Evaluating the monad's own operations. *)
Ltac run :=
  cbv beta iota zeta delta
    [bind try_except print emit modify get_state ret raise out_of_fuel
     path_exists write_file remove_if_exists os_makedirs fst snd].

(** Case analysis on the next reply of the outside. *)
Ltac case_reply :=
  match goal with
  | |- context [delete_file_reply ?e ?h ?n] => destruct (delete_file_reply e h n) eqn:?
  | |- context [get_file_reply ?e ?h ?n] => destruct (get_file_reply e h n) eqn:?
  | |- context [upload_reply ?e ?h ?n] => destruct (upload_reply e h n) eqn:?
  | |- context [pdf_reply ?e ?h ?n] => destruct (pdf_reply e h n) eqn:?
  | |- context [input_reply ?e ?h ?n] => destruct (input_reply e h n) eqn:?
  end.

Lemma try_delete_ok env name st w :
  exists w', try_delete env name st w = (Ok tt, st, w').
Proof.
  unfold try_delete, genai_delete_file. run.
  case_reply; run; eauto.
Qed.

(** The loop ends out of PROCESSING, with the state of the file it returns. *)
Lemma poll_result env fuel name :
  forall rf fs st w rf' fs' st' w',
    poll env fuel name rf fs st w = (Ok (rf', fs'), st', w') ->
    is_processing fs' = false /\ (fs = gstate rf -> fs' = gstate rf').
Proof.
  induction fuel as [|fuel IH]; intros rf fs st w rf' fs' st' w'; simpl.
  - destruct (is_processing fs) eqn:E; run; intros H; inversion H; subst. auto.
  - destruct (is_processing fs) eqn:E; run.
    + unfold genai_get_file.
      case_reply; run; [|discriminate].
      intros H. apply IH in H. destruct H as [H1 H2]. split; [exact H1|].
      intros _. apply H2. reflexivity.
    + intros H; inversion H; subst. auto.
Qed.



Ltac use_try_delete :=
  match goal with
  | |- context [try_delete ?e ?n ?s ?x] =>
      let w' := fresh "w" in
      let H := fresh "H" in
      destruct (try_delete_ok e n s x) as [w' H]; rewrite H
  end.

(** How [await_ready] can end: with an ACTIVE file, with nothing, or still
    polling when the budget is used up; never with an exception. *)
Lemma await_ready_result env fuel uf st w :
  match fst (fst (await_ready env fuel uf st w)) with
  | Ok (Some f) => is_active (gstate f) = true
  | Ok None => True
  | Raise _ => False
  | OutOfFuel =>
      fst (fst (poll env fuel (gname uf) uf (gstate uf) st
                  (record (EvPrint (MsgWaiting (gname uf)))
                     (record (EvPrint (MsgUploadedInitially uf)) w)))) = OutOfFuel
  end.
Proof.
  unfold await_ready. run.
  destruct (poll env fuel (gname uf) uf (gstate uf) st _) as [[[[rf' fs']|e|] st1] w1] eqn:Hp;
    run.
  - apply poll_result in Hp. destruct Hp as [_ Hfs]. specialize (Hfs eq_refl). subst fs'.
    destruct (is_active (gstate rf')) eqn:Ea; run; [exact Ea|].
    use_try_delete. exact I.
  - destruct (Py.is_empty (gname uf)); run; [exact I|].
    use_try_delete. exact I.
  - reflexivity.
Qed.

Lemma refresh_events_no_upload d : Forall refresh_event d -> count_events is_upload d = 0%nat.
Proof.
  intros H. apply count_events_none. eapply Forall_impl; [exact H|].
  intros [] He; simpl in *; try reflexivity; contradiction.
Qed.

(** [upload_pdf_to_gemini] announces the upload, calls [genai.upload_file]
    once, and after that only refreshes, deletes and prints. It returns an
    ACTIVE file or nothing, and leaves the session and the files alone. *)
Lemma upload_pdf_to_gemini_shape env fuel path st w :
  exists res w' d,
    upload_pdf_to_gemini env fuel path st w = (res, st, w') /\
    files w' = files w /\
    log w' = log w ++ EvPrint (MsgUploading (os_path_basename path))
                   :: EvUploadFile path (os_path_basename path) :: d /\
    Forall refresh_event d /\
    match res with
    | Ok (Some f) => is_active (gstate f) = true
    | Ok None => True
    | Raise _ => False
    | OutOfFuel => True
    end.
Proof.
  unfold upload_pdf_to_gemini. run. unfold genai_upload_file. cbn [log record].
  destruct (upload_reply env _ path) as [uf|]; run.
  - match goal with
    | |- context [await_ready env fuel uf st ?x] =>
        pose proof (await_ready_log env fuel uf st x) as Hl;
        pose proof (await_ready_files env fuel uf st x) as Hf;
        pose proof (await_ready_state env fuel uf st x) as Hs;
        pose proof (await_ready_result env fuel uf st x) as Hr;
        destruct (await_ready env fuel uf st x) as [[res st'] w'] eqn:Ha
    end.
    unfold log_grows, same_files, same_state, same_on in Hl, Hf, Hs. cbn in Hl, Hf, Hs.
    destruct Hl as (d & Hd & HF). subst st'.
    exists res, w', d. split; [reflexivity|]. split; [exact Hf|].
    split; [rewrite Hd; rewrite <- !app_assoc; reflexivity|].
    split; [exact HF|].
    cbn in Hr. destruct res as [[f|]| |]; auto.
  - do 3 eexists. split; [reflexivity|]. split; [reflexivity|].
    split; [cbn; rewrite <- !app_assoc; reflexivity|].
    split; [repeat constructor | exact I].
Qed.


(** ** C7: a stale cached handle *)



(** The file store of [env_stale] never answers PROCESSING. *)
Lemma env_stale_settles : settles_within env_stale 0.
Proof. intros hist name f _ H. inversion H. reflexivity. Qed.

Example stale_handle_run :
  let '(r, st', w') :=
    _get_or_upload_gemini_file env_stale 1 "arxiv_downloads/1707.08567v1.pdf" st_cached world0 in
  r = Ok (Some fresh_file) /\
  gemini_uploaded_files st' !! "arxiv_downloads/1707.08567v1.pdf" = Some fresh_file /\
  log w' = [ EvGetFile "files/old";
             EvPrint (MsgCachedNotActive "files/old" FAILED);
             EvDeleteFile "files/old";
             EvPrint (MsgUploading "1707.08567v1.pdf");
             EvUploadFile "arxiv_downloads/1707.08567v1.pdf" "1707.08567v1.pdf";
             EvPrint (MsgUploadedInitially fresh_file);
             EvPrint (MsgWaiting "files/new");
             EvPrint (MsgFileActive "files/new") ].
Proof. vm_compute. repeat split; reflexivity. Qed.

(** With a slow file store the budget matters: two rounds are not enough,
    three are, and there is one upload either way. *)
Example slow_upload_runs :
  settles_within env_slow 2 /\
  (let '(res, st', w') := _get_or_upload_gemini_file env_slow 2 path1 st_cached world0 in
   res = OutOfFuel /\ count_events is_upload (log w') = 1%nat) /\
  (let '(res, st', w') := _get_or_upload_gemini_file env_slow 3 path1 st_cached world0 in
   res = Ok (Some {| gname := "files/new"; gstate := ACTIVE; guri := "uri";
                     gmime_type := "application/pdf" |}) /\
   count_events is_upload (log w') = 1%nat /\
   count_events (is_get_file "files/new") (log w') = 3%nat /\
   gemini_uploaded_files st' !! path1
   = Some {| gname := "files/new"; gstate := ACTIVE; guri := "uri";
             gmime_type := "application/pdf" |}).
Proof.
  split.
  - intros hist name f Hk H. unfold env_slow, get_file_reply in H. inversion H. cbn [gstate].
    destruct (Nat.ltb_spec (count_events (is_get_file name) hist) 2); [lia | reflexivity].
  - split; vm_compute; repeat split; reflexivity.
Qed.

(** ** The PDF fetcher *)

Lemma is_empty_true (s : string) : Py.is_empty s = true -> s = EmptyString.
Proof. destruct s; [reflexivity | discriminate]. Qed.

(** What a call of [download_pdf] comes to: a result with its outcome, or
    the failure of [os.makedirs] on the empty directory, which an entry
    without an arXiv id or without a PDF link does not reach. *)
Lemma download_pdf_result env entry directory st w :
  exists res w' d,
    download_pdf env entry directory st w = (res, st, w') /\
    log w' = log w ++ d /\
    Forall fetch_event d /\
    match res with
    | Ok r => (directory <> EmptyString \/ pdf_source entry = None) /\
              fetch_outcome entry directory w w' d r
    | Raise e => e = OSError /\ directory = EmptyString /\ pdf_source entry <> None /\
                 files w' = files w /\ count_events is_pdf_get d = 0%nat
    | OutOfFuel => False
    end.
Proof.
  unfold download_pdf, fetch_outcome, pdf_source.
  destruct (Py.is_empty (arxiv_id_base entry)).
  { run. do 3 eexists. split; [reflexivity|]. split; [reflexivity|].
    split; [repeat constructor | auto]. }
  destruct (find_pdf_link (entry_links entry) None) as [[|c found]|]; cycle 1.
  2: { run. do 3 eexists. split; [reflexivity|]. split; [reflexivity|].
       split; [repeat constructor | auto]. }
  2: { run. do 3 eexists. split; [reflexivity|]. split; [reflexivity|].
       split; [repeat constructor | auto]. }
  set (f0 := String c found).
  assert (Hlink : exists pre : list Event,
             Forall fetch_event pre /\ count_events is_pdf_get pre = 0%nat /\
             forall w0,
               (if Py.startswith "//" f0 then ret ("https:" +:+ f0)
                else if negb (Py.startswith "http://" f0 || Py.startswith "https://" f0)
                     then print (MsgUnusualLink f0);; ret f0 else ret f0) st w0
               = (Ok (if Py.startswith "//" f0 then "https:" +:+ f0 else f0), st,
                  {| files := files w0; log := log w0 ++ pre |})).
  { destruct (Py.startswith "//" f0).
    - exists []. split; [constructor|]. split; [reflexivity|].
      intros [fs lg]. run. cbn. now rewrite app_nil_r.
    - destruct (negb _).
      + exists [EvPrint (MsgUnusualLink f0)]. split; [repeat constructor|].
        split; [reflexivity|]. intros w0. reflexivity.
      + exists []. split; [constructor|]. split; [reflexivity|].
        intros [fs lg]. run. cbn. now rewrite app_nil_r. }
  destruct Hlink as (pre & Hpre & Hcount & Hrun).
  unfold bind at 1. rewrite Hrun. clear Hrun.
  set (link := if Py.startswith "//" f0 then "https:" +:+ f0 else f0).
  run. cbn [files log].
  destruct (Py.is_empty directory) eqn:Hdir.
  { apply is_empty_true in Hdir. do 3 eexists. split; [reflexivity|]. cbn [log files].
    split; [reflexivity|]. split; [exact Hpre|].
    split; [reflexivity|]. split; [exact Hdir|]. split; [discriminate|]. auto. }
  assert (Hne : directory <> EmptyString) by (intros ->; discriminate).
  run. cbn [files log].
  destruct (bool_decide (pdf_filepath_of entry directory ∈ files w)) eqn:Hex.
  - do 3 eexists. split; [reflexivity|]. cbn [log record files].
    split; [rewrite <- !app_assoc; reflexivity|].
    split; [apply Forall_app; split; [exact Hpre | repeat constructor]|].
    split; [left; exact Hne|].
    split; [reflexivity|]. split; [reflexivity|].
    rewrite count_events_app, Hcount. reflexivity.
  - unfold requests_get_pdf. cbn [log record].
    destruct (pdf_reply env _ link) eqn:Hreply.
    + do 3 eexists. split; [reflexivity|]. cbn [log record files].
      split; [rewrite <- !app_assoc; reflexivity|].
      split; [apply Forall_app; split; [exact Hpre | repeat constructor]|].
      split; [left; exact Hne|].
      exists true. rewrite !count_events_app, Hcount. cbn.
      assert (count_events is_stored_pdf pre = 0%nat) as ->.
      { clear -Hcount. induction pre as [|e pre IH]; [reflexivity|].
        cbn in *. destruct e; cbn in *; try lia; auto. }
      repeat split; try reflexivity.
      rewrite !in_app_iff. cbn. auto 10.
    + do 3 eexists. split; [reflexivity|]. cbn [log record files].
      split; [rewrite <- !app_assoc; reflexivity|].
      split; [apply Forall_app; split; [exact Hpre | repeat constructor]|].
      split; [left; exact Hne|].
      exists false. rewrite !count_events_app, Hcount. cbn.
      assert (count_events is_stored_pdf pre = 0%nat) as ->.
      { clear -Hcount. induction pre as [|e pre IH]; [reflexivity|].
        cbn in *. destruct e; cbn in *; try lia; auto. }
      repeat split; try reflexivity.
      rewrite !in_app_iff. cbn. auto 10.
Qed.

(** With a directory that has a name the call returns. *)
Lemma download_pdf_spec env entry directory st w :
  directory <> EmptyString ->
  exists r w' d,
    download_pdf env entry directory st w = (Ok r, st, w') /\
    log w' = log w ++ d /\
    Forall fetch_event d /\
    fetch_outcome entry directory w w' d r.
Proof.
  intros Hdir.
  destruct (download_pdf_result env entry directory st w) as (res & w' & d & Hrun & Hlog & HF & Hres).
  destruct res as [r|e|]; [|destruct Hres as (_ & Hd & _); contradiction|contradiction].
  exists r, w', d. destruct Hres as [_ Hout]. auto.
Qed.

Lemma download_dir_named : DOWNLOAD_DIR <> EmptyString.
Proof. discriminate. Qed.

(** An entry that fails the test [if entry:] has no arXiv id to fetch. *)
Lemma falsy_entry_no_source e : entry_truthy e = false -> pdf_source e = None.
Proof.
  unfold entry_truthy, pdf_source, arxiv_id_base, arxiv_id_full.
  destruct (entry_id e); [discriminate|]. intros _. reflexivity.
Qed.

Lemma truthy_entry_some o e : truthy_entry o = Some e -> o = Some e /\ entry_truthy e = true.
Proof.
  destruct o as [e'|]; cbn; [|discriminate].
  destruct (entry_truthy e') eqn:E; [|discriminate]. intros H; inversion H; subst. auto.
Qed.

Lemma truthy_entry_none o :
  truthy_entry o = None -> o = None \/ exists e, o = Some e /\ entry_truthy e = false.
Proof.
  destruct o as [e'|]; cbn; [|auto].
  destruct (entry_truthy e') eqn:E; [discriminate|]. eauto.
Qed.

Lemma no_get_no_stored d : count_events is_pdf_get d = 0%nat -> count_events is_stored_pdf d = 0%nat.
Proof.
  induction d as [|e d IH]; [reflexivity|].
  cbn. destruct e; cbn; try lia; auto.
Qed.

Lemma pdf_filepath_nonempty entry directory :
  Py.is_empty (pdf_filepath_of entry directory) = false.
Proof.
  unfold pdf_filepath_of, os_path_join, pdf_filename.
  assert (Hb : forall x : string, Py.is_empty (x +:+ ".pdf") = false)
    by (intros [|c x]; reflexivity).
  destruct (Py.startswith "/" _); [apply Hb|].
  destruct (_ || _).
  - destruct directory as [|c a]; [apply Hb | reflexivity].
  - destruct directory as [|c a]; reflexivity.
Qed.

(** One round of the download loop: the fetcher's outcome, and the download
    map updated exactly when a path came back. *)
Lemma download_one_spec env num st w :
  exists r st' w' d,
    download_one env num st w = (Ok r, st', w') /\
    log w' = log w ++ d /\
    Forall fetch_event d /\
    st' = match r with
          | Some p => set_downloaded_pdfs (<[num := p]> (downloaded_pdfs st)) st
          | None => st
          end /\
    match _get_entry_from_results (last_results_feed st) num with
    | Some e => fetch_outcome e DOWNLOAD_DIR w w' d r
    | None => r = None /\ files w' = files w /\ count_events is_pdf_get d = 0%nat
    end.
Proof.
  unfold download_one. run.
  destruct (_get_entry_from_results (last_results_feed st) num) as [e|]; cbn [truthy_entry];
    [destruct (entry_truthy e) eqn:Htruthy|]; run.
  2: { do 4 eexists. split; [reflexivity|]. split; [reflexivity|].
       split; [repeat constructor|]. split; [reflexivity|].
       unfold fetch_outcome. rewrite (falsy_entry_no_source e Htruthy). auto. }
  - destruct (download_pdf_spec env e DOWNLOAD_DIR st
                (record (EvPrint (MsgDownloadingResult num)) w) download_dir_named)
      as (r & w' & d & Hrun & Hlog & HF & Hout).
    rewrite Hrun.
    assert (Hout' : fetch_outcome e DOWNLOAD_DIR w w' (EvPrint (MsgDownloadingResult num) :: d) r).
    { unfold fetch_outcome in *. cbn [files record] in Hout.
      destruct (pdf_source e); [|exact Hout].
      destruct (bool_decide _); [exact Hout|].
      destruct Hout as (stored & H1 & H2 & H3 & H4).
      exists stored. cbn. repeat split; auto. }
    assert (Hlog' : log w' = log w ++ EvPrint (MsgDownloadingResult num) :: d).
    { rewrite Hlog. cbn. rewrite <- app_assoc. reflexivity. }
    destruct r as [p|].
    + assert (Hp : Py.is_empty p = false).
      { unfold fetch_outcome in Hout. destruct (pdf_source e); [|destruct Hout; discriminate].
        destruct (bool_decide _).
        - destruct Hout as [Hr _]. inversion Hr. apply pdf_filepath_nonempty.
        - destruct Hout as ([|] & _ & _ & _ & Hr & _); [|discriminate].
          inversion Hr. apply pdf_filepath_nonempty. }
      rewrite Hp. do 4 eexists. split; [reflexivity|]. split; [exact Hlog'|].
      split; [constructor; [reflexivity | exact HF]|]. split; [reflexivity | exact Hout'].
    + do 4 eexists. split; [reflexivity|]. split; [exact Hlog'|].
      split; [constructor; [reflexivity | exact HF]|]. split; [reflexivity | exact Hout'].
  - do 4 eexists. split; [reflexivity|]. split; [reflexivity|].
    split; [repeat constructor|]. split; [reflexivity|]. auto.
Qed.

(** ** C5: downloading the same number twice *)

(** C5 (as the code has it). Two consecutive downloads of the same display
    number, with nothing cleared in between:
    - at most one of their fetches stores a file;
    - when the first call returns a path, the second makes no fetch,
      returns the same path and leaves the files as they are;
    - when the file is already at the derived target path before the first
      call, neither call makes a fetch, and both return that path if the
      record has an arXiv id and a PDF link;
    - the two calls make two fetches only when the first fetch failed. *)
Theorem download_twice_fetches (env : Env) (st : AppState) (w : World) (num : Z) :
  exists r1 st1 w1 d1 r2 st2 w2 d2,
    download_one env num st w = (Ok r1, st1, w1) /\ log w1 = log w ++ d1 /\
    download_one env num st1 w1 = (Ok r2, st2, w2) /\ log w2 = log w1 ++ d2 /\
    (count_events is_stored_pdf (d1 ++ d2) <= 1)%nat /\
    (forall p, r1 = Some p ->
       r2 = Some p /\ count_events is_pdf_get d2 = 0%nat /\ files w2 = files w1 /\
       downloaded_pdfs st2 !! num = Some p) /\
    (forall e, _get_entry_from_results (last_results_feed st) num = Some e ->
       pdf_filepath_of e DOWNLOAD_DIR ∈ files w ->
       count_events is_pdf_get (d1 ++ d2) = 0%nat /\
       (forall link, pdf_source e = Some link ->
          r1 = Some (pdf_filepath_of e DOWNLOAD_DIR) /\ r2 = r1)) /\
    ((count_events is_pdf_get (d1 ++ d2) <= 1)%nat \/
     (r1 = None /\ count_events is_pdf_get d1 = 1%nat /\ count_events is_stored_pdf d1 = 0%nat)).
Proof.
  destruct (download_one_spec env num st w) as (r1 & st1 & w1 & d1 & Hrun1 & Hlog1 & _ & Hst1 & Hout1).
  destruct (download_one_spec env num st1 w1)
    as (r2 & st2 & w2 & d2 & Hrun2 & Hlog2 & _ & Hst2 & Hout2).
  assert (Hfeed : last_results_feed st1 = last_results_feed st)
    by (rewrite Hst1; destruct r1; reflexivity).
  rewrite Hfeed in Hout2.
  exists r1, st1, w1, d1, r2, st2, w2, d2.
  split; [exact Hrun1|]. split; [exact Hlog1|]. split; [exact Hrun2|]. split; [exact Hlog2|].
  rewrite !count_events_app.
  destruct (_get_entry_from_results (last_results_feed st) num) as [e|].
  2: { destruct Hout1 as (-> & _ & Hc1), Hout2 as (-> & _ & Hc2).
       rewrite (no_get_no_stored _ Hc1), (no_get_no_stored _ Hc2), Hc1, Hc2.
       repeat split; try lia; try discriminate. }
  unfold fetch_outcome in Hout1, Hout2.
  destruct (pdf_source e) as [link|] eqn:Epdf.
  2: { destruct Hout1 as (-> & _ & Hc1), Hout2 as (-> & _ & Hc2).
       rewrite (no_get_no_stored _ Hc1), (no_get_no_stored _ Hc2), Hc1, Hc2.
       split; [lia|]. split; [intros p Hp; discriminate|]. split; [|left; lia].
       intros e' He' _. inversion He'; subst e'. split; [lia|].
       intros link Hl. congruence. }
  set (path := pdf_filepath_of e DOWNLOAD_DIR) in *.
  assert (Hmap : forall p, r2 = Some p -> downloaded_pdfs st2 !! num = Some p).
  { intros p ->. rewrite Hst2. cbn. apply lookup_insert_eq. }
  destruct (bool_decide (path ∈ files w)) eqn:E1.
  - destruct Hout1 as (-> & Hf1 & Hc1).
    rewrite Hf1, E1 in Hout2. destruct Hout2 as (-> & Hf2 & Hc2).
    rewrite (no_get_no_stored _ Hc1), (no_get_no_stored _ Hc2), Hc1, Hc2.
    split; [lia|]. split.
    { intros p Hp. inversion Hp; subst p. repeat split; auto. congruence. }
    split; [|left; lia].
    intros e' He' _. inversion He'; subst e'. split; [reflexivity|]. intros _ _. auto.
  - apply bool_decide_eq_false in E1.
    destruct Hout1 as ([|] & Hg1 & Hs1 & _ & Hr1 & Hf1).
    + subst r1.
      assert (E2 : bool_decide (path ∈ files w1) = true)
        by (apply bool_decide_eq_true; rewrite Hf1; set_solver).
      rewrite E2 in Hout2. destruct Hout2 as (-> & Hf2 & Hc2).
      rewrite (no_get_no_stored _ Hc2), Hc2, Hs1, Hg1.
      split; [lia|]. split.
      { intros p Hp. inversion Hp; subst p. repeat split; auto. }
      split; [|left; lia].
      intros e' He' Hin. inversion He'; subst e'. contradiction.
    + subst r1.
      assert (E2 : bool_decide (path ∈ files w1) = false)
        by (apply bool_decide_eq_false; rewrite Hf1; set_solver).
      rewrite E2 in Hout2. destruct Hout2 as (stored & Hg2 & Hs2 & _ & _).
      rewrite Hs1, Hs2. split; [destruct stored; lia|].
      split; [intros p Hp; discriminate|].
      split; [|right; auto].
      intros e' He' Hin. inversion He'; subst e'. contradiction.
Qed.

(** Against C5 as the specification words it: first record of the page,
    PDF host unreachable. Both calls resolve the record, find no file, and
    fetch: two fetches. *)
Lemma download_twice_counterexample :
  let '(r1, st1, w1) := download_one env_down 1 (st_page 25) world0 in
  let '(r2, st2, w2) := download_one env_down 1 st1 w1 in
  _get_entry_from_results (last_results_feed (st_page 25)) 1 = Some (sample_entry "1707.08567v1") /\
  r1 = Ok None /\ r2 = Ok None /\
  count_events is_pdf_get (log w2) = 2%nat /\
  log w2 = [ EvPrint (MsgDownloadingResult 1);
             EvPrint (MsgAttemptDownload "http://arxiv.org/pdf/1707.08567v1"
                        "arxiv_downloads/1707.08567v1.pdf");
             EvPdfGet "http://arxiv.org/pdf/1707.08567v1" false;
             EvPrint (MsgDownloadFailed "1707.08567v1.pdf");
             EvPrint (MsgDownloadingResult 1);
             EvPrint (MsgAttemptDownload "http://arxiv.org/pdf/1707.08567v1"
                        "arxiv_downloads/1707.08567v1.pdf");
             EvPdfGet "http://arxiv.org/pdf/1707.08567v1" false;
             EvPrint (MsgDownloadFailed "1707.08567v1.pdf") ].
Proof. vm_compute. repeat split; reflexivity. Qed.

(** ** C10: the confirmation of large batches *)

Lemma download_each_spec env paper_nums :
  forall successful st w,
  exists n st' w' d,
    download_each env paper_nums successful st w = (Ok n, st', w') /\
    log w' = log w ++ d /\
    Forall fetch_event d.
Proof.
  induction paper_nums as [|num rest IH]; intros successful st w; cbn [download_each].
  - run. exists successful, st, w, []. split; [reflexivity|].
    split; [now rewrite app_nil_r | constructor].
  - destruct (download_one_spec env num st w) as (r & st1 & w1 & d1 & Hrun & Hlog & HF & _).
    unfold bind at 1. rewrite Hrun.
    destruct r as [p|].
    + destruct (IH (successful + 1) st1 w1) as (n & st' & w' & d & Hrun' & Hlog' & HF').
      rewrite Hrun'. exists n, st', w', (d1 ++ d). split; [reflexivity|].
      split; [rewrite Hlog', Hlog, app_assoc; reflexivity | now apply Forall_app].
    + destruct (IH successful st1 w1) as (n & st' & w' & d & Hrun' & Hlog' & HF').
      rewrite Hrun'. exists n, st', w', (d1 ++ d). split; [reflexivity|].
      split; [rewrite Hlog', Hlog, app_assoc; reflexivity | now apply Forall_app].
Qed.

Lemma fetch_events_no_input d : Forall fetch_event d -> count_events is_input d = 0%nat.
Proof.
  intros H. apply count_events_none. eapply Forall_impl; [exact H|].
  intros [] He; simpl in *; try reflexivity; contradiction.
Qed.

Lemma is_empty_false (s : string) : s <> EmptyString -> Py.is_empty s = false.
Proof. destruct s; [congruence | reflexivity]. Qed.

Lemma respects_write_file_log (Q : Event -> Prop) path : respects (log_grows Q) (write_file path).
Proof. intros st w. exists []. split; [cbn; now rewrite app_nil_r | constructor]. Qed.

Lemma respects_remove_log (Q : Event -> Prop) path :
  respects (log_grows Q) (remove_if_exists path).
Proof. intros st w. exists []. split; [cbn; now rewrite app_nil_r | constructor]. Qed.

Lemma turns_app d1 d2 : turns (d1 ++ d2) = turns d1 ++ turns d2.
Proof.
  induction d1 as [|e d1 IH]; [reflexivity|].
  cbn. destruct (announced e); cbn; now rewrite IH.
Qed.

Lemma turns_none d : Forall no_turn d -> turns d = [].
Proof.
  induction 1 as [|e d He _ IH]; [reflexivity|]. cbn. now rewrite He.
Qed.

(** The fetcher does not speak of display numbers. *)
Lemma download_pdf_no_turn env entry directory :
  respects (log_grows no_turn) (download_pdf env entry directory).
Proof.
  unfold download_pdf.
  repeat first
    [ apply respects_write_file_log
    | apply respects_remove_log
    | eapply emits_one_log; [apply requests_get_pdf_emits | intros ? [? ->]; reflexivity]
    | progress respects_log ].
Qed.

(** One round of the loop turns to its number, once. *)
Lemma download_one_turn env num st w :
  exists d, log (snd (download_one env num st w)) = log w ++ d /\ turns d = [num].
Proof.
  unfold download_one. run.
  destruct (truthy_entry _) as [e|]; run.
  - pose proof (download_pdf_no_turn env e DOWNLOAD_DIR st
                  (record (EvPrint (MsgDownloadingResult num)) w)) as (d & Hd & HF).
    cbn [snd fst log record] in Hd.
    destruct (download_pdf env e DOWNLOAD_DIR st _) as [[[r|x|] st1] w1]; cbn [snd] in Hd.
    + exists (EvPrint (MsgDownloadingResult num) :: d).
      split; [|cbn; now rewrite (turns_none d HF)].
      destruct r as [path|]; [destruct (Py.is_empty path)|]; run; cbn [snd];
        rewrite Hd, <- app_assoc; reflexivity.
    + exists (EvPrint (MsgDownloadingResult num) :: d).
      split; [|cbn; now rewrite (turns_none d HF)].
      cbn [snd]. rewrite Hd, <- app_assoc. reflexivity.
    + exists (EvPrint (MsgDownloadingResult num) :: d).
      split; [|cbn; now rewrite (turns_none d HF)].
      cbn [snd]. rewrite Hd, <- app_assoc. reflexivity.
  - exists [EvPrint (MsgInvalidResultNumber num)]. split; reflexivity.
Qed.

(** One round of the loop, for a record that can be fetched: the number is
    in the download map with its file on disk, or the fetch failed. *)
Lemma download_one_done env num st w e link :
  _get_entry_from_results (last_results_feed st) num = Some e ->
  pdf_source e = Some link ->
  exists r st' w' d,
    download_one env num st w = (Ok r, st', w') /\
    log w' = log w ++ d /\
    ((downloaded_pdfs st' !! num = Some (pdf_filepath_of e DOWNLOAD_DIR) /\
      pdf_filepath_of e DOWNLOAD_DIR ∈ files w') \/
     In (EvPdfGet link false) d).
Proof.
  intros He Hsrc.
  destruct (download_one_spec env num st w) as (r & st' & w' & d & Hrun & Hlog & _ & Hst & Hout).
  exists r, st', w', d. split; [exact Hrun|]. split; [exact Hlog|].
  rewrite He in Hout. unfold fetch_outcome in Hout. rewrite Hsrc in Hout.
  destruct (bool_decide (pdf_filepath_of e DOWNLOAD_DIR ∈ files w)) eqn:Hex.
  - destruct Hout as (-> & Hf & _). left. subst st'. cbn.
    rewrite lookup_insert_eq. split; [reflexivity|].
    rewrite Hf. now apply bool_decide_eq_true in Hex.
  - destruct Hout as ([|] & _ & _ & Hin & Hr).
    + destruct Hr as [-> Hf]. left. subst st'. cbn.
      rewrite lookup_insert_eq. split; [reflexivity|]. rewrite Hf. set_solver.
    + right. exact Hin.
Qed.

(** A round of the loop loses no file, keeps the page, and keeps what the
    download map says about the records of the page. *)
Lemma download_one_keeps env num st w :
  exists r st' w',
    download_one env num st w = (Ok r, st', w') /\
    files w ⊆ files w' /\
    last_results_feed st' = last_results_feed st /\
    forall k e,
      _get_entry_from_results (last_results_feed st) k = Some e ->
      downloaded_pdfs st !! k = Some (pdf_filepath_of e DOWNLOAD_DIR) ->
      downloaded_pdfs st' !! k = Some (pdf_filepath_of e DOWNLOAD_DIR).
Proof.
  destruct (download_one_spec env num st w) as (r & st' & w' & d & Hrun & _ & _ & Hst & Hout).
  exists r, st', w'. split; [exact Hrun|].
  assert (Hfiles : files w ⊆ files w').
  { destruct (_get_entry_from_results (last_results_feed st) num) as [e|].
    - unfold fetch_outcome in Hout. destruct (pdf_source e).
      + destruct (bool_decide (pdf_filepath_of e DOWNLOAD_DIR ∈ files w)) eqn:Hex.
        * destruct Hout as (_ & -> & _). reflexivity.
        * apply bool_decide_eq_false in Hex.
          destruct Hout as ([|] & _ & _ & _ & Hr); destruct Hr as [_ ->]; set_solver.
      + destruct Hout as (_ & -> & _). reflexivity.
    - destruct Hout as (_ & -> & _). reflexivity. }
  split; [exact Hfiles|].
  split; [subst st'; destruct r; reflexivity|].
  intros k e He Hk. subst st'. destruct r as [path|]; [|exact Hk]. cbn.
  destruct (decide (k = num)) as [->|Hne].
  - rewrite lookup_insert_eq. rewrite He in Hout. unfold fetch_outcome in Hout.
    destruct (pdf_source e).
    + destruct (bool_decide _).
      * destruct Hout as (Hr & _). exact Hr.
      * destruct Hout as ([|] & _ & _ & _ & Hr); destruct Hr as [Hr _];
          [exact Hr | discriminate].
    + destruct Hout as (Hr & _). discriminate.
  - rewrite lookup_insert_ne by congruence. exact Hk.
Qed.

Lemma log_suffix_unique (l d d' : list Event) : l ++ d = l ++ d' -> d = d'.
Proof. apply app_inv_head. Qed.

(** The download loop works its batch through. *)
Lemma download_each_batch env paper_nums :
  forall successful st w,
  exists n st' w' d,
    download_each env paper_nums successful st w = (Ok n, st', w') /\
    log w' = log w ++ d /\
    Forall fetch_event d /\
    last_results_feed st' = last_results_feed st /\
    (forall k e,
       _get_entry_from_results (last_results_feed st) k = Some e ->
       downloaded_pdfs st !! k = Some (pdf_filepath_of e DOWNLOAD_DIR) ->
       downloaded_pdfs st' !! k = Some (pdf_filepath_of e DOWNLOAD_DIR)) /\
    batch_downloaded paper_nums st st' w w' d.
Proof.
  induction paper_nums as [|num rest IH]; intros successful st w; cbn [download_each].
  - run. exists successful, st, w, []. split; [reflexivity|].
    split; [now rewrite app_nil_r|]. split; [constructor|]. split; [reflexivity|].
    split; [auto|]. split; [reflexivity|]. split; [reflexivity|]. intros ? ? ? [].
  - destruct (download_one_spec env num st w) as (r & st1 & w1 & d1 & Hrun & Hlog1 & HF1 & _).
    destruct (download_one_keeps env num st w) as (r' & st1' & w1' & Hrun' & Hfiles1 & Hfeed1 & Hkeep1).
    rewrite Hrun in Hrun'. inversion Hrun'; subst r' st1' w1'. clear Hrun'.
    destruct (download_one_turn env num st w) as (d1' & Hlog1' & Hturn1).
    rewrite Hrun in Hlog1'. cbn [snd] in Hlog1'. rewrite Hlog1 in Hlog1'.
    apply log_suffix_unique in Hlog1'. subst d1'.
    assert (Hdone1 : forall e link,
              _get_entry_from_results (last_results_feed st) num = Some e ->
              pdf_source e = Some link ->
              (downloaded_pdfs st1 !! num = Some (pdf_filepath_of e DOWNLOAD_DIR) /\
               pdf_filepath_of e DOWNLOAD_DIR ∈ files w1) \/
              In (EvPdfGet link false) d1).
    { intros e link He Hsrc.
      destruct (download_one_done env num st w e link He Hsrc)
        as (r2 & st2 & w2 & d2 & Hrun2 & Hlog2 & Hd2).
      rewrite Hrun in Hrun2. inversion Hrun2; subst r2 st2 w2.
      rewrite Hlog1 in Hlog2. apply log_suffix_unique in Hlog2. subst d2. exact Hd2. }
    unfold bind at 1. rewrite Hrun.
    assert (Hrest : forall s0,
              exists n st' w' d,
                download_each env rest s0 st1 w1 = (Ok n, st', w') /\
                log w' = log w ++ d /\
                Forall fetch_event d /\
                last_results_feed st' = last_results_feed st /\
                (forall k e,
                   _get_entry_from_results (last_results_feed st) k = Some e ->
                   downloaded_pdfs st !! k = Some (pdf_filepath_of e DOWNLOAD_DIR) ->
                   downloaded_pdfs st' !! k = Some (pdf_filepath_of e DOWNLOAD_DIR)) /\
                batch_downloaded (num :: rest) st st' w w' d).
    { intros s0.
      destruct (IH s0 st1 w1) as (n & st' & w' & d & Hrun2 & Hlog2 & HF2 & Hfeed2 & Hkeep2 & Hb2).
      destruct Hb2 as (Hturn2 & Hfiles2 & Hdone2).
      exists n, st', w', (d1 ++ d). split; [exact Hrun2|].
      split; [rewrite Hlog2, Hlog1, app_assoc; reflexivity|].
      split; [now apply Forall_app|].
      split; [congruence|].
      split.
      { intros k e He Hk. apply Hkeep2; [rewrite Hfeed1; exact He|]. now apply Hkeep1. }
      split; [rewrite turns_app, Hturn1, Hturn2; reflexivity|].
      split; [set_solver|].
      intros k e link [<-|Hin] He Hsrc.
      - destruct (Hdone1 e link He Hsrc) as [[Hm Hf]|Hfail].
        + left. split; [apply Hkeep2; [rewrite Hfeed1; exact He | exact Hm] | set_solver].
        + right. apply in_or_app. left. exact Hfail.
      - rewrite <- Hfeed1 in He.
        destruct (Hdone2 k e link Hin He Hsrc) as [Hm|Hfail]; [left; exact Hm|].
        right. apply in_or_app. right. exact Hfail. }
    destruct r as [path|]; apply Hrest.
Qed.

(** C10. Let the [download] command be given comma-separated numbers
    [paper_nums] while a page is displayed.
    - With more than 20 of them the first thing the command does is to ask
      for confirmation. An answer that is [y] once [strip] and [lower]
      have been applied (as the code reads it) lets the batch be worked
      through; any other answer cancels the whole batch: the cancellation
      is reported and the session state and the files are as they were.
      The end of input is reported as an error, with the same effect.
    - With at most 20 numbers no prompt is made and the batch is worked
      through.
    The command ends normally in every case. That the batch is worked
    through means ([batch_downloaded]) that the loop turns to each number
    in the order given and that every number of a record that has an
    arXiv id and a PDF link ends up in the download map with its file on
    disk, unless a fetch of its PDF failed. *)
Theorem download_confirmation (env : Env) (st : AppState) (w : World)
    (args_str : string) (paper_nums : list Z)
    (Hres : no_results st = false)
    (Hargs : Py.strip args_str <> EmptyString)
    (Hparse : parse_nums (Py.split "," args_str) = Some paper_nums) :
  exists st' w' d,
    cmd_download env args_str st w = (Ok tt, st', w') /\
    log w' = log w ++ d /\
    ((20 < length paper_nums)%nat ->
       exists d',
         d = EvInput (PromptConfirmDownload (length paper_nums)) :: d' /\
         count_events is_input d' = 0%nat /\
         match input_reply env (log w) (PromptConfirmDownload (length paper_nums)) with
         | Some answer =>
             if String.eqb (Py.lower (Py.strip answer)) "y"
             then batch_downloaded paper_nums st st' w w' d'
             else st' = st /\ files w' = files w /\ d' = [EvPrint MsgDownloadCancelled]
         | None =>
             st' = st /\ files w' = files w /\ d' = [EvPrint (MsgDownloadException EOFError)]
         end) /\
    ((length paper_nums <= 20)%nat ->
       count_events is_input d = 0%nat /\ batch_downloaded paper_nums st st' w w' d).
Proof.
  assert (Hsummary : forall d n,
            turns (d ++ [EvPrint (MsgDownloadComplete n (length paper_nums))]) = turns d).
  { intros d n. rewrite turns_app. cbn. now rewrite app_nil_r. }
  unfold cmd_download. run. rewrite Hres.
  rewrite (is_empty_false _ Hargs), Hparse.
  destruct (20 <? length paper_nums)%nat eqn:Hbig.
  - apply Nat.ltb_lt in Hbig. unfold input. cbn [log record].
    destruct (input_reply env (log w) (PromptConfirmDownload (length paper_nums)))
      as [answer|] eqn:Hreply; run.
    + destruct (String.eqb (Py.lower (Py.strip answer)) "y") eqn:Hy; run.
      * destruct (download_each_batch env paper_nums 0 st
                    (record (EvInput (PromptConfirmDownload (length paper_nums))) w))
          as (n & st' & w' & d & Hrun & Hlog & HF & _ & _ & Hturn & Hfiles & Hdone).
        rewrite Hrun. cbn [log record files] in Hlog, Hfiles. rewrite <- app_assoc in Hlog.
        destruct (1 <? length paper_nums)%nat eqn:Hmany; [|apply Nat.ltb_ge in Hmany; lia].
        run. do 3 eexists. split; [reflexivity|]. cbn [log record]. rewrite Hlog, <- app_assoc.
        split; [reflexivity|]. split; [|intros; lia]. intros _.
        eexists. split; [reflexivity|].
        split; [rewrite count_events_app, (fetch_events_no_input d HF); reflexivity|].
        split; [rewrite Hsummary; exact Hturn|].
        split; [exact Hfiles|].
        intros num e link Hin He Hsrc.
        destruct (Hdone num e link Hin He Hsrc) as [Hm|Hfail]; [left; exact Hm|].
        right. apply in_or_app. left. exact Hfail.
      * do 3 eexists. split; [reflexivity|]. cbn [log record]. rewrite <- app_assoc.
        split; [reflexivity|]. split; [|intros; lia]. intros _.
        eexists. split; [reflexivity|]. split; [reflexivity|].
        repeat split; reflexivity.
    + do 3 eexists. split; [reflexivity|]. cbn [log record]. rewrite <- app_assoc.
      split; [reflexivity|]. split; [|intros; lia]. intros _.
      eexists. split; [reflexivity|]. split; [reflexivity|].
      repeat split; reflexivity.
  - apply Nat.ltb_ge in Hbig. run.
    destruct (download_each_batch env paper_nums 0 st w)
      as (n & st' & w' & d & Hrun & Hlog & HF & _ & _ & Hturn & Hfiles & Hdone).
    rewrite Hrun.
    destruct (1 <? length paper_nums)%nat eqn:Hmany; run.
    + do 3 eexists. split; [reflexivity|]. cbn [log record]. rewrite Hlog, <- app_assoc.
      split; [reflexivity|]. split; [intros; lia|]. intros _.
      split; [rewrite count_events_app, (fetch_events_no_input d HF); reflexivity|].
      split; [rewrite Hsummary; exact Hturn|]. split; [exact Hfiles|].
      intros num e link Hin He Hsrc.
      destruct (Hdone num e link Hin He Hsrc) as [Hm|Hfail]; [left; exact Hm|].
      right. apply in_or_app. left. exact Hfail.
    + do 3 eexists. split; [reflexivity|]. split; [exact Hlog|].
      split; [intros; lia|]. intros _.
      split; [apply fetch_events_no_input; exact HF|].
      split; [exact Hturn|]. split; [exact Hfiles|]. exact Hdone.
Qed.

Lemma download_confirmation_witness :
  exists st' w' d,
    cmd_download env_says_no twenty_one (st_page 25) world0 = (Ok tt, st', w') /\
    log w' = log world0 ++ d /\
    ((20 < length (Z.of_nat <$> seq 1 21))%nat ->
       exists d',
         d = EvInput (PromptConfirmDownload (length (Z.of_nat <$> seq 1 21))) :: d' /\
         count_events is_input d' = 0%nat /\
         match input_reply env_says_no (log world0)
                 (PromptConfirmDownload (length (Z.of_nat <$> seq 1 21))) with
         | Some answer =>
             if String.eqb (Py.lower (Py.strip answer)) "y"
             then batch_downloaded (Z.of_nat <$> seq 1 21) (st_page 25) st' world0 w' d'
             else st' = st_page 25 /\ files w' = files world0 /\
                  d' = [EvPrint MsgDownloadCancelled]
         | None =>
             st' = st_page 25 /\ files w' = files world0 /\
             d' = [EvPrint (MsgDownloadException EOFError)]
         end) /\
    ((length (Z.of_nat <$> seq 1 21) <= 20)%nat ->
       count_events is_input d = 0%nat /\
       batch_downloaded (Z.of_nat <$> seq 1 21) (st_page 25) st' world0 w' d).
Proof.
  apply (download_confirmation env_says_no (st_page 25) world0 twenty_one (Z.of_nat <$> seq 1 21)).
  - reflexivity.
  - vm_compute. discriminate.
  - vm_compute. reflexivity.
Defined.

Example download_runs :
  (* 21 numbers, answer "N": only the prompt and the cancellation *)
  cmd_download env_says_no twenty_one (st_page 25) world0
  = (Ok tt, st_page 25,
     {| files := ∅;
        log := [EvInput (PromptConfirmDownload 21); EvPrint MsgDownloadCancelled] |}) /\
  (* 3 numbers, the third out of range: no prompt, two fetches *)
  (let '(res, st', w') := cmd_download env_says_no "1, 2,15" (st_page 25) world0 in
   res = Ok tt /\
   downloaded_pdfs st' !! 1 = Some "arxiv_downloads/1707.08567v1.pdf" /\
   downloaded_pdfs st' !! 2 = Some "arxiv_downloads/2301.00001v2.pdf" /\
   downloaded_pdfs st' !! 15 = None /\
   count_events is_input (log w') = 0%nat /\
   count_events is_stored_pdf (log w') = 2%nat /\
   List.last (log w') (EvPrint MsgRule) = EvPrint (MsgDownloadComplete 2 3)).
Proof. split; vm_compute; repeat split; reflexivity. Qed.

(** ** The upload path as a whole *)

Lemma respects_log_weaken {A} (Q Q' : Event -> Prop) (m : M A) :
  (forall e, Q e -> Q' e) -> respects (log_grows Q) m -> respects (log_grows Q') m.
Proof.
  intros HQ Hm st w. destruct (Hm st w) as (d & Hd & HF).
  exists d. split; [exact Hd | eapply Forall_impl; eauto].
Qed.

Lemma refresh_is_file_store e : refresh_event e -> file_store_event e.
Proof. destruct e; simpl; auto. Qed.

Lemma upload_pdf_to_gemini_log env fuel path :
  respects (log_grows file_store_event) (upload_pdf_to_gemini env fuel path).
Proof.
  intros st w.
  destruct (upload_pdf_to_gemini_shape env fuel path st w) as (res & w' & d & -> & _ & Hlog & HF & _).
  eexists. split; [exact Hlog|].
  constructor; [reflexivity|]. constructor; [exact I|].
  eapply Forall_impl; [exact HF | exact refresh_is_file_store].
Qed.

Lemma upload_pdf_to_gemini_files env fuel path :
  respects same_files (upload_pdf_to_gemini env fuel path).
Proof.
  intros st w.
  destruct (upload_pdf_to_gemini_shape env fuel path st w) as (res & w' & d & -> & Hf & _).
  exact Hf.
Qed.

Lemma upload_pdf_to_gemini_on {X} (f : AppState -> X) env fuel path :
  respects (same_on f) (upload_pdf_to_gemini env fuel path).
Proof.
  intros st w.
  destruct (upload_pdf_to_gemini_shape env fuel path st w) as (res & w' & d & -> & _).
  reflexivity.
Qed.

#[export] Hint Resolve upload_pdf_to_gemini_log upload_pdf_to_gemini_files
  upload_pdf_to_gemini_on : traces.

Lemma get_or_upload_log env fuel path :
  respects (log_grows file_store_event) (_get_or_upload_gemini_file env fuel path).
Proof. unfold _get_or_upload_gemini_file. respects_log. Qed.

Lemma get_or_upload_files env fuel path :
  respects same_files (_get_or_upload_gemini_file env fuel path).
Proof. unfold _get_or_upload_gemini_file. respects_files. Qed.

Lemma get_or_upload_downloads env fuel path :
  respects (same_on downloaded_pdfs) (_get_or_upload_gemini_file env fuel path).
Proof. unfold _get_or_upload_gemini_file. respects_on. Qed.

(** The cache entries of the other paths stay. *)
Lemma get_or_upload_other_uploads env fuel path :
  respects (same_on (fun st => delete path (gemini_uploaded_files st)))
    (_get_or_upload_gemini_file env fuel path).
Proof.
  unfold _get_or_upload_gemini_file. respects_on;
    apply respects_modify_on; intros ?; cbn;
    first [apply delete_insert_eq | apply delete_delete_eq].
Qed.

(** Without a cache entry the upload is the first thing that happens. *)
Lemma get_or_upload_uncached env fuel path st w :
  gemini_uploaded_files st !! path = None ->
  exists res st' w' d,
    _get_or_upload_gemini_file env fuel path st w = (res, st', w') /\
    log w' = log w ++ EvPrint (MsgUploading (os_path_basename path))
                   :: EvUploadFile path (os_path_basename path) :: d /\
    Forall refresh_event d.
Proof.
  intros Hnone. unfold _get_or_upload_gemini_file. run. rewrite Hnone. run.
  destruct (upload_pdf_to_gemini_shape env fuel path st w) as (res & w' & d & -> & _ & Hlog & HF & _).
  destruct res as [[f|]|e|]; [destruct (is_active (gstate f))| | |]; run;
    do 4 eexists; (split; [reflexivity|]); split; eauto.
Qed.

(** ** C6: comparing with a paper that was never downloaded *)

Lemma compare_papers_extends env fos ctype model :
  respects (log_grows anything) (compare_papers env fos ctype model).
Proof. unfold compare_papers. respects_log. Qed.

#[export] Hint Resolve compare_papers_extends : traces.

Lemma perform_comparison_extends env fos ctype :
  respects (log_grows anything) (perform_comparison env fos ctype).
Proof. unfold perform_comparison. respects_log. Qed.

Ltac run_in H :=
  cbv beta iota zeta delta
    [bind try_except print emit modify get_state ret raise out_of_fuel
     path_exists write_file remove_if_exists os_makedirs fst snd] in H.

















(** The one-shot action in the session that [main] brings to it after
    [--summarize 1]: paper 1 is found on disk, paper 2 is fetched and
    uploaded, and then the comparison is called; with the PDF host down it
    is not. *)
Example main_compare_runs :
  (let '(res, st', w') :=
     main_compare env_ok 1 (Some (page_of_two 25)) DOWNLOAD_DIR "1,2" "methods"
       st_summarized world_one in
   res = Ok tt /\
   downloaded_pdfs st' !! 1 = Some path1 /\
   downloaded_pdfs st' !! 2 = Some path2 /\
   log w' =
     [ EvPrint (MsgDownloadingPaper 1);
       EvPrint (MsgPdfExists path1);
       EvPrint (MsgEnsuring 1);
       EvGetFile "files/one";
       EvPrint (MsgUsingCached "files/one");
       EvPrint (MsgDownloadingPaper 2);
       EvPrint (MsgAttemptDownload "http://arxiv.org/pdf/2301.00001v2" path2);
       EvPdfGet "http://arxiv.org/pdf/2301.00001v2" true;
       EvPrint (MsgDownloaded "2301.00001v2.pdf");
       EvPrint (MsgEnsuring 2);
       EvPrint (MsgUploading "2301.00001v2.pdf");
       EvUploadFile path2 "2301.00001v2.pdf";
       EvPrint (MsgUploadedInitially
                  {| gname := "files/new"; gstate := ACTIVE; guri := path2;
                     gmime_type := "application/pdf" |});
       EvPrint (MsgWaiting "files/new");
       EvPrint (MsgFileActive "files/new");
       EvPrint (MsgComparing 2 "methods");
       EvPrint (MsgAskingCompare "gemini-2.5-pro-exp-03-25" 2 "methods");
       EvGenerate "gemini-2.5-pro-exp-03-25" "methods"
         [ {| gname := "files/one"; gstate := ACTIVE; guri := "uri";
              gmime_type := "application/pdf" |};
           {| gname := "files/new"; gstate := ACTIVE; guri := path2;
              gmime_type := "application/pdf" |} ];
       EvPrint MsgGeminiResponded;
       EvPrint (MsgComparisonHeader "methods");
       EvPrint (MsgComparisonResult "analysis");
       EvPrint MsgRule ]) /\
  (let '(res, st', w') :=
     main_compare env_no_pdf 1 (Some (page_of_two 25)) DOWNLOAD_DIR "1,2" "methods"
       st_summarized world_one in
   res = Ok tt /\
   downloaded_pdfs st' !! 1 = Some path1 /\
   downloaded_pdfs st' !! 2 = None /\
   count_events is_upload (log w') = 0%nat /\
   count_events is_compare_call (log w') = 0%nat /\
   List.last (log w') (EvPrint MsgRule) = EvPrint MsgNotEnoughPapers).
Proof. split; vm_compute; repeat split; reflexivity. Qed.

(** A whole one-shot run, [--query Q --summarize 1 --compare 1,2 methods],
    from the session [main] starts with and an empty disk: the summary
    fetches and uploads paper 1, and the comparison then fetches and
    uploads paper 2 before it asks the model. *)
Example main_one_shot_runs :
  let '(res, st', w') :=
    main_one_shot env_ok 1 args_summarize_compare
      (configured_state args_summarize_compare true false) world0 in
  res = Ok tt /\
  downloaded_pdfs st' = <[2 := path2]> {[ 1 := path1 ]} /\
  filter (fun e => negb (match e with EvPrint _ => true | _ => false end)) (log w') =
    [ EvArxivQuery "graph neural networks" 0 10 "submittedDate" "descending";
      EvPdfGet "http://arxiv.org/pdf/1707.08567v1" true;
      EvUploadFile path1 "1707.08567v1.pdf";
      EvGenerate "gemini-2.5-pro-exp-03-25"
        "Provide a concise summary of the attached document."
        [ {| gname := "files/new"; gstate := ACTIVE; guri := path1;
             gmime_type := "application/pdf" |} ];
      EvGetFile "files/new";
      EvPdfGet "http://arxiv.org/pdf/2301.00001v2" true;
      EvUploadFile path2 "2301.00001v2.pdf";
      EvGenerate "gemini-2.5-pro-exp-03-25" "methods"
        [ {| gname := "files/new"; gstate := ACTIVE; guri := "uri";
             gmime_type := "application/pdf" |};
          {| gname := "files/new"; gstate := ACTIVE; guri := path2;
             gmime_type := "application/pdf" |} ] ].
Proof. vm_compute. repeat split; reflexivity. Qed.

(** * Further properties of the program *)

(** ** The index client *)

Ltac log_norm := cbn [log record files]; repeat rewrite <- app_assoc; cbn [List.app].

(** X1. [search_arxiv] sends exactly one query to the index, with the
    arguments it was given, and never retries. It hands the parsed feed
    back, unchanged, when the feed is well formed and its first entry is
    not an error entry, and [None] in every other case; it never raises,
    and it leaves the session and the files alone. *)
Theorem search_arxiv_outcome (env : Env) (query : string) (start max_results : Z)
    (sort_by sort_order : string) (st : AppState) (w : World) :
  exists r w' d,
    search_arxiv env query start max_results sort_by sort_order st w = (Ok r, st, w') /\
    files w' = files w /\
    log w' = log w ++ d /\
    count_events is_arxiv_query d = 1%nat /\
    In (EvArxivQuery query start max_results sort_by sort_order) d /\
    r = match arxiv_reply env (log w ++ [EvPrint (MsgQuerying query start max_results)])
                query start max_results sort_by sort_order with
        | Some fd => if bozo fd || has_error_entry fd then None else Some fd
        | None => None
        end.
Proof.
  unfold search_arxiv. run. unfold requests_get_arxiv. cbn [log record].
  destruct (arxiv_reply env _ query start max_results sort_by sort_order) as [fd|]; run.
  2: { do 3 eexists. split; [reflexivity|]. log_norm. repeat split; cbn; auto. }
  destruct (bozo fd); run.
  { destruct (has_error_entry fd); run;
      do 3 eexists; (split; [reflexivity|]); log_norm; repeat split; cbn; auto. }
  destruct (has_error_entry fd); run.
  { do 3 eexists. split; [reflexivity|]. log_norm. repeat split; cbn; auto. }
  destruct (entries fd); run.
  - destruct (0 <? _); run;
      do 3 eexists; (split; [reflexivity|]); log_norm; repeat split; cbn; auto.
  - do 3 eexists. split; [reflexivity|]. log_norm. repeat split; cbn; auto.
Qed.

(** ** Strings: reversal, separators *)

Lemma rev_cons (c : ascii) (s : string) :
  String.rev (String c s) = String.rev s +:+ String c "".
Proof. change (String c s) with (String c "" +:+ s). now rewrite rev_append. Qed.

Lemma rev_involutive (s : string) : String.rev (String.rev s) = s.
Proof.
  induction s as [|c s IH]; [reflexivity|].
  rewrite rev_cons, rev_append, IH. reflexivity.
Qed.

Lemma prefix_nil (s : string) : String.prefix "" s = true.
Proof. destruct s; reflexivity. Qed.

Lemma contains_slash_cons (c : ascii) (s : string) :
  Py.contains "/" (String c s) = Ascii.eqb c "/" || Py.contains "/" s.
Proof.
  cbn [Py.contains String.prefix].
  destruct (ascii_dec "/" c) as [<-|Hne].
  - destruct s; reflexivity.
  - destruct (Ascii.eqb_spec c "/"); [congruence | reflexivity].
Qed.

Lemma contains_slash_app (a b : string) :
  Py.contains "/" (a +:+ b) = Py.contains "/" a || Py.contains "/" b.
Proof.
  induction a as [|c a IH].
  - rewrite append_nil_l. reflexivity.
  - rewrite append_cons, !contains_slash_cons, IH. now rewrite orb_assoc.
Qed.

Lemma no_slash_no_start (s : string) :
  Py.contains "/" s = false -> Py.startswith "/" s = false.
Proof.
  destruct s as [|c s]; [reflexivity|].
  rewrite contains_slash_cons. intros H. apply orb_false_iff in H. destruct H as [Hc _].
  unfold Py.startswith. cbn [String.prefix].
  destruct (ascii_dec "/" c) as [<-|]; [discriminate | reflexivity].
Qed.

Lemma split_go_nonempty (sep : string) (s : string) :
  forall skip cur, Py.split_go sep skip cur s <> [].
Proof.
  induction s as [|c s IH]; intros skip cur; cbn [Py.split_go]; [discriminate|].
  destruct skip; [|apply IH].
  destruct (String.prefix sep (String c s)); [discriminate | apply IH].
Qed.

Lemma last_item_cons (x : string) (l : list string) :
  l <> [] -> Py.last_item (x :: l) = Py.last_item l.
Proof. destruct l; [congruence | reflexivity]. Qed.

(** A text without [/] is one piece. *)
Lemma split_slash_one (s : string) :
  Py.contains "/" s = false ->
  forall cur, Py.split_go "/" 0 cur s = [String.rev cur +:+ s].
Proof.
  induction s as [|c s IH]; intros H cur.
  - cbn [Py.split_go]. now rewrite append_empty_r.
  - rewrite contains_slash_cons in H. apply orb_false_iff in H. destruct H as [Hc Hs].
    cbn [Py.split_go]. cbn [String.prefix].
    destruct (ascii_dec "/" c) as [<-|_]; [discriminate|].
    rewrite (IH Hs), rev_cons, append_assoc. reflexivity.
Qed.

(** The last piece of [a/f] is [f] when [f] has no [/]. *)
Lemma last_split_slash (f : string) :
  Py.contains "/" f = false ->
  forall a cur, Py.last_item (Py.split_go "/" 0 cur (a +:+ String "/" f)) = f.
Proof.
  intros Hf. induction a as [|c a IH]; intros cur.
  - rewrite append_nil_l. cbn [Py.split_go String.prefix].
    destruct (ascii_dec "/" "/") as [_|Hne]; [|congruence].
    destruct f; cbn [String.length Nat.sub]; rewrite (split_slash_one _ Hf); reflexivity.
  - rewrite append_cons. cbn [Py.split_go String.prefix].
    destruct (ascii_dec "/" c) as [_|_].
    + rewrite prefix_nil. cbn [String.length Nat.sub].
      rewrite last_item_cons by apply split_go_nonempty. apply IH.
    + apply IH.
Qed.

Lemma endswith_slash_inv (a : string) :
  Py.endswith "/" a = true -> exists a0, a = a0 +:+ "/".
Proof.
  unfold Py.endswith. change (String.rev "/") with "/"%string.
  destruct (String.rev a) as [|c x] eqn:E; cbn [String.prefix]; [discriminate|].
  destruct (ascii_dec "/" c) as [<-|]; [|discriminate]. intros _.
  exists (String.rev x). rewrite <- (rev_involutive a), E, rev_cons. reflexivity.
Qed.

(** ** Where a PDF is stored *)

Lemma safe_id_no_slash (s : string) : Py.contains "/" (safe_id s) = false.
Proof.
  induction s as [|c s IH]; [reflexivity|].
  cbn [safe_id]. rewrite contains_slash_cons, IH, orb_false_r.
  destruct (Ascii.eqb_spec c "/") as [->|Hne]; [reflexivity|].
  destruct (_ || _); [|reflexivity].
  destruct (Ascii.eqb_spec c "/"); [congruence | reflexivity].
Qed.

Lemma pdf_filename_no_slash (entry : Entry) : Py.contains "/" (pdf_filename entry) = false.
Proof. unfold pdf_filename. now rewrite contains_slash_app, safe_id_no_slash. Qed.

(** X2. The name under which [download_pdf] stores a PDF contains no path
    separator, whatever the identifier of the entry is: the file lies
    directly in the download directory ([os.path.join] never discards the
    directory), and [os.path.basename] of the stored path, which the upload
    uses as display name, is that file name again. *)
Theorem pdf_path_inside_directory (entry : Entry) (directory : string) :
  Py.contains "/" (pdf_filename entry) = false /\
  (pdf_filepath_of entry directory = directory +:+ pdf_filename entry \/
   pdf_filepath_of entry directory = directory +:+ "/" +:+ pdf_filename entry) /\
  os_path_basename (pdf_filepath_of entry directory) = pdf_filename entry.
Proof.
  pose proof (pdf_filename_no_slash entry) as Hno.
  split; [exact Hno|].
  unfold pdf_filepath_of, os_path_join, os_path_basename, Py.split.
  rewrite (no_slash_no_start _ Hno).
  destruct directory as [|c a].
  { cbn [Py.is_empty orb]. rewrite append_nil_l. split; [left; reflexivity|].
    now rewrite (split_slash_one _ Hno). }
  cbn [Py.is_empty orb].
  destruct (Py.endswith "/" (String c a)) eqn:E.
  - split; [left; reflexivity|].
    destruct (endswith_slash_inv _ E) as [a0 ->].
    rewrite append_assoc. apply (last_split_slash _ Hno).
  - split; [right; reflexivity|]. apply (last_split_slash _ Hno).
Qed.


(** The empty download directory: the record can be fetched, and the call
    raises before it looks for the file. *)
Example download_pdf_empty_directory :
  download_pdf env_ok (sample_entry "2301.00001v2") "" AppState_init world0
  = (Raise OSError, AppState_init, world0).
Proof. vm_compute. reflexivity. Qed.

(** ** The upload: what is left in the file store *)

Lemma poll_only_refreshes env fuel name rf fs :
  respects (log_grows poll_event) (poll env fuel name rf fs).
Proof.
  revert rf fs. induction fuel as [|fuel IH]; intros rf fs; simpl; respects_log.
Qed.

Lemma poll_events_no_delete d : Forall poll_event d -> count_events is_delete d = 0%nat.
Proof.
  intros H. apply count_events_none. eapply Forall_impl; [exact H|].
  intros [] He; simpl in *; try reflexivity; contradiction.
Qed.

Lemma poll_is_refresh e : poll_event e -> refresh_event e.
Proof. destruct e; simpl; auto. Qed.

Lemma try_delete_shape env name st w :
  exists w' d,
    try_delete env name st w = (Ok tt, st, w') /\
    log w' = log w ++ d /\ Forall refresh_event d /\ In (EvDeleteFile name) d.
Proof.
  unfold try_delete, genai_delete_file. run. cbn [log record].
  destruct (delete_file_reply env _ name); run;
    do 2 eexists; (split; [reflexivity|]); log_norm;
    (split; [reflexivity|]); (split; [repeat constructor | cbn; auto]).
Qed.

(** How the wait for an uploaded file ends, and what it asked the file
    store to delete. *)
Lemma await_ready_cleanup env fuel uf st w :
  exists res w' d,
    await_ready env fuel uf st w = (res, st, w') /\
    log w' = log w ++ d /\ Forall refresh_event d /\
    match res with
    | Ok (Some f) => is_active (gstate f) = true /\ count_events is_delete d = 0%nat
    | Ok None => gname uf <> ""%string -> In (EvDeleteFile (gname uf)) d
    | Raise _ => False
    | OutOfFuel => True
    end.
Proof.
  unfold await_ready. run.
  match goal with
  | |- context [poll env fuel (gname uf) uf (gstate uf) st ?x] =>
      pose proof (poll_only_refreshes env fuel (gname uf) uf (gstate uf) st x) as Hl;
      pose proof (poll_state env fuel (gname uf) uf (gstate uf) st x) as Hs;
      destruct (poll env fuel (gname uf) uf (gstate uf) st x) as [[[[rf' fs']|e|] st1] w1] eqn:Hp
  end;
    unfold log_grows, same_state, same_on in Hl, Hs; cbn in Hl, Hs;
    destruct Hl as (dp & Hdp & HFp); subst st1; run.
  - apply poll_result in Hp. destruct Hp as [_ Hfs]. specialize (Hfs eq_refl). subst fs'.
    destruct (is_active (gstate rf')) eqn:Ea; run.
    + do 3 eexists. split; [reflexivity|]. cbn [log record]. rewrite Hdp. log_norm.
      split; [reflexivity|]. split.
      * constructor; [reflexivity|]. constructor; [reflexivity|].
        apply Forall_app. split; [|repeat constructor].
        eapply Forall_impl; [exact HFp | exact poll_is_refresh].
      * split; [exact Ea|]. cbn. rewrite count_events_app, (poll_events_no_delete _ HFp).
        reflexivity.
    + destruct (try_delete_shape env (gname uf) st (record (EvPrint (MsgProcessingFailed (gstate rf'))) w1))
        as (w2 & d2 & Hrun2 & Hlog2 & HF2 & Hin2).
      rewrite Hrun2. do 3 eexists. split; [reflexivity|].
      rewrite Hlog2. cbn [log record]. rewrite Hdp. log_norm.
      split; [reflexivity|]. split.
      * constructor; [reflexivity|]. constructor; [reflexivity|].
        apply Forall_app. split; [eapply Forall_impl; [exact HFp | exact poll_is_refresh]|].
        constructor; [reflexivity | exact HF2].
      * intros _. right. right. apply in_or_app. right. right. exact Hin2.
  - destruct (Py.is_empty (gname uf)) eqn:Ee; run.
    + do 3 eexists. split; [reflexivity|]. cbn [log record]. rewrite Hdp. log_norm.
      split; [reflexivity|]. split.
      * constructor; [reflexivity|]. constructor; [reflexivity|].
        apply Forall_app. split; [|repeat constructor].
        eapply Forall_impl; [exact HFp | exact poll_is_refresh].
      * intros Hne. destruct (gname uf); [congruence | discriminate].
    + destruct (try_delete_shape env (gname uf) st (record (EvPrint MsgUploadError) w1))
        as (w2 & d2 & Hrun2 & Hlog2 & HF2 & Hin2).
      rewrite Hrun2. do 3 eexists. split; [reflexivity|].
      rewrite Hlog2. cbn [log record]. rewrite Hdp. log_norm.
      split; [reflexivity|]. split.
      * constructor; [reflexivity|]. constructor; [reflexivity|].
        apply Forall_app. split; [eapply Forall_impl; [exact HFp | exact poll_is_refresh]|].
        constructor; [reflexivity | exact HF2].
      * intros _. right. right. apply in_or_app. right. right. exact Hin2.
  - do 3 eexists. split; [reflexivity|]. rewrite Hdp. log_norm.
    split; [reflexivity|]. split; [|exact I].
    constructor; [reflexivity|]. constructor; [reflexivity|].
    eapply Forall_impl; [exact HFp | exact poll_is_refresh].
Qed.

(** X4. [upload_pdf_to_gemini] calls [genai.upload_file] exactly once and
    never raises; it leaves the session and the local files alone. A
    handle it returns is ACTIVE, and then nothing was deleted from the file
    store. When the file store accepted the upload under a name and the
    call still returns [None], the deletion of that file was requested: no
    upload that failed to become ACTIVE is left behind unasked. *)
Theorem upload_returns_active_or_cleans_up (env : Env) (fuel : nat) (path : string)
    (st : AppState) (w : World) :
  exists res w' d,
    upload_pdf_to_gemini env fuel path st w = (res, st, w') /\
    files w' = files w /\
    log w' = log w ++ d /\
    count_events is_upload d = 1%nat /\
    match res with
    | Ok (Some f) => is_active (gstate f) = true /\ count_events is_delete d = 0%nat
    | Ok None =>
        forall uf,
          upload_reply env (log w ++ [EvPrint (MsgUploading (os_path_basename path))]) path
          = Some uf ->
          gname uf <> ""%string -> In (EvDeleteFile (gname uf)) d
    | Raise _ => False
    | OutOfFuel => True
    end.
Proof.
  pose proof (upload_pdf_to_gemini_files env fuel path st w) as Hfiles.
  unfold same_files in Hfiles. cbn in Hfiles. revert Hfiles.
  unfold upload_pdf_to_gemini. run. unfold genai_upload_file. cbn [log record].
  destruct (upload_reply env _ path) as [uf|]; run.
  - match goal with
    | |- context [await_ready env fuel uf st ?x] =>
        destruct (await_ready_cleanup env fuel uf st x) as (res & w' & d & Hrun & Hlog & HF & Hres)
    end.
    rewrite Hrun. cbn [snd]. intros Hfiles.
    exists res, w', (EvPrint (MsgUploading (os_path_basename path))
                     :: EvUploadFile path (os_path_basename path) :: d).
    split; [reflexivity|]. split; [exact Hfiles|].
    split; [rewrite Hlog; log_norm; reflexivity|].
    split; [cbn; rewrite (refresh_events_no_upload _ HF); reflexivity|].
    destruct res as [[f|]|e|]; [| |exact Hres|exact I].
    + destruct Hres as [Ha Hd]. split; [exact Ha|]. cbn. exact Hd.
    + intros uf' Huf Hne. inversion Huf; subst uf'. right. right. auto.
  - intros _. do 3 eexists. split; [reflexivity|]. split; [reflexivity|]. log_norm.
    split; [reflexivity|]. split; [reflexivity|]. intros uf Huf. discriminate.
Qed.

(** ** The cache of uploaded files *)

(** X5. A cache hit. When the cache holds a handle for [path] and the file
    store, asked again, reports it ACTIVE, [_get_or_upload_gemini_file]
    returns the refreshed handle after that one refresh and a message:
    nothing is uploaded, nothing is deleted, and the session is unchanged
    (the cache keeps the handle it had, not the refreshed one). *)
Theorem cached_active_handle_reused (env : Env) (fuel : nat) (st : AppState) (w : World)
    (path : string) (h f0 : GFile)
    (Hcached : gemini_uploaded_files st !! path = Some h)
    (Hrefresh : get_file_reply env (log w) (gname h) = Some f0)
    (Hactive : is_active (gstate f0) = true) :
  _get_or_upload_gemini_file env fuel path st w
  = (Ok (Some f0), st,
     {| files := files w;
        log := log w ++ [EvGetFile (gname h); EvPrint (MsgUsingCached (gname f0))] |}).
Proof.
  unfold _get_or_upload_gemini_file. run. rewrite Hcached. run.
  unfold genai_get_file. rewrite Hrefresh. run. rewrite Hactive. run.
  unfold record. cbn [files log]. rewrite <- app_assoc. reflexivity.
Qed.

Lemma cached_active_handle_reused_witness :
  _get_or_upload_gemini_file env_ok 0 path1 st_one_ready world_one
  = (Ok (Some {| gname := "files/one"; gstate := ACTIVE; guri := "uri";
                 gmime_type := "application/pdf" |}), st_one_ready,
     {| files := files world_one;
        log := log world_one
               ++ [EvGetFile (gname handle1);
                   EvPrint (MsgUsingCached
                              (gname {| gname := "files/one"; gstate := ACTIVE; guri := "uri";
                                        gmime_type := "application/pdf" |}))] |}).
Proof.
  apply (cached_active_handle_reused env_ok 0 st_one_ready world_one path1 handle1
           {| gname := "files/one"; gstate := ACTIVE; guri := "uri";
              gmime_type := "application/pdf" |}).
  - reflexivity.
  - reflexivity.
  - reflexivity.
Defined.

(** ** Invariants: the relations pass through the monad *)

#[export] Instance on_state_preorder RS `{!PreOrder RS} : PreOrder (on_state RS).
Proof.
  split.
  - intros c. unfold on_state. reflexivity.
  - intros c1 c2 c3 H1 H2. unfold on_state in *. etransitivity; eassumption.
Qed.

#[export] Instance cache_gains_preorder : PreOrder cache_gains.
Proof.
  split.
  - intros st p f H. right. exact H.
  - intros s1 s2 s3 H12 H23 p f H.
    destruct (H23 p f H) as [Ha|H2]; [left; exact Ha | exact (H12 p f H2)].
Qed.

#[export] Instance paging_kept_preorder : PreOrder paging_kept.
Proof. split; unfold paging_kept; [intros st; tauto | intros s1 s2 s3; tauto]. Qed.

#[export] Instance disk_kept_preorder : PreOrder disk_kept.
Proof.
  split.
  - intros c. split; [reflexivity | intros n p H; right; exact H].
  - intros c1 c2 c3 [F12 D12] [F23 D23]. split; [etransitivity; eassumption|].
    intros n p H. destruct (D23 n p H) as [Hin|H2]; [left; exact Hin|].
    destruct (D12 n p H2) as [Hin|H1]; [left; apply F23; exact Hin | right; exact H1].
Qed.

Section OnState.

Context (RS : relation AppState) `{!PreOrder RS}.

Lemma respects_emit_state e : respects (on_state RS) (emit e).
Proof. intros st w. unfold on_state. cbn. reflexivity. Qed.

Lemma respects_modify_state g : (forall st, RS st (g st)) -> respects (on_state RS) (modify g).
Proof. intros H st w. apply H. Qed.

(** Two updates in a row, judged by what they do together. *)
Lemma respects_modify2_state g1 g2 :
  (forall st, RS st (g2 (g1 st))) -> respects (on_state RS) (modify g1;; modify g2).
Proof. intros H st w. apply H. Qed.

Lemma emits_one_state {A} (P : Event -> Prop) (m : M A) :
  emits_one P m -> respects (on_state RS) m.
Proof.
  intros Hm st w. destruct (Hm st w) as (res & e & -> & He). unfold on_state. cbn. reflexivity.
Qed.

Lemma respects_same_state {A} (m : M A) :
  respects same_state m -> respects (on_state RS) m.
Proof.
  intros Hm st w. specialize (Hm st w). unfold same_state, same_on, on_state in *.
  cbn in *. rewrite Hm. reflexivity.
Qed.

End OnState.

(** The collaborators that leave the session alone. *)

Lemma search_arxiv_state env query start max_results sort_by sort_order :
  respects same_state (search_arxiv env query start max_results sort_by sort_order).
Proof.
  intros st w.
  destruct (search_arxiv_keeps_state env query start max_results sort_by sort_order st w)
    as (r & w' & ->).
  reflexivity.
Qed.

Lemma display_results_state fd start_index :
  respects same_state (display_results fd start_index).
Proof.
  intros st w.
  destruct (display_results_keeps_state fd start_index st w) as (n & w' & ->). reflexivity.
Qed.

Lemma download_pdf_state env entry directory :
  respects same_state (download_pdf env entry directory).
Proof.
  intros st w.
  destruct (download_pdf_result env entry directory st w) as (res & w' & d & -> & _).
  reflexivity.
Qed.

Lemma upload_pdf_to_gemini_state env fuel path :
  respects same_state (upload_pdf_to_gemini env fuel path).
Proof. apply (upload_pdf_to_gemini_on (fun st => st)). Qed.

Lemma compare_papers_state env fos ctype model :
  respects same_state (compare_papers env fos ctype model).
Proof. unfold same_state, compare_papers. respects_on. Qed.

Lemma perform_comparison_state env fos ctype :
  respects same_state (perform_comparison env fos ctype).
Proof.
  unfold perform_comparison. unfold same_state. respects_on.
  apply compare_papers_state.
Qed.

Create HintDb session.

#[export] Hint Resolve search_arxiv_state display_results_state download_pdf_state
  upload_pdf_to_gemini_state compare_papers_state perform_comparison_state : session.

(** Goals [respects (on_state RS) m]: [leaf] settles the updates of the
    session. *)
Ltac respects_state leaf :=
  repeat first
    [ solve [auto with session]
    | solve [apply respects_same_state; try exact _; auto with session]
    | apply respects_modify2_state; try exact _; solve [leaf]
    | respects_step
    | apply respects_modify_state; try exact _; solve [leaf]
    | apply respects_emit_state; exact _
    | eapply emits_one_state; try exact _;
      first [ apply emit_emits | apply input_emits | apply requests_get_arxiv_emits
            | apply requests_get_pdf_emits | apply genai_upload_file_emits
            | apply genai_get_file_emits | apply genai_delete_file_emits
            | apply generate_content_emits ] ].

(** ** The cache holds ACTIVE handles *)

(** How [_get_or_upload_gemini_file] ends: with an ACTIVE handle, found in
    the cache or stored in it now; with nothing and no cache entry; or out
    of budget. It never raises. *)
Lemma get_or_upload_ends env fuel path st w :
  exists res st' w',
    _get_or_upload_gemini_file env fuel path st w = (res, st', w') /\
    match res with
    | Ok (Some f) =>
        is_active (gstate f) = true /\
        (st' = st \/
         st' = set_gemini_uploaded_files (<[path := f]> (gemini_uploaded_files st)) st)
    | Ok None => st' = set_gemini_uploaded_files (delete path (gemini_uploaded_files st)) st
    | Raise _ => False
    | OutOfFuel => st' = st
    end.
Proof.
  assert (Hup : forall x,
    exists res st' w',
      (uploaded_file <- upload_pdf_to_gemini env fuel path;;
       match uploaded_file with
       | Some f =>
           if is_active (gstate f) then
             modify (fun s => set_gemini_uploaded_files
                                (<[path := f]> (gemini_uploaded_files s)) s);;
             ret (Some f)
           else
             modify (fun s => set_gemini_uploaded_files
                                (delete path (gemini_uploaded_files s)) s);;
             ret None
       | None =>
           modify (fun s => set_gemini_uploaded_files
                              (delete path (gemini_uploaded_files s)) s);;
           ret None
       end) st x = (res, st', w') /\
      match res with
      | Ok (Some f) =>
          is_active (gstate f) = true /\
          (st' = st \/
           st' = set_gemini_uploaded_files (<[path := f]> (gemini_uploaded_files st)) st)
      | Ok None => st' = set_gemini_uploaded_files (delete path (gemini_uploaded_files st)) st
      | Raise _ => False
      | OutOfFuel => st' = st
      end).
  { intros x. run.
    destruct (upload_pdf_to_gemini_shape env fuel path st x)
      as (res & w' & d & Hrun & _ & _ & _ & Hres).
    rewrite Hrun. destruct res as [[f|]|e|]; [rewrite Hres| |contradiction|]; run;
      do 3 eexists; (split; [reflexivity|]); cbn; auto. }
  unfold _get_or_upload_gemini_file. run.
  destruct (gemini_uploaded_files st !! path) as [h|]; run.
  2: { destruct (Hup w) as (res & st' & w' & Hrun & Hres). run_in Hrun.
       rewrite Hrun. eauto. }
  unfold genai_get_file. destruct (get_file_reply env (log w) (gname h)) as [g|]; run.
  - destruct (is_active (gstate g)) eqn:Ea; run.
    + do 3 eexists. split; [reflexivity|]. cbn. auto.
    + unfold genai_delete_file. cbn [log record].
      destruct (delete_file_reply env _ (gname h)); run;
        match goal with
        | |- context [upload_pdf_to_gemini env fuel path st ?x] =>
            destruct (Hup x) as (res & st' & w' & Hrun & Hres); run_in Hrun;
            rewrite Hrun; eauto
        end.
  - match goal with
    | |- context [upload_pdf_to_gemini env fuel path st ?x] =>
        destruct (Hup x) as (res & st' & w' & Hrun & Hres); run_in Hrun;
        rewrite Hrun; eauto
    end.
Qed.

Lemma get_or_upload_cache env fuel path :
  respects (on_state cache_gains) (_get_or_upload_gemini_file env fuel path).
Proof.
  intros st w.
  destruct (get_or_upload_ends env fuel path st w) as (res & st' & w' & -> & Hres).
  unfold on_state. cbn. intros p f Hp.
  destruct res as [[g|]|e|].
  - destruct Hres as [Ha [->| ->]]; [right; exact Hp|].
    cbn in Hp. apply lookup_insert_Some in Hp. destruct Hp as [[_ <-]|[_ Hp]]; auto.
  - subst st'. cbn in Hp. apply lookup_delete_Some in Hp. right. tauto.
  - contradiction.
  - subst st'. right. exact Hp.
Qed.

#[export] Hint Resolve get_or_upload_cache : session.

(** An update that adds nothing to the cache. *)
Ltac cache_leaf :=
  intros ? ? ?; cbn;
  first [ solve [intros H; right; exact H]
        | solve [intros H; apply lookup_delete_Some in H; right; tauto]
        | solve [rewrite lookup_empty; discriminate] ].

Lemma print_results_state i es : respects same_state (print_results i es).
Proof.
  intros st w. destruct (print_results_keeps_state i es st w) as (w' & ->). reflexivity.
Qed.

Lemma download_one_cache env num : respects (on_state cache_gains) (download_one env num).
Proof. unfold download_one. respects_state cache_leaf. Qed.

#[export] Hint Resolve download_one_cache : session.

Lemma download_each_cache env paper_nums :
  forall successful, respects (on_state cache_gains) (download_each env paper_nums successful).
Proof.
  induction paper_nums as [|num rest IH]; intros successful; cbn [download_each];
    respects_state cache_leaf.
Qed.

#[export] Hint Resolve download_each_cache : session.

Lemma compare_collect_cache env fuel paper_nums :
  forall fos, respects (on_state cache_gains) (compare_collect env fuel paper_nums fos).
Proof.
  induction paper_nums as [|num rest IH]; intros fos; cbn [compare_collect];
    respects_state cache_leaf.
Qed.

#[export] Hint Resolve compare_collect_cache : session.

Lemma main_compare_collect_cache env fuel results_feed download_dir paper_nums :
  forall fos,
    respects (on_state cache_gains)
      (main_compare_collect env fuel results_feed download_dir paper_nums fos).
Proof.
  induction paper_nums as [|num rest IH]; intros fos; cbn [main_compare_collect];
    respects_state cache_leaf.
Qed.

#[export] Hint Resolve main_compare_collect_cache : session.

(** X6. The cache of uploaded files holds ACTIVE handles only. A handle
    that [_get_or_upload_gemini_file] returns is ACTIVE, and the function
    never raises. When every handle in the cache is ACTIVE before one of
    the commands [q], [n], [download], [compare], [set], before a call of
    [_get_or_upload_gemini_file] or before the one-shot comparison, every
    handle in the cache is ACTIVE after it, however the command ends. *)
Theorem cache_holds_active_handles (env : Env) (fuel : nat) (st : AppState) (w : World)
    (Hinv : cache_active st) :
  (forall path,
     cache_active (final_state (_get_or_upload_gemini_file env fuel path st w)) /\
     match fst (fst (_get_or_upload_gemini_file env fuel path st w)) with
     | Ok (Some f) => is_active (gstate f) = true
     | Raise _ => False
     | _ => True
     end) /\
  cache_active (final_state (cmd_q env st w)) /\
  cache_active (final_state (cmd_n env st w)) /\
  (forall args_str, cache_active (final_state (cmd_download env args_str st w))) /\
  (forall args_str, cache_active (final_state (cmd_compare env fuel args_str st w))) /\
  (forall args_str, cache_active (final_state (cmd_set args_str st w))) /\
  (forall results_feed download_dir paper_nums_str comparison_type,
     cache_active
       (final_state (main_compare env fuel results_feed download_dir paper_nums_str
                       comparison_type st w))).
Proof.
  assert (Hkeep : forall A (m : M A),
            respects (on_state cache_gains) m -> cache_active (final_state (m st w))).
  { intros A m Hm p f Hp. destruct (Hm st w p f Hp) as [Ha|Hold]; [exact Ha|].
    exact (Hinv p f Hold). }
  split; [|repeat split; intros; apply Hkeep].
  - intros path. split; [apply Hkeep; apply get_or_upload_cache|].
    destruct (get_or_upload_ends env fuel path st w) as (res & st' & w' & -> & Hres). cbn.
    destruct res as [[f|]|e|]; tauto.
  - unfold cmd_q. respects_state cache_leaf.
  - unfold cmd_n, attr_entries. respects_state cache_leaf.
  - unfold cmd_download. respects_state cache_leaf.
  - unfold cmd_compare. respects_state cache_leaf.
  - unfold cmd_set. respects_state cache_leaf.
  - unfold main_compare. respects_state cache_leaf.
Qed.

Lemma cache_holds_active_handles_witness :
  (forall path,
     cache_active (final_state (_get_or_upload_gemini_file env_ok 1 path st_one_ready world_one)) /\
     match fst (fst (_get_or_upload_gemini_file env_ok 1 path st_one_ready world_one)) with
     | Ok (Some f) => is_active (gstate f) = true
     | Raise _ => False
     | _ => True
     end) /\
  cache_active (final_state (cmd_q env_ok st_one_ready world_one)) /\
  cache_active (final_state (cmd_n env_ok st_one_ready world_one)) /\
  (forall args_str, cache_active (final_state (cmd_download env_ok args_str st_one_ready world_one))) /\
  (forall args_str, cache_active (final_state (cmd_compare env_ok 1 args_str st_one_ready world_one))) /\
  (forall args_str, cache_active (final_state (cmd_set args_str st_one_ready world_one))) /\
  (forall results_feed download_dir paper_nums_str comparison_type,
     cache_active
       (final_state (main_compare env_ok 1 results_feed download_dir paper_nums_str
                       comparison_type st_one_ready world_one))).
Proof.
  apply (cache_holds_active_handles env_ok 1 st_one_ready world_one).
  intros p f Hp. change (gemini_uploaded_files st_one_ready) with ({[ path1 := handle1 ]} : gmap string GFile) in Hp.
  apply lookup_singleton_Some in Hp. destruct Hp as [_ <-]. reflexivity.
Defined.

(** ** The paging settings stay usable *)

Ltac paging_leaf :=
  intros ? [? ?]; split; cbn in *; lia.

Lemma get_or_upload_paging env fuel path :
  respects (on_state paging_kept) (_get_or_upload_gemini_file env fuel path).
Proof. unfold _get_or_upload_gemini_file. respects_state paging_leaf. Qed.

Lemma download_one_paging env num : respects (on_state paging_kept) (download_one env num).
Proof. unfold download_one. respects_state paging_leaf. Qed.

#[export] Hint Resolve get_or_upload_paging download_one_paging : session.

Lemma download_each_paging env paper_nums :
  forall successful, respects (on_state paging_kept) (download_each env paper_nums successful).
Proof.
  induction paper_nums as [|num rest IH]; intros successful; cbn [download_each];
    respects_state paging_leaf.
Qed.

Lemma compare_collect_paging env fuel paper_nums :
  forall fos, respects (on_state paging_kept) (compare_collect env fuel paper_nums fos).
Proof.
  induction paper_nums as [|num rest IH]; intros fos; cbn [compare_collect];
    respects_state paging_leaf.
Qed.

#[export] Hint Resolve download_each_paging compare_collect_paging : session.

(** X7. The paging settings stay usable. When the page offset is not
    negative and the page size is at least 1, the same holds after each of
    the commands [q], [n], [download], [compare] and [set], whatever the
    arguments and the replies of the outside are and however the command
    ends; this includes the [n] whose fetch fails. *)
Theorem paging_stays_usable (env : Env) (fuel : nat) (st : AppState) (w : World)
    (Hinv : paging_ok st) :
  paging_ok (final_state (cmd_q env st w)) /\
  paging_ok (final_state (cmd_n env st w)) /\
  (forall args_str, paging_ok (final_state (cmd_download env args_str st w))) /\
  (forall args_str, paging_ok (final_state (cmd_compare env fuel args_str st w))) /\
  (forall args_str, paging_ok (final_state (cmd_set args_str st w))).
Proof.
  assert (Hkeep : forall A (m : M A),
            respects (on_state paging_kept) m -> paging_ok (final_state (m st w))).
  { intros A m Hm. exact (Hm st w Hinv). }
  split; [|split; [|split; [|split]]]; intros; apply Hkeep.
  - unfold cmd_q. respects_state paging_leaf.
  - unfold cmd_n, attr_entries. respects_state paging_leaf.
  - unfold cmd_download. respects_state paging_leaf.
  - unfold cmd_compare. respects_state paging_leaf.
  - unfold cmd_set. respects_state paging_leaf.
Qed.

Lemma paging_stays_usable_witness :
  paging_ok (final_state (cmd_q env_down (st_page 25) world0)) /\
  paging_ok (final_state (cmd_n env_down (st_page 25) world0)) /\
  (forall args_str, paging_ok (final_state (cmd_download env_down args_str (st_page 25) world0))) /\
  (forall args_str, paging_ok (final_state (cmd_compare env_down 1 args_str (st_page 25) world0))) /\
  (forall args_str, paging_ok (final_state (cmd_set args_str (st_page 25) world0))).
Proof.
  apply (paging_stays_usable env_down 1 (st_page 25) world0).
  split; cbn; lia.
Defined.

(** ** The download map and the files *)

Lemma respects_emit_disk e : respects disk_kept (emit e).
Proof. intros st w. split; [reflexivity | intros n p H; right; exact H]. Qed.

Lemma emits_one_disk {A} (P : Event -> Prop) (m : M A) :
  emits_one P m -> respects disk_kept m.
Proof.
  intros Hm st w. destruct (Hm st w) as (res & e & -> & He).
  split; [reflexivity | intros n p H; right; exact H].
Qed.

Lemma respects_modify_disk g :
  (forall st n p, downloaded_pdfs (g st) !! n = Some p -> downloaded_pdfs st !! n = Some p) ->
  respects disk_kept (modify g).
Proof. intros H st w. split; [reflexivity | intros n p Hp; right; exact (H st n p Hp)]. Qed.

Lemma respects_disk_same {A} (m : M A) :
  respects (same_on downloaded_pdfs) m -> respects same_files m -> respects disk_kept m.
Proof.
  intros Hd Hf st w. specialize (Hd st w). specialize (Hf st w).
  unfold same_on, same_files in *. cbn in *.
  split; [cbn; rewrite Hf; reflexivity | cbn; intros n p H; right; rewrite <- Hd; exact H].
Qed.

Lemma respects_disk_quiet {A} (m : M A) :
  respects same_state m -> respects same_files m -> respects disk_kept m.
Proof.
  intros Hs Hf. apply respects_disk_same; [|exact Hf].
  intros st w. specialize (Hs st w). unfold same_state, same_on in *. cbn in *. now rewrite Hs.
Qed.

Lemma search_arxiv_files env query start max_results sort_by sort_order :
  respects same_files (search_arxiv env query start max_results sort_by sort_order).
Proof. unfold search_arxiv. respects_files. Qed.

Lemma print_results_files i es : respects same_files (print_results i es).
Proof. revert i. induction es as [|e es IH]; intros i; cbn [print_results]; respects_files. Qed.

Lemma display_results_files fd start_index : respects same_files (display_results fd start_index).
Proof. unfold display_results. respects_files; apply print_results_files. Qed.

Lemma compare_papers_files env fos ctype model :
  respects same_files (compare_papers env fos ctype model).
Proof. unfold compare_papers. respects_files. Qed.

Lemma perform_comparison_files env fos ctype :
  respects same_files (perform_comparison env fos ctype).
Proof. unfold perform_comparison. respects_files. apply compare_papers_files. Qed.

Lemma fetch_outcome_files entry directory w w' d r :
  fetch_outcome entry directory w w' d r ->
  files w ⊆ files w' /\ (forall p, r = Some p -> p ∈ files w').
Proof.
  unfold fetch_outcome. set (path := pdf_filepath_of entry directory).
  destruct (pdf_source entry) as [link|].
  2: { intros (-> & Hf & _). rewrite Hf. split; [reflexivity | discriminate]. }
  destruct (bool_decide (path ∈ files w)) eqn:E.
  - apply bool_decide_eq_true in E. intros (-> & Hf & _). rewrite Hf.
    split; [reflexivity|]. intros p Hp. inversion Hp; subst p. exact E.
  - apply bool_decide_eq_false in E. intros ([|] & _ & _ & _ & -> & Hf); rewrite Hf.
    + split; [set_solver|]. intros p Hp. inversion Hp; subst p. set_solver.
    + split; [set_solver | discriminate].
Qed.

Lemma download_pdf_disk env entry directory : respects disk_kept (download_pdf env entry directory).
Proof.
  intros st w.
  destruct (download_pdf_result env entry directory st w) as (res & w' & d & -> & _ & _ & Hres).
  split; [|intros n p H; right; exact H]. cbn.
  destruct res as [r|e|]; [|destruct Hres as (_ & _ & _ & Hf & _); rewrite Hf; reflexivity
                           |contradiction].
  destruct Hres as [_ Hout]. apply fetch_outcome_files in Hout. apply Hout.
Qed.

Lemma download_one_disk env num : respects disk_kept (download_one env num).
Proof.
  intros st w.
  destruct (download_one_spec env num st w) as (r & st' & w' & d & -> & _ & _ & -> & Hout).
  cbn [fst snd].
  assert (Hf : files w ⊆ files w' /\ (forall p, r = Some p -> p ∈ files w')).
  { destruct (_get_entry_from_results (last_results_feed st) num) as [e|].
    - exact (fetch_outcome_files _ _ _ _ _ _ Hout).
    - destruct Hout as (-> & Hfl & _). rewrite Hfl. split; [reflexivity | discriminate]. }
  destruct Hf as [Hsub Hin]. split; [exact Hsub|].
  intros n p Hp. destruct r as [q|]; [|right; exact Hp].
  cbn in Hp. apply lookup_insert_Some in Hp. destruct Hp as [[_ <-]|[_ Hp]]; auto.
Qed.

Lemma get_or_upload_disk env fuel path :
  respects disk_kept (_get_or_upload_gemini_file env fuel path).
Proof.
  apply respects_disk_same; [apply get_or_upload_downloads | apply get_or_upload_files].
Qed.

Create HintDb disk.

#[export] Hint Resolve download_pdf_disk download_one_disk get_or_upload_disk : disk.

Ltac disk_leaf :=
  intros ? ? ?; cbn;
  first [ solve [intros H; exact H]
        | solve [intros H; apply lookup_delete_Some in H; tauto]
        | solve [rewrite lookup_empty; discriminate] ].

Ltac respects_disk :=
  repeat first
    [ solve [auto with disk]
    | solve [apply respects_disk_quiet;
             [ first [ apply search_arxiv_state | apply display_results_state
                     | apply perform_comparison_state ]
             | first [ apply search_arxiv_files | apply display_results_files
                     | apply perform_comparison_files ] ] ]
    | respects_step
    | apply respects_modify_disk; solve [disk_leaf]
    | apply respects_emit_disk
    | eapply emits_one_disk;
      first [ apply emit_emits | apply input_emits | apply requests_get_arxiv_emits
            | apply requests_get_pdf_emits | apply genai_upload_file_emits
            | apply genai_get_file_emits | apply genai_delete_file_emits
            | apply generate_content_emits ] ].

Lemma download_each_disk env paper_nums :
  forall successful, respects disk_kept (download_each env paper_nums successful).
Proof.
  induction paper_nums as [|num rest IH]; intros successful; cbn [download_each];
    respects_disk.
Qed.

Lemma compare_collect_disk env fuel paper_nums :
  forall fos, respects disk_kept (compare_collect env fuel paper_nums fos).
Proof.
  induction paper_nums as [|num rest IH]; intros fos; cbn [compare_collect]; respects_disk.
Qed.

#[export] Hint Resolve download_each_disk compare_collect_disk : disk.

(** The round of the one-shot loop that fetches a paper and records it. *)
Lemma fetch_and_record_disk env entry download_dir paper_num :
  respects disk_kept
    (got <- download_pdf env entry download_dir;;
     match got with
     | Some path =>
         if Py.is_empty path then print (MsgFailedDownload paper_num);; ret None
         else
           modify (fun s => set_downloaded_pdfs
                              (<[paper_num := path]> (downloaded_pdfs s)) s);;
           ret (Some path)
     | None => print (MsgFailedDownload paper_num);; ret None
     end).
Proof.
  intros st w. run.
  destruct (download_pdf_result env entry download_dir st w)
    as (res & w' & d & -> & _ & _ & Hres).
  destruct res as [r|e|]; [|destruct Hres as (_ & _ & _ & Hf & _)|contradiction].
  2: { split; [cbn; rewrite Hf; reflexivity | intros n p Hp; right; exact Hp]. }
  destruct Hres as [_ Hout].
  apply fetch_outcome_files in Hout. destruct Hout as [Hsub Hin].
  destruct r as [path|]; [destruct (Py.is_empty path)|]; run; (split; [exact Hsub|]);
    intros n p Hp; cbn in *; try (right; exact Hp).
  apply lookup_insert_Some in Hp. destruct Hp as [[_ <-]|[_ Hp]]; auto.
Qed.

#[export] Hint Resolve fetch_and_record_disk : disk.

Lemma main_compare_collect_disk env fuel results_feed download_dir paper_nums :
  forall fos,
    respects disk_kept (main_compare_collect env fuel results_feed download_dir paper_nums fos).
Proof.
  induction paper_nums as [|num rest IH]; intros fos; cbn [main_compare_collect];
    respects_disk.
Qed.

#[export] Hint Resolve main_compare_collect_disk : disk.

(** X8. The download map points at files that exist. When every path in
    the download map is the path of an existing file, the same holds after
    each of the commands [q], [n], [download], [compare] and [set] and
    after the one-shot comparison, however they end, and no file that
    existed before the command is lost: the program records a path only
    once the file is there and never removes a file it has recorded. *)
Theorem downloads_stay_on_disk (env : Env) (fuel : nat) (st : AppState) (w : World)
    (Hinv : downloads_on_disk st w) :
  on_disk_after w (cmd_q env st w) /\
  on_disk_after w (cmd_n env st w) /\
  (forall args_str, on_disk_after w (cmd_download env args_str st w)) /\
  (forall args_str, on_disk_after w (cmd_compare env fuel args_str st w)) /\
  (forall args_str, on_disk_after w (cmd_set args_str st w)) /\
  (forall results_feed download_dir paper_nums_str comparison_type,
     on_disk_after w
       (main_compare env fuel results_feed download_dir paper_nums_str comparison_type st w)).
Proof.
  assert (Hkeep : forall A (m : M A), respects disk_kept m -> on_disk_after w (m st w)).
  { intros A m Hm. destruct (Hm st w) as [Hsub Hd]. cbn in Hsub, Hd.
    split; [exact Hsub|]. intros n p Hp.
    destruct (Hd n p Hp) as [Hin|Hold]; [exact Hin|]. apply Hsub. exact (Hinv n p Hold). }
  split; [|split; [|split; [|split; [|split]]]]; intros; apply Hkeep.
  - unfold cmd_q. respects_disk.
  - unfold cmd_n, attr_entries. respects_disk.
  - unfold cmd_download. respects_disk.
  - unfold cmd_compare. respects_disk.
  - unfold cmd_set. respects_disk.
  - unfold main_compare. respects_disk.
Qed.

Lemma downloads_stay_on_disk_witness :
  on_disk_after world_one (cmd_q env_ok st_one_ready world_one) /\
  on_disk_after world_one (cmd_n env_ok st_one_ready world_one) /\
  (forall args_str, on_disk_after world_one (cmd_download env_ok args_str st_one_ready world_one)) /\
  (forall args_str, on_disk_after world_one (cmd_compare env_ok 1 args_str st_one_ready world_one)) /\
  (forall args_str, on_disk_after world_one (cmd_set args_str st_one_ready world_one)) /\
  (forall results_feed download_dir paper_nums_str comparison_type,
     on_disk_after world_one
       (main_compare env_ok 1 results_feed download_dir paper_nums_str comparison_type
          st_one_ready world_one)).
Proof.
  apply (downloads_stay_on_disk env_ok 1 st_one_ready world_one).
  intros n p Hp.
  change (downloaded_pdfs st_one_ready) with ({[ 1 := path1 ]} : gmap Z string) in Hp.
  apply lookup_singleton_Some in Hp. destruct Hp as [_ <-].
  change (files world_one) with ({[ path1 ]} : gset string).
  apply elem_of_singleton_2. reflexivity.
Defined.

(** ** The comparison: what is sent to the model *)

Lemma first_invalid_none fos : forall i, first_invalid i fos = None -> Forall usable fos.
Proof.
  induction fos as [|f fos IH]; intros i H; [constructor|].
  cbn [first_invalid] in H.
  destruct (Py.is_empty (guri f)) eqn:Eu; [discriminate|].
  destruct (Py.is_empty (gmime_type f)) eqn:Em; [discriminate|].
  cbn [orb] in H. constructor; [|exact (IH _ H)].
  split; intros E; [rewrite E in Eu | rewrite E in Em]; discriminate.
Qed.

Lemma comparison_prompt_known ctype : In (get_comparison_prompt ctype) COMPARISON_TYPES.
Proof.
  unfold get_comparison_prompt. destruct (in_list ctype COMPARISON_TYPES) eqn:E.
  - unfold in_list in E. apply existsb_exists in E. destruct E as (x & Hx & Heq).
    apply String.eqb_eq in Heq. subst x. exact Hx.
  - cbn. auto.
Qed.

(** The requests of [compare_papers] carry what it was given. *)
Lemma compare_papers_requests_shape env fos ctype model st w :
  exists r w' d,
    compare_papers env fos ctype model st w = (Ok r, st, w') /\
    log w' = log w ++ d /\
    Forall (fun e => match e with
                     | EvGenerate m key fs =>
                         m = model /\ key = get_comparison_prompt ctype /\ fs = fos /\
                         (2 <= length fos)%nat
                     | _ => True
                     end) d.
Proof.
  unfold compare_papers.
  destruct (length fos <? 2)%nat eqn:Elen; run.
  { do 3 eexists. split; [reflexivity|]. log_norm. split; [reflexivity | repeat constructor]. }
  apply Nat.ltb_ge in Elen.
  destruct (first_invalid 0 fos) as [i|]; run.
  { do 3 eexists. split; [reflexivity|]. log_norm. split; [reflexivity | repeat constructor]. }
  unfold generate_content. cbn [log record].
  destruct (generate_reply env _ model _ fos); run;
    do 3 eexists; (split; [reflexivity|]); log_norm;
    (split; [reflexivity | repeat constructor; exact Elen]).
Qed.

(** X9. [compare_papers] sends at most one request to the model and never
    raises. It sends none when there are fewer than two file objects or
    when one of them lacks a URI or a MIME type; a result can only come
    from a request. The request names the model it was given and one of
    the four comparison prompts (an unknown type falls back to the general
    one), and carries all the file objects, in order. *)
Theorem compare_papers_requests (env : Env) (file_objects : list GFile)
    (comparison_type model_name : string) (st : AppState) (w : World) :
  exists r w' d,
    compare_papers env file_objects comparison_type model_name st w = (Ok r, st, w') /\
    files w' = files w /\
    log w' = log w ++ d /\
    (count_events is_generate d <= 1)%nat /\
    (r <> None -> count_events is_generate d = 1%nat) /\
    (count_events is_generate d = 1%nat ->
       In (EvGenerate model_name (get_comparison_prompt comparison_type) file_objects) d /\
       (2 <= length file_objects)%nat /\
       Forall usable file_objects /\
       In (get_comparison_prompt comparison_type) COMPARISON_TYPES).
Proof.
  unfold compare_papers.
  destruct (length file_objects <? 2)%nat eqn:Elen; run.
  { do 3 eexists. split; [reflexivity|]. split; [reflexivity|]. log_norm.
    split; [reflexivity|]. cbn. repeat split; try lia; congruence. }
  apply Nat.ltb_ge in Elen.
  destruct (first_invalid 0 file_objects) as [i|] eqn:Einv; run.
  { do 3 eexists. split; [reflexivity|]. split; [reflexivity|]. log_norm.
    split; [reflexivity|]. cbn. repeat split; try lia; congruence. }
  unfold generate_content. cbn [log record].
  destruct (generate_reply env _ model_name _ file_objects); run;
    do 3 eexists; (split; [reflexivity|]); (split; [reflexivity|]); log_norm;
    (split; [reflexivity|]); cbn;
    (split; [lia|]); (split; [reflexivity|]); intros _;
    (split; [auto|]); (split; [exact Elen|]);
    (split; [exact (first_invalid_none _ _ Einv) | apply comparison_prompt_known]).
Qed.

Section Requests.

Context (model : string).

#[export] Instance requests_sound_preorder : PreOrder (requests_sound model).
Proof.
  split.
  - intros c Hm. split; [exact Hm|]. exists []. split; [now rewrite app_nil_r | constructor].
  - intros c1 c2 c3 H12 H23 Hm.
    destruct (H12 Hm) as (Hm2 & d1 & Hd1 & HF1).
    destruct (H23 Hm2) as (Hm3 & d2 & Hd2 & HF2).
    split; [exact Hm3|]. exists (d1 ++ d2).
    split; [now rewrite Hd2, Hd1, app_assoc | now apply Forall_app].
Qed.

Lemma respects_emit_requests e : is_generate e = false -> respects (requests_sound model) (emit e).
Proof.
  intros He st w Hm. split; [exact Hm|]. exists [e]. split; [reflexivity|].
  repeat constructor. destruct e; try exact I; discriminate.
Qed.

Lemma respects_modify_requests g :
  (forall st, gemini_model_name (g st) = gemini_model_name st) ->
  respects (requests_sound model) (modify g).
Proof.
  intros H st w Hm. cbn. split; [now rewrite H|]. exists [].
  split; [now rewrite app_nil_r | constructor].
Qed.

(** A computation that sends nothing to the model and keeps the session's
    model. *)
Lemma respects_requests_of {A} (Q : Event -> Prop) (m : M A) :
  (forall e, Q e -> is_generate e = false) ->
  respects (log_grows Q) m -> respects (same_on gemini_model_name) m ->
  respects (requests_sound model) m.
Proof.
  intros HQ Hl Hs st w Hm. specialize (Hl st w). specialize (Hs st w).
  unfold log_grows, same_on in *. cbn in *. destruct Hl as (d & Hd & HF).
  split; [now rewrite Hs|]. exists d. split; [exact Hd|].
  eapply Forall_impl; [exact HF|]. intros e He. apply HQ in He.
  destruct e; try exact I; discriminate.
Qed.

Lemma respects_bind_post {A B} (R : relation Config) `{!PreOrder R} (P : A -> Prop)
    (m : M A) (k : A -> M B) :
  respects R m -> returns P m -> (forall a, P a -> respects R (k a)) -> respects R (bind m k).
Proof.
  intros Hm HP Hk st w. unfold bind. specialize (Hm st w). specialize (HP st w).
  destruct (m st w) as [[[a|e|] st1] w1]; simpl in *; try exact Hm.
  etransitivity; [exact Hm | apply Hk; exact HP].
Qed.

End Requests.

Lemma file_store_event_no_generate e : file_store_event e -> is_generate e = false.
Proof. destruct e; simpl; auto; contradiction. Qed.

Lemma fetch_event_no_generate e : fetch_event e -> is_generate e = false.
Proof. destruct e; simpl; auto; contradiction. Qed.

Lemma get_or_upload_model env fuel path :
  respects (same_on gemini_model_name) (_get_or_upload_gemini_file env fuel path).
Proof. unfold _get_or_upload_gemini_file. respects_on. Qed.

Lemma get_or_upload_requests model env fuel path :
  respects (requests_sound model) (_get_or_upload_gemini_file env fuel path).
Proof.
  eapply respects_requests_of;
    [exact file_store_event_no_generate | apply get_or_upload_log | apply get_or_upload_model].
Qed.

Lemma download_pdf_log env entry directory :
  respects (log_grows fetch_event) (download_pdf env entry directory).
Proof.
  intros st w.
  destruct (download_pdf_result env entry directory st w) as (res & w' & d & -> & Hlog & HF & _).
  exists d. split; [exact Hlog | exact HF].
Qed.

Lemma download_pdf_requests model env entry directory :
  respects (requests_sound model) (download_pdf env entry directory).
Proof.
  eapply respects_requests_of; [exact fetch_event_no_generate | apply download_pdf_log |].
  intros st w. pose proof (download_pdf_state env entry directory st w) as H.
  unfold same_state, same_on in *. cbn in *. now rewrite H.
Qed.

Create HintDb requests.

#[export] Hint Resolve get_or_upload_requests download_pdf_requests : requests.

Ltac respects_requests :=
  repeat first
    [ solve [auto with requests]
    | respects_step
    | apply respects_modify_requests; intros ?; reflexivity
    | apply respects_emit_requests; reflexivity ].

Lemma get_or_upload_returns env fuel path :
  returns (fun r => match r with Some f => is_active (gstate f) = true | None => True end)
    (_get_or_upload_gemini_file env fuel path).
Proof.
  intros st w.
  destruct (get_or_upload_ends env fuel path st w) as (res & st' & w' & -> & Hres). cbn.
  destruct res as [[f|]|e|]; tauto.
Qed.

Section Returns.

Context {A B : Type}.

Lemma returns_ret (Q : A -> Prop) (a : A) : Q a -> returns Q (ret a).
Proof. intros H st w. exact H. Qed.

Lemma returns_raise (Q : A -> Prop) (e : Exn) : returns Q (@raise A e).
Proof. intros st w. exact I. Qed.

Lemma returns_bind (P : A -> Prop) (Q : B -> Prop) (m : M A) (k : A -> M B) :
  returns P m -> (forall a, P a -> returns Q (k a)) -> returns Q (bind m k).
Proof.
  intros Hm Hk st w. unfold bind. specialize (Hm st w).
  destruct (m st w) as [[[a|e|] st1] w1]; cbn in *; try exact I.
  apply Hk. exact Hm.
Qed.

Lemma returns_bind_any (Q : B -> Prop) (m : M A) (k : A -> M B) :
  (forall a, returns Q (k a)) -> returns Q (bind m k).
Proof.
  intros Hk st w. unfold bind.
  destruct (m st w) as [[[a|e|] st1] w1]; cbn; try exact I. apply Hk.
Qed.

End Returns.

Lemma all_active_snoc fos f :
  all_active fos -> is_active (gstate f) = true -> all_active (fos ++ [f]).
Proof. intros H Hf. apply Forall_app. split; [exact H | repeat constructor; exact Hf]. Qed.

Lemma compare_collect_returns env fuel paper_nums :
  forall fos, all_active fos -> returns all_active (compare_collect env fuel paper_nums fos).
Proof.
  induction paper_nums as [|num rest IH]; intros fos Hfos; cbn [compare_collect].
  - apply returns_ret. exact Hfos.
  - apply returns_bind_any. intros st.
    destruct (downloaded_pdfs st !! num) as [pdf_filepath|]; [|apply returns_raise].
    apply returns_bind_any. intros present.
    destruct (negb present).
    + repeat (apply returns_bind_any; intros ?). apply IH. exact Hfos.
    + apply returns_bind_any. intros _.
      eapply returns_bind; [apply get_or_upload_returns|].
      intros [f|] Hf.
      * apply IH. apply all_active_snoc; assumption.
      * apply returns_bind_any. intros _. apply IH. exact Hfos.
Qed.

Lemma main_compare_collect_returns env fuel results_feed download_dir paper_nums :
  forall fos,
    all_active fos ->
    returns all_active (main_compare_collect env fuel results_feed download_dir paper_nums fos).
Proof.
  induction paper_nums as [|num rest IH]; intros fos Hfos; cbn [main_compare_collect].
  - apply returns_ret. exact Hfos.
  - destruct (truthy_entry (_get_entry_from_results results_feed num)) as [entry|].
    2: { apply returns_bind_any. intros _. apply IH. exact Hfos. }
    apply returns_bind_any. intros st.
    apply returns_bind_any. intros [path|]; [|apply IH; exact Hfos].
    apply returns_bind_any. intros _.
    eapply returns_bind; [apply get_or_upload_returns|].
    intros [f|] Hf.
    + apply IH. apply all_active_snoc; assumption.
    + apply returns_bind_any. intros _. apply IH. exact Hfos.
Qed.

Lemma compare_collect_requests model env fuel paper_nums :
  forall fos, respects (requests_sound model) (compare_collect env fuel paper_nums fos).
Proof.
  induction paper_nums as [|num rest IH]; intros fos; cbn [compare_collect];
    respects_requests.
Qed.

Lemma main_compare_collect_requests model env fuel results_feed download_dir paper_nums :
  forall fos,
    respects (requests_sound model)
      (main_compare_collect env fuel results_feed download_dir paper_nums fos).
Proof.
  induction paper_nums as [|num rest IH]; intros fos; cbn [main_compare_collect];
    respects_requests.
Qed.

(** The comparison step sends a sound request when its file objects are
    ACTIVE. *)
Lemma perform_comparison_requests model env fos ctype :
  all_active fos -> respects (requests_sound model) (perform_comparison env fos ctype).
Proof.
  intros Hfos st w Hm. unfold perform_comparison. run.
  destruct (compare_papers_requests_shape env fos ctype (gemini_model_name st) st
              (record (EvPrint (MsgComparing (length fos) ctype)) w))
    as (r & w' & d & Hrun & Hlog & Hone).
  rewrite Hrun.
  assert (HF : Forall (sound_request model) d).
  { eapply Forall_impl; [exact Hone|]. intros e He.
    destruct e; try exact I. destruct He as (-> & -> & -> & Hlen).
    cbn. split; [exact Hm|]. split; [apply comparison_prompt_known|]. split; assumption. }
  assert (Hend : forall m3 : Msg,
            gemini_model_name st = model /\
            exists d0, log w' ++ [EvPrint (MsgComparisonHeader ctype)] ++ [EvPrint m3]
                       ++ [EvPrint MsgRule] = log w ++ d0 /\
                       Forall (sound_request model) d0).
  { intros m3. split; [exact Hm|]. eexists. rewrite Hlog. log_norm. split; [reflexivity|].
    constructor; [exact I|]. apply Forall_app. split; [exact HF|]. repeat constructor. }
  destruct r as [text|]; [destruct (Py.is_empty text)|]; run; cbn [fst snd log record];
    rewrite <- !app_assoc; apply Hend.
Qed.

Ltac respects_comparison :=
  repeat first
    [ lazymatch goal with
      | |- respects _ (bind (compare_collect _ _ _ _) _) =>
          eapply respects_bind_post with (P := all_active);
          [ exact _ | apply compare_collect_requests
          | apply compare_collect_returns; constructor
          | intros ? ?; destruct (_ <? _)%nat;
            [| apply perform_comparison_requests; assumption] ]
      | |- respects _ (bind (main_compare_collect _ _ _ _ _ _) _) =>
          eapply respects_bind_post with (P := all_active);
          [ exact _ | apply main_compare_collect_requests
          | apply main_compare_collect_returns; constructor
          | intros ? ?; destruct (_ <=? _)%nat;
            [apply perform_comparison_requests; assumption|] ]
      end
    | solve [auto with requests]
    | progress cbv zeta
    | respects_step
    | apply respects_modify_requests; intros ?; reflexivity
    | apply respects_emit_requests; reflexivity ].

Lemma cmd_compare_requests model env fuel args_str :
  respects (requests_sound model) (cmd_compare env fuel args_str).
Proof. unfold cmd_compare. respects_comparison. Qed.

Lemma main_compare_requests model env fuel results_feed download_dir paper_nums_str ctype :
  respects (requests_sound model)
    (main_compare env fuel results_feed download_dir paper_nums_str ctype).
Proof. unfold main_compare. respects_comparison. Qed.

(** X10. Whatever the arguments, the session and the replies of the
    outside are, every request that the [compare] command or the one-shot
    comparison sends to the model names the model of the session and one
    of the four comparison prompts, and carries at least two file objects,
    each of them a handle that the file store reported ACTIVE. *)
Theorem compare_sends_active_files (env : Env) (fuel : nat) (st : AppState) (w : World) :
  (forall args_str,
     exists d,
       log (final_world (cmd_compare env fuel args_str st w)) = log w ++ d /\
       Forall (sound_request (gemini_model_name st)) d) /\
  (forall results_feed download_dir paper_nums_str comparison_type,
     exists d,
       log (final_world (main_compare env fuel results_feed download_dir paper_nums_str
                           comparison_type st w)) = log w ++ d /\
       Forall (sound_request (gemini_model_name st)) d).
Proof.
  split.
  - intros args_str.
    destruct (cmd_compare_requests (gemini_model_name st) env fuel args_str st w eq_refl)
      as (_ & d & Hd & HF).
    exists d. split; [exact Hd | exact HF].
  - intros results_feed download_dir paper_nums_str comparison_type.
    destruct (main_compare_requests (gemini_model_name st) env fuel results_feed download_dir
                paper_nums_str comparison_type st w eq_refl) as (_ & d & Hd & HF).
    exists d. split; [exact Hd | exact HF].
Qed.

(** ** The comparison: when it can fail *)

Lemma perform_comparison_ok env fos ctype st w :
  exists st' w', perform_comparison env fos ctype st w = (Ok tt, st', w').
Proof.
  unfold perform_comparison. run.
  destruct (compare_papers_requests_shape env fos ctype (gemini_model_name st) st
              (record (EvPrint (MsgComparing (length fos) ctype)) w))
    as (r & w' & d & Hrun & _).
  rewrite Hrun. destruct r as [text|]; [destruct (Py.is_empty text)|]; run; eauto.
Qed.

Lemma compare_collect_no_raise env fuel paper_nums :
  forall fos st w,
    downloads_on_disk st w ->
    (forall n, In n paper_nums -> downloaded_pdfs st !! n <> None) ->
    match fst (fst (compare_collect env fuel paper_nums fos st w)) with
    | Raise _ => False
    | _ => True
    end.
Proof.
  induction paper_nums as [|num rest IH]; intros fos st w Hinv Hkeys; cbn [compare_collect].
  - exact I.
  - run. destruct (downloaded_pdfs st !! num) as [p|] eqn:Hp.
    2: { exfalso. apply (Hkeys num); [left; reflexivity | exact Hp]. }
    run. rewrite bool_decide_eq_true_2 by exact (Hinv num p Hp). cbn [negb]. run.
    pose proof (get_or_upload_ends env fuel p st (record (EvPrint (MsgEnsuring num)) w)) as He.
    pose proof (get_or_upload_downloads env fuel p st (record (EvPrint (MsgEnsuring num)) w)) as Hd.
    pose proof (get_or_upload_files env fuel p st (record (EvPrint (MsgEnsuring num)) w)) as Hf.
    destruct He as (res & st1 & w1 & Hrun & Hres). rewrite Hrun in Hd, Hf |- *.
    unfold same_on, same_files in Hd, Hf. cbn in Hd, Hf.
    assert (Hinv1 : forall w2, files w2 = files w1 -> downloads_on_disk st1 w2).
    { intros w2 Hw2 n q Hq. rewrite Hw2, Hf. rewrite Hd in Hq. exact (Hinv n q Hq). }
    assert (Hkeys1 : forall n, In n rest -> downloaded_pdfs st1 !! n <> None).
    { intros n Hn. rewrite Hd. apply Hkeys. right. exact Hn. }
    destruct res as [[f|]|e|]; run.
    + apply IH; [apply Hinv1; reflexivity | exact Hkeys1].
    + apply IH; [apply Hinv1; reflexivity | exact Hkeys1].
    + exact Hres.
    + exact I.
Qed.

(** X11. When every path in the download map is the path of a file that
    exists, the [compare] command never raises, whatever its arguments and
    the replies of the outside are. *)
Theorem compare_never_raises_on_disk (env : Env) (fuel : nat) (args_str : string)
    (st : AppState) (w : World) (Hinv : downloads_on_disk st w) :
  match fst (fst (cmd_compare env fuel args_str st w)) with
  | Raise _ => False
  | _ => True
  end.
Proof.
  unfold cmd_compare. run.
  destruct (negb (gemini_enabled st)); [exact I|].
  destruct (Py.split_maxsplit1 args_str) as [|numbers rest]; [exact I|].
  destruct (parse_nums (Py.split "," numbers)) as [paper_nums|]; [|exact I].
  destruct (length paper_nums <? 2)%nat; [exact I|].
  destruct (negb (in_list _ COMPARISON_TYPES)); [exact I|].
  destruct (filter (fun num => downloaded_pdfs st !! num = None) paper_nums) as [|m ms] eqn:Hmiss;
    [|exact I].
  assert (Hkeys : forall n, In n paper_nums -> downloaded_pdfs st !! n <> None).
  { intros n Hn Hnone. apply list_elem_of_In in Hn.
    exact (filter_nil_not_elem_of _ _ n Hmiss Hnone Hn). }
  pose proof (compare_collect_no_raise env fuel paper_nums [] st w Hinv Hkeys) as Hc.
  destruct (compare_collect env fuel paper_nums [] st w) as [[[fos|e|] st1] w1]; run;
    cbn in Hc; try exact Hc.
  destruct (length fos <? 2)%nat; run; [exact I|].
  match goal with
  | |- context [perform_comparison env fos ?c st1 w1] =>
      destruct (perform_comparison_ok env fos c st1 w1) as (st2 & w2 & Hrun)
  end.
  rewrite Hrun. exact I.
Qed.

Lemma compare_never_raises_on_disk_witness :
  match fst (fst (cmd_compare env_ok 1 "1,1 methods" st_one_ready world_one)) with
  | Raise _ => False
  | _ => True
  end.
Proof.
  apply (compare_never_raises_on_disk env_ok 1 "1,1 methods" st_one_ready world_one).
  intros n p Hp.
  change (downloaded_pdfs st_one_ready) with ({[ 1 := path1 ]} : gmap Z string) in Hp.
  apply lookup_singleton_Some in Hp. destruct Hp as [_ <-].
  change (files world_one) with ({[ path1 ]} : gset string).
  apply elem_of_singleton_2. reflexivity.
Defined.

(** Without the files the command can fail: paper 1 is in the download
    map, its file is gone, and the number is given twice. The first round
    removes the entry, the second looks it up. *)
Example compare_repeated_missing_raises :
  let '(res, st', w') := cmd_compare env_ok 1 "1,1" st_one_ready world0 in
  res = Raise KeyError /\
  downloaded_pdfs st' !! 1 = None /\
  log w' = [EvPrint (MsgPdfFileMissing path1)].
Proof. vm_compute. repeat split; reflexivity. Qed.

(** ** The [set] command *)

Lemma first_starting_with_in p candidates x :
  first_starting_with p candidates = Some x -> In x candidates.
Proof. unfold first_starting_with. intros H. apply find_some in H. tauto. Qed.

Lemma api_field_name_known x :
  In x ["relevance"%string; "lastupdateddate"%string; "submitteddate"%string] ->
  In (api_field_name_of x) SORT_FIELDS.
Proof.
  intros [<-|[<-|[<-|[]]]]; cbn; auto.
Qed.

(** X12. [set] never raises, and it leaves the sort settings either as
    they were or valid: after [set sort f o] was accepted, the sort field
    is one of [relevance], [lastUpdatedDate], [submittedDate] in the
    spelling of the index, the sort order is [ascending] or [descending],
    and the page offset is 0. This holds for every argument text, so
    abbreviations and other spellings cannot put a name into the session
    that the index would not know. *)
Theorem set_keeps_sort_valid (args_str : string) (st : AppState) (w : World) :
  exists st' w',
    cmd_set args_str st w = (Ok tt, st', w') /\
    ((current_sort_by st' = current_sort_by st /\
      current_sort_order st' = current_sort_order st) \/
     (In (current_sort_by st') SORT_FIELDS /\
      In (current_sort_order st') SORT_ORDERS /\
      current_start_index st' = 0)).
Proof.
  unfold cmd_set.
  destruct (Py.split_maxsplit1 args_str) as [|first [|value_str [|x l]]];
    try (run; do 2 eexists; split; [reflexivity | left; split; reflexivity]).
  destruct (String.eqb (Py.lower first) "max").
  { destruct (Py.int value_str); run; do 2 eexists; (split; [reflexivity|]); left; split; reflexivity. }
  destruct (String.eqb (Py.lower first) "sort").
  2: { destruct (String.eqb (Py.lower first) "model");
         [destruct (Py.is_empty (Py.strip value_str))|];
         run; do 2 eexists; (split; [reflexivity|]); left; split; reflexivity. }
  destruct (Py.split_ws value_str) as [|f [|o [|y l]]];
    try (run; do 2 eexists; split; [reflexivity | left; split; reflexivity]).
  destruct (first_starting_with (Py.lower f) _) as [matched_field|] eqn:Ef;
    [|run; do 2 eexists; split; [reflexivity | left; split; reflexivity]].
  destruct (first_starting_with (Py.lower o) _) as [matched_order|] eqn:Eo;
    [|run; do 2 eexists; split; [reflexivity | left; split; reflexivity]].
  run. do 2 eexists. split; [reflexivity|]. right. cbn.
  split; [apply api_field_name_known; exact (first_starting_with_in _ _ _ Ef)|].
  split; [exact (first_starting_with_in _ _ _ Eo) | reflexivity].
Qed.

Example set_sort_runs :
  (let '(res, st', w') := cmd_set "sort last asc" (st_page 25) world0 in
   current_sort_by st' = "lastUpdatedDate"%string /\
   current_sort_order st' = "ascending"%string) /\
  (let '(res, st', w') := cmd_set "sort s d" (st_page 25) world0 in
   current_sort_by st' = "submittedDate"%string /\
   current_sort_order st' = "descending"%string) /\
  (let '(res, st', w') := cmd_set "sort date asc" (st_page 25) world0 in
   st' = st_page 25 /\ log w' = [EvPrint MsgInvalidSort]).
Proof. repeat split; reflexivity. Qed.

(** ** Strings: stripping and splitting at whitespace *)

Lemma lstrip_all_space s : all_space s = true -> Py.lstrip s = ""%string.
Proof.
  induction s as [|c s IH]; [reflexivity|]. cbn [all_space Py.lstrip].
  intros H. apply andb_true_iff in H. destruct H as [-> Hs]. exact (IH Hs).
Qed.

Lemma lstrip_head s : forall c s', Py.lstrip s = String c s' -> Py.isspace c = false.
Proof.
  induction s as [|a s IH]; intros c s'; cbn [Py.lstrip]; [discriminate|].
  destruct (Py.isspace a) eqn:Ea; [apply IH|].
  intros H. inversion H; subst. exact Ea.
Qed.

Lemma lstrip_fixed c s : Py.isspace c = false -> Py.lstrip (String c s) = String c s.
Proof. intros H. cbn [Py.lstrip]. now rewrite H. Qed.

Lemma lstrip_idem s : Py.lstrip (Py.lstrip s) = Py.lstrip s.
Proof.
  destruct (Py.lstrip s) as [|c s'] eqn:E; [reflexivity|].
  apply lstrip_fixed. exact (lstrip_head _ _ _ E).
Qed.

Lemma lstrip_split s : exists sp, all_space sp = true /\ s = sp +:+ Py.lstrip s.
Proof.
  induction s as [|c s IH]; [exists ""%string; split; reflexivity|].
  cbn [Py.lstrip]. destruct (Py.isspace c) eqn:Ec.
  - destruct IH as (sp & Hsp & Heq). exists (String c sp). split.
    + cbn [all_space]. now rewrite Ec, Hsp.
    + rewrite append_cons. congruence.
  - exists ""%string. split; reflexivity.
Qed.

Lemma lstrip_empty_all_space s : Py.lstrip s = ""%string -> all_space s = true.
Proof.
  intros H. destruct (lstrip_split s) as (sp & Hsp & Heq).
  rewrite H, append_empty_r in Heq. now subst.
Qed.

Lemma all_space_app a b : all_space (a +:+ b) = all_space a && all_space b.
Proof.
  induction a as [|c a IH]; [reflexivity|].
  rewrite append_cons. cbn [all_space]. rewrite IH. now rewrite andb_assoc.
Qed.

Lemma all_space_rev s : all_space (String.rev s) = all_space s.
Proof.
  induction s as [|c s IH]; [reflexivity|].
  rewrite rev_cons, all_space_app, IH. cbn [all_space]. rewrite andb_true_r. apply andb_comm.
Qed.

Lemma rev_empty s : String.rev s = ""%string -> s = ""%string.
Proof. intros H. rewrite <- (rev_involutive s), H. reflexivity. Qed.

Lemma append_empty a b : a +:+ b = ""%string -> a = ""%string /\ b = ""%string.
Proof. destruct a; [rewrite append_nil_l; auto | rewrite append_cons; discriminate]. Qed.

(** [strip] leaves nothing exactly of the texts that are all whitespace. *)
Lemma strip_empty_iff s : Py.strip s = ""%string <-> all_space s = true.
Proof.
  unfold Py.strip, Py.rstrip. split.
  - intros H. apply rev_empty in H. apply lstrip_empty_all_space in H.
    rewrite all_space_rev in H.
    destruct (Py.lstrip s) as [|c s'] eqn:E; [exact (lstrip_empty_all_space _ E)|].
    cbn [all_space] in H. rewrite (lstrip_head _ _ _ E) in H. discriminate.
  - intros H. rewrite (lstrip_all_space _ H). reflexivity.
Qed.

Lemma rstrip_idem s : Py.rstrip (Py.rstrip s) = Py.rstrip s.
Proof. unfold Py.rstrip. now rewrite rev_involutive, lstrip_idem. Qed.

Lemma rstrip_split s : exists sp, all_space sp = true /\ s = Py.rstrip s +:+ sp.
Proof.
  destruct (lstrip_split (String.rev s)) as (sp & Hsp & Heq).
  exists (String.rev sp). split; [now rewrite all_space_rev|].
  unfold Py.rstrip. rewrite <- rev_append, <- Heq, rev_involutive. reflexivity.
Qed.

Lemma strip_clean_start s : Py.lstrip (Py.strip s) = Py.strip s.
Proof.
  unfold Py.strip.
  destruct (rstrip_split (Py.lstrip s)) as (sp & _ & Heq).
  destruct (Py.rstrip (Py.lstrip s)) as [|c x] eqn:E; [reflexivity|].
  rewrite append_cons in Heq. apply lstrip_fixed. exact (lstrip_head _ _ _ Heq).
Qed.

Lemma strip_clean_end s : Py.rstrip (Py.strip s) = Py.strip s.
Proof. unfold Py.strip. apply rstrip_idem. Qed.

Lemma strip_idem s : Py.strip (Py.strip s) = Py.strip s.
Proof.
  unfold Py.strip at 1. rewrite strip_clean_start. apply strip_clean_end.
Qed.

Lemma lstrip_length s : (String.length (Py.lstrip s) <= String.length s)%nat.
Proof.
  induction s as [|c s IH]; [reflexivity|]. cbn [Py.lstrip].
  destruct (Py.isspace c); cbn [String.length]; lia.
Qed.

Lemma lstrip_fixed_inv c s : Py.lstrip (String c s) = String c s -> Py.isspace c = false.
Proof.
  cbn [Py.lstrip]. destruct (Py.isspace c); [|reflexivity].
  intros H. pose proof (lstrip_length s) as Hl. rewrite H in Hl. cbn [String.length] in Hl. lia.
Qed.

(** A non-empty end of a text without trailing whitespace has no trailing
    whitespace. *)
Lemma suffix_clean_end a b :
  Py.rstrip (a +:+ b) = a +:+ b -> b <> ""%string -> Py.rstrip b = b.
Proof.
  unfold Py.rstrip. intros H Hb.
  apply (f_equal String.rev) in H. rewrite rev_involutive, rev_append in H.
  destruct (String.rev b) as [|c x] eqn:E; [apply rev_empty in E; contradiction|].
  rewrite append_cons in H. apply lstrip_fixed_inv in H.
  rewrite (lstrip_fixed _ _ H), <- E. apply rev_involutive.
Qed.

Lemma break_ws_spec s :
  forall tok rest,
    Py.break_ws s = (tok, rest) ->
    s = tok +:+ rest /\ no_space tok = true /\
    (forall c s', s = String c s' -> Py.isspace c = false -> tok <> ""%string).
Proof.
  induction s as [|c s IH]; intros tok rest; cbn [Py.break_ws].
  - intros H. inversion H; subst. repeat split. intros; discriminate.
  - destruct (Py.isspace c) eqn:Ec.
    + intros H. inversion H; subst. repeat split. intros c' s' Heq Hc.
      inversion Heq; subst. congruence.
    + destruct (Py.break_ws s) as [tok' rest'] eqn:E. intros H. inversion H; subst.
      destruct (IH _ _ eq_refl) as (Heq & Hns & _).
      split; [rewrite append_cons; congruence|].
      split; [cbn [no_space]; now rewrite Ec, Hns | discriminate].
Qed.

(** What [split(maxsplit=1)] returns: nothing for a blank text; otherwise
    a first word without whitespace and, when something follows it, the
    remainder, which starts with a character that is not whitespace and
    ends the text. *)
Lemma split_maxsplit1_cases s :
  (all_space s = true /\ Py.split_maxsplit1 s = []) \/
  (exists tok, Py.split_maxsplit1 s = [tok] /\ tok <> ""%string /\ no_space tok = true) \/
  (exists tok r pre,
     Py.split_maxsplit1 s = [tok; r] /\ tok <> ""%string /\ no_space tok = true /\
     r <> ""%string /\ Py.lstrip r = r /\ s = pre +:+ r).
Proof.
  unfold Py.split_maxsplit1.
  destruct (lstrip_split s) as (sp & Hsp & Hs).
  destruct (Py.lstrip s) as [|c t] eqn:E.
  { left. split; [exact (lstrip_empty_all_space _ E) | reflexivity]. }
  right.
  destruct (Py.break_ws (String c t)) as [tok rest] eqn:Eb.
  destruct (break_ws_spec _ _ _ Eb) as (Heq & Hns & Hne).
  specialize (Hne c t eq_refl (lstrip_head _ _ _ E)).
  destruct (lstrip_split rest) as (sp' & _ & Hrest).
  destruct (Py.lstrip rest) as [|c' r] eqn:Er.
  - left. exists tok. auto.
  - right. exists tok, (String c' r), (sp +:+ tok +:+ sp').
    split; [reflexivity|]. split; [exact Hne|]. split; [exact Hns|].
    split; [discriminate|].
    split; [apply lstrip_fixed; exact (lstrip_head _ _ _ Er)|].
    rewrite Hs, Heq, Hrest, !append_assoc. reflexivity.
Qed.

Lemma lower_char_idem c : Py.lower_char (Py.lower_char c) = Py.lower_char c.
Proof. destruct c as [[] [] [] [] [] [] [] []]; reflexivity. Qed.

Lemma lower_char_space c : Py.isspace (Py.lower_char c) = Py.isspace c.
Proof. destruct c as [[] [] [] [] [] [] [] []]; reflexivity. Qed.

Lemma lower_idem s : Py.lower (Py.lower s) = Py.lower s.
Proof.
  induction s as [|c s IH]; [reflexivity|].
  cbn [Py.lower]. now rewrite lower_char_idem, IH.
Qed.

Lemma no_space_lower s : no_space (Py.lower s) = no_space s.
Proof.
  induction s as [|c s IH]; [reflexivity|].
  cbn [Py.lower no_space]. now rewrite lower_char_space, IH.
Qed.

Lemma lower_empty s : Py.lower s = ""%string -> s = ""%string.
Proof. destruct s; [reflexivity | discriminate]. Qed.

(** ** Reading a command *)

(** X13. What the command loop makes of a line. The command word is in
    lower case and contains no whitespace; it is empty exactly when the
    line is blank, and then the argument text is empty too. The argument
    text has no whitespace at either end ([strip] would not change it), so
    a handler that tests [args_str.strip()] tests [args_str]. *)
Theorem parse_command_shape (line : string) :
  no_space (fst (parse_command line)) = true /\
  Py.lower (fst (parse_command line)) = fst (parse_command line) /\
  Py.strip (snd (parse_command line)) = snd (parse_command line) /\
  (fst (parse_command line) = ""%string <-> all_space line = true) /\
  (fst (parse_command line) = ""%string -> snd (parse_command line) = ""%string).
Proof.
  unfold parse_command. cbv zeta. cbn [fst snd].
  pose proof (strip_empty_iff line) as Hblank.
  pose proof (strip_clean_end line) as Hend.
  destruct (split_maxsplit1_cases (Py.strip line))
    as [[Hsp Hsplit]|[(tok & Hsplit & Hne & Hns)
                     |(tok & r & pre & Hsplit & Hne & Hns & Hr & Hlr & Heq)]];
    rewrite Hsplit.
  - assert (Hl : all_space line = true)
      by (apply Hblank; rewrite <- strip_idem; apply strip_empty_iff; exact Hsp).
    repeat split; auto.
  - split; [now rewrite no_space_lower|]. split; [apply lower_idem|].
    split; [reflexivity|]. split; [|reflexivity].
    split.
    + intros H. apply lower_empty in H. contradiction.
    + intros H. apply Hblank in H. rewrite H in Hsplit. discriminate.
  - split; [now rewrite no_space_lower|]. split; [apply lower_idem|].
    split.
    + unfold Py.strip at 1. rewrite Hlr. apply (suffix_clean_end pre); [|exact Hr].
      rewrite <- Heq. exact Hend.
    + split; [|intros H; apply lower_empty in H; contradiction].
      split.
      * intros H. apply lower_empty in H. contradiction.
      * intros H. apply Hblank in H. rewrite H in Hsplit. discriminate.
Qed.

Example parse_command_runs :
  parse_command "  QUIT  " = ("quit"%string, ""%string) /\
  parse_command "Download  3, 7 " = ("download"%string, "3, 7"%string) /\
  parse_command "set Sort  rel  desc" = ("set"%string, "Sort  rel  desc"%string) /\
  parse_command "   " = (""%string, ""%string).
Proof. repeat split; reflexivity. Qed.

(** The remainder that [split(maxsplit=1)] returns is not blank. *)
Lemma split_maxsplit1_value s first value_str :
  Py.split_maxsplit1 s = [first; value_str] -> Py.strip value_str <> ""%string.
Proof.
  intros Hsplit Hblank.
  destruct (split_maxsplit1_cases s)
    as [[_ H]|[(tok & H & _)|(tok & r & pre & H & _ & _ & Hr & Hlr & _)]];
    rewrite H in Hsplit; inversion Hsplit; subst.
  apply strip_empty_iff in Hblank. apply lstrip_all_space in Hblank. congruence.
Qed.

(** X14. The model name of the session can never become empty: whatever
    the argument text, [set] either leaves the model name as it was or
    sets it to a text that is not empty and has no whitespace at either
    end. The message that the model name cannot be empty is never
    printed: the value that follows [set model] is never blank, because
    [split(maxsplit=1)] returns no blank remainder. *)
Theorem set_model_never_empty (args_str : string) (st : AppState) (w : World) :
  exists st' w' d,
    cmd_set args_str st w = (Ok tt, st', w') /\
    log w' = log w ++ d /\
    ~ In (EvPrint MsgModelEmpty) d /\
    (gemini_model_name st' = gemini_model_name st \/
     (gemini_model_name st' <> ""%string /\
      Py.strip (gemini_model_name st') = gemini_model_name st')).
Proof.
  assert (Hno : forall m, m <> MsgModelEmpty -> ~ In (EvPrint MsgModelEmpty) [EvPrint m]).
  { intros m Hm [H|[]]. inversion H. congruence. }
  unfold cmd_set.
  destruct (Py.split_maxsplit1 args_str) as [|first [|value_str [|x l]]] eqn:Hsplit;
    try (run; do 3 eexists; split; [reflexivity|]; log_norm; split; [reflexivity|];
         split; [apply Hno; discriminate | left; reflexivity]).
  destruct (String.eqb (Py.lower first) "max").
  { destruct (Py.int value_str); run; do 3 eexists; (split; [reflexivity|]); log_norm;
      (split; [reflexivity|]); (split; [apply Hno; discriminate | left; reflexivity]). }
  destruct (String.eqb (Py.lower first) "sort").
  { destruct (match Py.split_ws value_str with
              | [f; o] => _
              | _ => None
              end) as [[api_field_name matched_order]|];
      run; do 3 eexists; (split; [reflexivity|]); log_norm;
      (split; [reflexivity|]); (split; [apply Hno; discriminate | left; reflexivity]). }
  destruct (String.eqb (Py.lower first) "model").
  2: { run. do 3 eexists. split; [reflexivity|]. log_norm. split; [reflexivity|].
       split; [apply Hno; discriminate | left; reflexivity]. }
  pose proof (split_maxsplit1_value _ _ _ Hsplit) as Hvalue.
  destruct (Py.strip value_str) as [|c v] eqn:Ev; [congruence|].
  cbn [Py.is_empty]. run. do 3 eexists. split; [reflexivity|]. log_norm.
  split; [reflexivity|]. split; [apply Hno; discriminate|].
  right. cbn [gemini_model_name set_gemini_model_name]. split; [discriminate|].
  rewrite <- Ev. apply strip_idem.
Qed.

Example set_model_runs :
  (let '(res, st', w') := cmd_set "model  gemini-pro  " (st_page 25) world0 in
   gemini_model_name st' = "gemini-pro"%string /\ current_start_index st' = 0) /\
  (let '(res, st', w') := cmd_set "model   " (st_page 25) world0 in
   st' = st_page 25 /\ log w' = [EvPrint MsgSetUsage]).
Proof. repeat split; reflexivity. Qed.

(** ** The [download] command: errors *)

(** X15. The [download] command never raises and never ends the session:
    every error inside it, the end of input at the confirmation prompt
    included, is caught by its own handlers, so the turn of the command
    loop ends with [Continue]. The end of input at the prompt of [q], by
    contrast, ends the session. *)
Theorem download_never_raises (env : Env) (args_str : string) (st : AppState) (w : World) :
  (exists st' w',
     cmd_download env args_str st w = (Ok tt, st', w') /\
     loop_iteration (cmd_download env args_str) st w = (Ok Continue, st', w')) /\
  (forall paper_nums,
     no_results st = false ->
     Py.strip args_str <> ""%string ->
     parse_nums (Py.split "," args_str) = Some paper_nums ->
     (20 < length paper_nums)%nat ->
     input_reply env (log w) (PromptConfirmDownload (length paper_nums)) = None ->
     cmd_download env args_str st w
     = (Ok tt, st,
        {| files := files w;
           log := log w ++ [EvInput (PromptConfirmDownload (length paper_nums));
                            EvPrint (MsgDownloadException EOFError)] |})) /\
  (input_reply env (log w) PromptQuery = None ->
   loop_iteration (cmd_q env) st w
   = (Ok Break, st,
      {| files := files w; log := log w ++ [EvInput PromptQuery; EvPrint MsgEOF] |})).
Proof.
  split; [|split].
  - assert (H : exists st' w', cmd_download env args_str st w = (Ok tt, st', w')).
    { unfold cmd_download. run.
      destruct (no_results st); [eauto|].
      destruct (Py.is_empty (Py.strip args_str)); run; [eauto|].
      destruct (parse_nums (Py.split "," args_str)) as [paper_nums|]; run; [|eauto].
      destruct (20 <? length paper_nums)%nat; run.
      - unfold input. destruct (input_reply env (log w) _) as [answer|]; run; [|eauto].
        destruct (String.eqb (Py.lower (Py.strip answer)) "y"); run; [|eauto].
        destruct (download_each_spec env paper_nums 0 st
                    (record (EvInput (PromptConfirmDownload (length paper_nums))) w))
          as (n & st' & w' & d & Hrun & _).
        rewrite Hrun. destruct (1 <? length paper_nums)%nat; run; eauto.
      - destruct (download_each_spec env paper_nums 0 st w) as (n & st' & w' & d & Hrun & _).
        rewrite Hrun. destruct (1 <? length paper_nums)%nat; run; eauto. }
    destruct H as (st' & w' & H). exists st', w'. split; [exact H|].
    unfold loop_iteration, try_except, bind. rewrite H. reflexivity.
  - intros paper_nums Hres Hargs Hparse Hbig Heof.
    unfold cmd_download. run. rewrite Hres, (is_empty_false _ Hargs), Hparse.
    apply Nat.ltb_lt in Hbig. rewrite Hbig. unfold input. rewrite Heof. run.
    unfold record. cbn [files log]. rewrite <- app_assoc. reflexivity.
  - intros Heof. unfold loop_iteration, cmd_q, input. run. rewrite Heof.
    unfold record. cbn [files log]. rewrite <- app_assoc. reflexivity.
Qed.

(** X16. One malformed number rejects the whole batch. When a page is
    displayed and the comma-separated list holds a piece that [int] does
    not accept (an empty piece after a trailing comma, a word, a range),
    [download] reports the number format and does nothing else: no prompt,
    no fetch, not even for the well-formed numbers of the list, and the
    session and the files are as they were. *)
Theorem download_rejects_malformed_list (env : Env) (args_str : string) (st : AppState)
    (w : World)
    (Hres : no_results st = false)
    (Hargs : Py.strip args_str <> ""%string)
    (Hbad : parse_nums (Py.split "," args_str) = None) :
  cmd_download env args_str st w
  = (Ok tt, st, record (EvPrint MsgInvalidNumberFormat) w).
Proof.
  unfold cmd_download. run. rewrite Hres, (is_empty_false _ Hargs), Hbad. reflexivity.
Qed.

Lemma download_rejects_malformed_list_witness :
  cmd_download env_ok "1,2," (st_page 25) world0
  = (Ok tt, st_page 25, record (EvPrint MsgInvalidNumberFormat) world0).
Proof.
  apply (download_rejects_malformed_list env_ok "1,2," (st_page 25) world0).
  - reflexivity.
  - vm_compute. discriminate.
  - vm_compute. reflexivity.
Defined.

Example download_malformed_runs :
  parse_nums (Py.split "," "1,2,") = None /\
  parse_nums (Py.split "," "1-3") = None /\
  parse_nums (Py.split "," "1, 2 ,3") = Some [1; 2; 3] /\
  parse_nums (Py.split "," "1,,3") = None.
Proof. repeat split; reflexivity. Qed.

(** ** The commands [q] and [n]: what is asked of the index *)

Lemma search_arxiv_sends_one env query start max_results sort_by sort_order st w :
  exists r w' d,
    search_arxiv env query start max_results sort_by sort_order st w = (Ok r, st, w') /\
    log w' = log w ++ d /\
    count_events is_arxiv_query d = 1%nat /\
    In (EvArxivQuery query start max_results sort_by sort_order) d /\
    (forall fd, r = Some fd -> bozo fd = false /\ has_error_entry fd = false).
Proof.
  unfold search_arxiv. run. unfold requests_get_arxiv. cbn [log record].
  destruct (arxiv_reply env _ query start max_results sort_by sort_order) as [fd|]; run.
  2: { do 3 eexists. split; [reflexivity|]. log_norm. repeat split; cbn; auto; discriminate. }
  destruct (bozo fd) eqn:Eb; run.
  { destruct (has_error_entry fd); run;
      do 3 eexists; (split; [reflexivity|]); log_norm; repeat split; cbn; auto; discriminate. }
  destruct (has_error_entry fd) eqn:Ee; run.
  { do 3 eexists. split; [reflexivity|]. log_norm. repeat split; cbn; auto; discriminate. }
  assert (Hfd : forall fd0, Some fd = Some fd0 -> bozo fd0 = false /\ has_error_entry fd0 = false)
    by (intros fd0 H; inversion H; subst; auto).
  destruct (entries fd); run.
  - destruct (0 <? _); run;
      do 3 eexists; (split; [reflexivity|]); log_norm;
      (split; [reflexivity|]); (split; [reflexivity|]); (split; [cbn; auto | exact Hfd]).
  - do 3 eexists. split; [reflexivity|]. log_norm.
    split; [reflexivity|]. split; [reflexivity|]. split; [cbn; auto | exact Hfd].
Qed.

Lemma print_results_no_query i es : respects (log_grows no_query) (print_results i es).
Proof. revert i. induction es as [|e es IH]; intros i; cbn [print_results]; respects_log. Qed.

Lemma display_results_no_query fd start_index :
  respects (log_grows no_query) (display_results fd start_index).
Proof. unfold display_results. respects_log; apply print_results_no_query. Qed.

Lemma no_query_count d : Forall no_query d -> count_events is_arxiv_query d = 0%nat.
Proof. apply count_events_none. Qed.

(** What [q] and [n] do once the query and the offset are set: one search,
    the page and the total stored, the page displayed. *)
Lemma load_page_spec env (on_failure : M unit) st w :
  exists r res st' w' d0 d1,
    (r <- search_arxiv env (current_query st) (current_start_index st)
            (current_max_results st) (current_sort_by st) (current_sort_order st);;
     modify (set_last_results_feed r);;
     st <- get_state;;
     match last_results_feed st with
     | Some fd =>
         modify (set_total_results_count (default 0 (opensearch_totalresults (feed fd))));;
         st <- get_state;;
         num_displayed <- display_results (last_results_feed st) (current_start_index st);;
         st <- get_state;;
         if at_end st num_displayed then print MsgReachedEnd else ret tt
     | None => on_failure
     end) st w = (res, st', w') /\
    count_events is_arxiv_query d0 = 1%nat /\
    In (EvArxivQuery (current_query st) (current_start_index st) (current_max_results st)
          (current_sort_by st) (current_sort_order st)) d0 /\
    match r with
    | Some fd =>
        res = Ok tt /\
        st' = set_total_results_count (default 0 (opensearch_totalresults (feed fd)))
                (set_last_results_feed (Some fd) st) /\
        bozo fd = false /\ has_error_entry fd = false /\
        log w' = log w ++ d0 ++ d1 /\ Forall no_query d1
    | None =>
        exists w0, log w0 = log w ++ d0 /\ files w0 = files w /\
                   on_failure (set_last_results_feed None st) w0 = (res, st', w')
    end.
Proof.
  unfold bind at 1.
  destruct (search_arxiv_sends_one env (current_query st) (current_start_index st)
              (current_max_results st) (current_sort_by st) (current_sort_order st) st w)
    as (r & w0 & d0 & Hrun & Hlog & Hone & Hin & Hfd).
  pose proof (search_arxiv_files env (current_query st) (current_start_index st)
                (current_max_results st) (current_sort_by st) (current_sort_order st) st w)
    as Hfiles.
  rewrite Hrun in Hfiles |- *. unfold same_files in Hfiles. cbn in Hfiles.
  run. cbn [last_results_feed set_last_results_feed].
  destruct r as [fd|].
  - cbn [last_results_feed set_total_results_count set_last_results_feed current_start_index].
    match goal with
    | |- context [display_results ?f ?i ?s ?x] =>
        pose proof (display_results_no_query f i s x) as Hd;
        destruct (display_results_keeps_state f i s x) as (n & w1 & Hdisp)
    end.
    rewrite Hdisp in Hd |- *. destruct Hd as (d1 & Hd1 & HF1). cbn in Hd1.
    destruct (Hfd fd eq_refl) as [Hb He].
    destruct (at_end _ n); run.
    + exists (Some fd). do 3 eexists. exists d0, (d1 ++ [EvPrint MsgReachedEnd]).
      split; [reflexivity|]. split; [exact Hone|]. split; [exact Hin|].
      split; [reflexivity|]. split; [reflexivity|]. split; [exact Hb|]. split; [exact He|].
      cbn [log record]. rewrite Hd1, Hlog, <- !app_assoc. split; [reflexivity|].
      apply Forall_app. split; [exact HF1 | repeat constructor].
    + exists (Some fd). do 3 eexists. exists d0, d1.
      split; [reflexivity|]. split; [exact Hone|]. split; [exact Hin|].
      split; [reflexivity|]. split; [reflexivity|]. split; [exact Hb|]. split; [exact He|].
      rewrite Hd1, Hlog, <- !app_assoc. split; [reflexivity | exact HF1].
  - destruct (on_failure (set_last_results_feed None st) w0) as [[res st'] w'] eqn:Hf.
    exists None, res, st', w', d0, []. split; [reflexivity|].
    split; [exact Hone|]. split; [exact Hin|].
    exists w0. auto.
Qed.

(** X17. What an accepted query does, besides emptying the maps. After the
    prompt, [q] sends exactly one query to the index: the stripped text,
    at offset 0, with the page size and the sort settings of the session,
    which it keeps. When the search returns a page, the page (well formed,
    without error entry) and its total are stored; when it returns nothing,
    no page is loaded and the total is 0, so the page that was displayed
    before is gone. The files are untouched. *)
Theorem query_loads_first_page (env : Env) (st : AppState) (w : World) (line : string)
    (Hline : input_reply env (log w) PromptQuery = Some line)
    (Hquery : Py.strip line <> ""%string) :
  exists st' w' d,
    cmd_q env st w = (Ok tt, st', w') /\
    log w' = log w ++ EvInput PromptQuery :: d /\
    count_events is_arxiv_query d = 1%nat /\
    In (EvArxivQuery (Py.strip line) 0 (current_max_results st) (current_sort_by st)
          (current_sort_order st)) d /\
    current_max_results st' = current_max_results st /\
    current_sort_by st' = current_sort_by st /\
    current_sort_order st' = current_sort_order st /\
    gemini_model_name st' = gemini_model_name st /\
    match last_results_feed st' with
    | Some fd =>
        total_results_count st' = default 0 (opensearch_totalresults (feed fd)) /\
        bozo fd = false /\ has_error_entry fd = false
    | None => total_results_count st' = 0
    end.
Proof.
  unfold cmd_q. run. unfold input. rewrite Hline.
  destruct (Py.strip line) as [|c q] eqn:Eq; [congruence|].
  cbn [Py.is_empty]. run.
  match goal with
  | |- context [search_arxiv env _ _ _ _ _ ?s ?x] =>
      destruct (load_page_spec env (modify (set_total_results_count 0)) s x)
        as (r & res & st' & w' & d0 & d1 & Hrun & Hone & Hin & Hr)
  end.
  run_in Hrun. rewrite Hrun. clear Hrun.
  cbn [current_query current_start_index current_max_results current_sort_by
       current_sort_order set_gemini_uploaded_files set_downloaded_pdfs
       set_current_start_index set_current_query] in Hin.
  destruct r as [fd|].
  - destruct Hr as (-> & -> & Hb & He & Hlog & HF).
    eexists. exists w', (d0 ++ d1). split; [reflexivity|].
    split; [rewrite Hlog; log_norm; reflexivity|].
    split; [rewrite count_events_app, Hone, (no_query_count _ HF); reflexivity|].
    split; [apply in_or_app; left; exact Hin|].
    cbn. auto 10.
  - destruct Hr as (w0 & Hlog & _ & Hfail). run_in Hfail. inversion Hfail; subst.
    eexists. exists w', d0. split; [reflexivity|].
    split; [rewrite Hlog; log_norm; reflexivity|].
    split; [exact Hone|]. split; [exact Hin|]. cbn. auto 10.
Qed.

Lemma query_loads_first_page_witness :
  exists st' w' d,
    cmd_q env_down st_busy world0 = (Ok tt, st', w') /\
    log w' = log world0 ++ EvInput PromptQuery :: d /\
    count_events is_arxiv_query d = 1%nat /\
    In (EvArxivQuery (Py.strip "  graph neural networks ") 0 (current_max_results st_busy)
          (current_sort_by st_busy) (current_sort_order st_busy)) d /\
    current_max_results st' = current_max_results st_busy /\
    current_sort_by st' = current_sort_by st_busy /\
    current_sort_order st' = current_sort_order st_busy /\
    gemini_model_name st' = gemini_model_name st_busy /\
    match last_results_feed st' with
    | Some fd =>
        total_results_count st' = default 0 (opensearch_totalresults (feed fd)) /\
        bozo fd = false /\ has_error_entry fd = false
    | None => total_results_count st' = 0
    end.
Proof.
  apply (query_loads_first_page env_down st_busy world0 "  graph neural networks ").
  - reflexivity.
  - vm_compute. discriminate.
Defined.

Lemma cmd_n_files env : respects same_files (cmd_n env).
Proof.
  unfold cmd_n, attr_entries.
  respects_files; apply search_arxiv_files || apply display_results_files.
Qed.

(** X18. The next page, when there is one. With an active query, a
    non-empty page and results beyond it, [n] sends exactly one query to
    the index, for the same text and settings, at the offset advanced by
    the number of records of the current page. The offset of the session
    is that advanced offset afterwards, whether the fetch succeeded or
    not; after a successful fetch the command ends normally with the new
    page and its total stored, after a failed one it ends with an
    [AttributeError] and no page. The download map, the cache and the
    files are untouched either way. *)
Theorem next_page_advances (env : Env) (st : AppState) (w : World) (fd : Feed)
    (Hquery : current_query st <> ""%string)
    (Hpage : last_results_feed st = Some fd)
    (Hnonempty : entries fd <> [])
    (Hmore : current_start_index st + Z.of_nat (length (entries fd)) < total_results_count st) :
  exists res st' w' d,
    cmd_n env st w = (res, st', w') /\
    log w' = log w ++ d /\
    count_events is_arxiv_query d = 1%nat /\
    In (EvArxivQuery (current_query st)
          (current_start_index st + Z.of_nat (length (entries fd)))
          (current_max_results st) (current_sort_by st) (current_sort_order st)) d /\
    current_start_index st' = current_start_index st + Z.of_nat (length (entries fd)) /\
    downloaded_pdfs st' = downloaded_pdfs st /\
    gemini_uploaded_files st' = gemini_uploaded_files st /\
    files w' = files w /\
    match last_results_feed st' with
    | Some fd' =>
        res = Ok tt /\
        total_results_count st' = default 0 (opensearch_totalresults (feed fd')) /\
        bozo fd' = false /\ has_error_entry fd' = false
    | None => res = Raise AttributeError
    end.
Proof.
  pose proof (cmd_n_files env st w) as Hfiles. unfold same_files in Hfiles.
  destruct (cmd_n env st w) as [[res st'] w'] eqn:Hcmd. cbn in Hfiles.
  unfold cmd_n, attr_entries in Hcmd. run_in Hcmd.
  destruct (current_query st) as [|c q] eqn:Eq; [congruence|]. cbn [Py.is_empty] in Hcmd.
  unfold no_results in Hcmd. rewrite Hpage in Hcmd.
  destruct (entries fd) as [|e es] eqn:E; [congruence|]. rewrite <- E in *.
  replace (total_results_count st <=? current_start_index st + Z.of_nat (length (entries fd)))
    with false in Hcmd by (symmetry; apply Z.leb_gt; lia).
  match type of Hcmd with
  | context [search_arxiv env _ _ _ _ _ ?s0 ?x0] =>
      destruct (load_page_spec env
                  (st <- get_state;;
                   es' <- attr_entries (last_results_feed st);;
                   modify (fun s => set_current_start_index
                                      (current_start_index s - Z.of_nat (length es')) s);;
                   modify (fun s => set_current_start_index (Z.max 0 (current_start_index s)) s))
                  s0 x0)
        as (r & res0 & st0 & w0 & d0 & d1 & Hrun & Hone & Hin & Hr)
  end.
  unfold attr_entries in Hrun. run_in Hrun. rewrite Hrun in Hcmd. clear Hrun.
  inversion Hcmd; subst res0 st0 w0. clear Hcmd.
  cbn [current_query current_start_index current_max_results current_sort_by
       current_sort_order set_current_start_index] in Hin.
  rewrite Eq in Hin.
  destruct r as [fd'|].
  - destruct Hr as (-> & -> & Hb & He & Hlog & HF).
    exists (Ok tt). eexists. exists w', (d0 ++ d1). split; [reflexivity|].
    split; [exact Hlog|].
    split; [rewrite count_events_app, Hone, (no_query_count _ HF); reflexivity|].
    split; [apply in_or_app; left; exact Hin|].
    cbn. auto 10.
  - destruct Hr as (w0 & Hlog & _ & Hfail). unfold attr_entries in Hfail. run_in Hfail.
    cbn [last_results_feed set_last_results_feed] in Hfail. inversion Hfail; subst.
    do 4 eexists. split; [reflexivity|].
    split; [exact Hlog|]. split; [exact Hone|]. split; [exact Hin|]. cbn. auto 10.
Qed.

Lemma next_page_advances_witness :
  exists res st' w' d,
    cmd_n env_ok (st_page 25) world0 = (res, st', w') /\
    log w' = log world0 ++ d /\
    count_events is_arxiv_query d = 1%nat /\
    In (EvArxivQuery (current_query (st_page 25))
          (current_start_index (st_page 25) + Z.of_nat (length (entries (page_of_two 25))))
          (current_max_results (st_page 25)) (current_sort_by (st_page 25))
          (current_sort_order (st_page 25))) d /\
    current_start_index st'
    = current_start_index (st_page 25) + Z.of_nat (length (entries (page_of_two 25))) /\
    downloaded_pdfs st' = downloaded_pdfs (st_page 25) /\
    gemini_uploaded_files st' = gemini_uploaded_files (st_page 25) /\
    files w' = files world0 /\
    match last_results_feed st' with
    | Some fd' =>
        res = Ok tt /\
        total_results_count st' = default 0 (opensearch_totalresults (feed fd')) /\
        bozo fd' = false /\ has_error_entry fd' = false
    | None => res = Raise AttributeError
    end.
Proof.
  apply (next_page_advances env_ok (st_page 25) world0 (page_of_two 25)).
  - discriminate.
  - reflexivity.
  - discriminate.
  - vm_compute. reflexivity.
Defined.

(** ** The numbers on the screen *)

Lemma print_results_log es :
  forall i st w,
    print_results i es st w
    = (Ok tt, st, {| files := files w; log := log w ++ result_events i es |}).
Proof.
  induction es as [|e es IH]; intros i st w; cbn [print_results result_events].
  - run. rewrite app_nil_r. destruct w; reflexivity.
  - run. rewrite IH. cbn [files log record]. rewrite <- app_assoc. reflexivity.
Qed.

Lemma in_result_events es :
  forall i j e,
    In (EvPrint (MsgResult j e)) (result_events i es) <->
    exists k, es !! k = Some e /\ j = i + Z.of_nat k.
Proof.
  induction es as [|e0 es IH]; intros i j e; cbn [result_events].
  - split; [intros [] | intros (k & Hk & _); destruct k; discriminate].
  - split.
    + intros [H|H].
      * inversion H; subst. exists 0%nat. split; [reflexivity | lia].
      * apply IH in H. destruct H as (k & Hk & ->). exists (S k). split; [exact Hk | lia].
    + intros (k & Hk & ->). destruct k as [|k].
      * left. cbn in Hk. inversion Hk; subst. do 2 f_equal. lia.
      * right. apply IH. exists k. split; [exact Hk | lia].
Qed.

(** X19. The numbers on the screen are the numbers the commands accept.
    [display_results] returns the number of records of the page and leaves
    the session alone; it prints the records in order, the record at
    position [k] under the number [start + k + 1], where [start] is the
    offset the feed reports (the caller's offset when the feed reports
    none). When the feed reports its offset, or the caller's offset is 0,
    every number printed next to a record resolves, by
    [_get_entry_from_results] on the same feed, to that record. *)
Theorem displayed_numbers_resolve (fd : Feed) (start_index : Z) (st : AppState) (w : World) :
  exists w' d,
    display_results (Some fd) start_index st w
    = (Ok (Z.of_nat (length (entries fd))), st, w') /\
    log w' = log w ++ d /\
    (forall k e,
       entries fd !! k = Some e ->
       In (EvPrint (MsgResult (default start_index (opensearch_startindex (feed fd))
                               + Z.of_nat k + 1) e)) d) /\
    (opensearch_startindex (feed fd) <> None \/ start_index = 0 ->
     forall i e,
       In (EvPrint (MsgResult i e)) d -> _get_entry_from_results (Some fd) i = Some e).
Proof.
  unfold display_results. destruct (entries fd) as [|e0 es] eqn:E.
  { destruct (_ && _); run; do 2 eexists; (split; [reflexivity|]); log_norm;
      (split; [reflexivity|]);
      (split; [intros k e Hk; destruct k; discriminate|]);
      intros _ i e [H|[]]; discriminate. }
  rewrite <- E. set (cs := default start_index (opensearch_startindex (feed fd))).
  run. rewrite print_results_log. cbn [files log record].
  do 2 eexists. split; [reflexivity|]. cbn [log]. rewrite <- app_assoc.
  split; [reflexivity|]. split.
  - intros k e Hk. right. apply in_result_events. exists k. split; [exact Hk | lia].
  - intros Hstart i e [H|H]; [discriminate|].
    apply in_result_events in H. destruct H as (k & Hk & ->).
    assert (Hcs : cs = default 0 (opensearch_startindex (feed fd))).
    { subst cs. destruct (opensearch_startindex (feed fd)); [reflexivity|].
      destruct Hstart as [H|H]; [congruence | exact H]. }
    pose proof (lookup_lt_Some _ _ _ Hk) as Hlt.
    unfold _get_entry_from_results. rewrite E, <- E, <- Hcs.
    replace (cs + 1 + Z.of_nat k - 1 - cs) with (Z.of_nat k) by lia.
    replace ((0 <=? Z.of_nat k) && (Z.of_nat k <? Z.of_nat (length (entries fd)))) with true
      by (symmetry; apply andb_true_iff; split; [apply Z.leb_le | apply Z.ltb_lt]; lia).
    rewrite Nat2Z.id. exact Hk.
Qed.

(** Without that condition the numbers can miss: the second page of a
    feed that does not report its offset is shown as 3 and 4, and 3 does
    not resolve. *)
Example displayed_numbers_can_miss :
  let '(res, st', w') := display_results (Some page_without_offset) 2 (st_page 25) world0 in
  In (EvPrint (MsgResult 3 (sample_entry "1707.08567v1"))) (log w') /\
  _get_entry_from_results (Some page_without_offset) 3 = None /\
  _get_entry_from_results (Some page_without_offset) 1 = Some (sample_entry "1707.08567v1").
Proof. vm_compute. repeat split; auto. Qed.

(** ** Citations: the format name, and the styles besides APA *)

(** X20. The name of a citation style is read without regard to case: for
    a supported style, written in any mix of cases, [format_citation]
    returns what it returns for the lower-case name. For any other name it
    returns the message that lists the supported styles, with the name as
    it was given; it never raises. *)
Theorem citation_format_ignores_case (strptime : string -> option (Z * Z * string))
    (today : string) (e : Entry) (format_type : string) :
  (in_list (Py.lower format_type) CITATION_FORMATS = true ->
   format_citation strptime today e format_type
   = format_citation strptime today e (Py.lower format_type)) /\
  (in_list (Py.lower format_type) CITATION_FORMATS = false ->
   format_citation strptime today e format_type
   = ("Error: Unsupported citation format '" +:+ format_type
      +:+ "'. Supported formats: bibtex, apa, mla, chicago, ieee")%string).
Proof.
  split; intros H; unfold format_citation; rewrite ?lower_idem, H; reflexivity.
Qed.

Example citation_format_runs :
  format_citation strptime_sample "03 Nov. 2026" (sample_entry "2301.00001v2") "ApA"
  = format_citation strptime_sample "03 Nov. 2026" (sample_entry "2301.00001v2") "apa" /\
  format_citation strptime_sample "03 Nov. 2026" (sample_entry "2301.00001v2") "Harvard"
  = "Error: Unsupported citation format 'Harvard'. Supported formats: bibtex, apa, mla, chicago, ieee"%string.
Proof. split; vm_compute; reflexivity. Qed.

Lemma split_ws_go_nil s : forall cur, Py.split_ws_go cur s = [] <-> cur = ""%string /\ all_space s = true.
Proof.
  induction s as [|c s IH]; intros cur; cbn [Py.split_ws_go all_space].
  - destruct cur; split; [auto | auto | intros H; discriminate | intros [H _]; discriminate].
  - destruct (Py.isspace c) eqn:Ec; cbn [andb].
    + destruct cur.
      * rewrite IH. tauto.
      * split; [discriminate | intros [H _]; discriminate].
    + rewrite IH. split; [intros [H _]; discriminate | intros [_ H]; discriminate].
Qed.

Lemma last_of_somes (l : list string) :
  forall x, List.last (Some <$> (x :: l)) None <> None.
Proof.
  induction l as [|y l IH]; intros x; [discriminate|]. exact (IH y).
Qed.

Lemma last_name_none a : last_name a = None <-> all_space a = true.
Proof.
  assert (Hnil : Py.split_ws_go "" a = [] <-> all_space a = true)
    by (rewrite split_ws_go_nil; tauto).
  unfold last_name, Py.split_ws.
  destruct (Py.split_ws_go "" a) as [|x l].
  - split; [intros _; apply Hnil; reflexivity | reflexivity].
  - split.
    + intros H. exfalso. exact (last_of_somes l x H).
    + intros H. apply Hnil in H. discriminate.
Qed.

Lemma last_names_none authors :
  last_names authors = None <-> exists a, In a authors /\ all_space a = true.
Proof.
  induction authors as [|a rest IH]; cbn [last_names].
  - split; [discriminate | intros (a & [] & _)].
  - destruct (last_name a) as [n|] eqn:En.
    + destruct (last_names rest) as [ns|].
      * split; [discriminate|]. intros (b & [<-|Hb] & Hsp).
        -- apply last_name_none in Hsp. congruence.
        -- destruct IH as [_ IH]. discriminate IH. eauto.
      * split; [|reflexivity]. intros _. destruct IH as [IH _].
        destruct (IH eq_refl) as (b & Hb & Hsp). exists b. split; [right; exact Hb | exact Hsp].
    + split; [|reflexivity]. intros _. exists a. split; [left; reflexivity|].
      apply last_name_none. exact En.
Qed.

(** X21. The IEEE style fails on an author without a name. [format_ieee]
    raises (an [IndexError]) exactly when the entry has three or more
    authors and one of the first three names is blank; with one or two
    authors it cannot fail. [format_citation] then returns the text of the
    error in place of a citation. *)
Theorem ieee_fails_on_blank_author (title : string) (authors : list string) (year : Year)
    (month : Z) (url doi journal_ref : string) :
  (format_ieee title authors year month url doi journal_ref = None <->
   (3 <= length authors)%nat /\ exists a, In a (take 3 authors) /\ all_space a = true) /\
  (forall strptime today e,
     author_display <$> entry_authors e = authors ->
     (3 <= length authors)%nat ->
     (exists a, In a (take 3 authors) /\ all_space a = true) ->
     format_citation strptime today e "ieee" = citation_index_error).
Proof.
  assert (Hiff : forall t y m u d j,
            format_ieee t authors y m u d j = None <->
            (3 <= length authors)%nat /\ exists a, In a (take 3 authors) /\ all_space a = true).
  { intros t y m u d j. unfold format_ieee.
    destruct authors as [|a0 [|a1 [|a2 rest]]].
    - cbn. split; [discriminate | intros [H _]; lia].
    - cbn. split; [discriminate | intros [H _]; lia].
    - cbn. split; [discriminate | intros [H _]; lia].
    - rewrite <- last_names_none.
      destruct (last_names (take 3 (a0 :: a1 :: a2 :: rest))) as [names|]; cbn.
      + split; [discriminate | intros [_ H]; discriminate].
      + split; [intros _; split; [lia | reflexivity] | reflexivity]. }
  split; [apply Hiff|].
  intros strptime today e Hauthors Hlen Hblank.
  unfold format_citation.
  change (negb (in_list (Py.lower "ieee") CITATION_FORMATS)) with false. cbv iota.
  change (Py.lower "ieee") with "ieee"%string.
  change (String.eqb "ieee" "bibtex") with false.
  change (String.eqb "ieee" "apa") with false.
  change (String.eqb "ieee" "mla") with false.
  change (String.eqb "ieee" "chicago") with false.
  rewrite Hauthors.
  destruct (strptime (default "" (entry_published e))) as [[[y m] name]|]; cbv iota beta;
    match goal with
    | |- context [format_ieee ?t authors ?y ?m ?u ?d ?j] =>
        destruct (Hiff t y m u d j) as [_ H]; rewrite (H (conj Hlen Hblank))
    end; reflexivity.
Qed.

Example ieee_runs :
  format_citation strptime_sample "03 Nov. 2026" entry_blank_author "ieee"
  = citation_index_error /\
  format_citation strptime_sample "03 Nov. 2026" (sample_entry "2301.00001v2") "ieee"
  = ("Alan Turing, " +:+ dq +:+ "A Paper" +:+ dq
     +:+ ", arXiv preprint arXiv:2301.00001v2, 2023.")%string.
Proof. split; vm_compute; reflexivity. Qed.

Lemma prefix_app p : forall u v, String.prefix p u = true -> String.prefix p (u +:+ v) = true.
Proof.
  induction p as [|c p IH]; intros u v; [intros _; apply prefix_nil|].
  destruct u as [|d u]; cbn [String.prefix]; [discriminate|].
  rewrite append_cons. cbn [String.prefix].
  destruct (ascii_dec c d); [apply IH | discriminate].
Qed.

Lemma endswith_app_r s a b : Py.endswith s b = true -> Py.endswith s (a +:+ b) = true.
Proof. unfold Py.endswith. rewrite rev_append. apply prefix_app. Qed.

Lemma startswith_cancel a p s :
  Py.startswith p s = true -> Py.startswith (a +:+ p) (a +:+ s) = true.
Proof.
  unfold Py.startswith. intros H. induction a as [|c a IH]; [exact H|].
  rewrite !append_cons. cbn [String.prefix].
  destruct (ascii_dec c c); [exact IH | congruence].
Qed.

Lemma filter_alnum_alnum s : all_alnum (filter_alnum s) = true.
Proof.
  induction s as [|c s IH]; [reflexivity|]. cbn [filter_alnum].
  destruct (Py.isalnum c) eqn:E; [cbn [all_alnum]; now rewrite E, IH | exact IH].
Qed.

(** X22. The BibTeX entry. Its citation key is what is left of the arXiv
    identifier when everything but letters and digits is removed, so it
    holds no character that BibTeX reserves; the entry opens with
    [@article{key,] on a line of its own and closes with [}] on a line of
    its own, after a field that ends with a comma, whichever optional
    fields (DOI, journal, URL, abstract) are present. *)
Theorem bibtex_entry_shape (arxiv_id title : string) (authors : list string) (year : Year)
    (month : Z) (url doi journal_ref category abstract : string) :
  all_alnum (filter_alnum arxiv_id) = true /\
  Py.startswith ("@article{" +:+ filter_alnum arxiv_id +:+ "," +:+ nl)
    (format_bibtex arxiv_id title authors year month url doi journal_ref category abstract)
  = true /\
  Py.endswith ("}," +:+ nl +:+ "}")
    (format_bibtex arxiv_id title authors year month url doi journal_ref category abstract)
  = true.
Proof.
  split; [apply filter_alnum_alnum|].
  unfold format_bibtex. cbv zeta beta.
  split.
  - cbn [List.concat List.app Py.join]. rewrite !append_assoc.
    repeat apply startswith_cancel. apply startswith_append.
  - destruct (Py.is_empty doi), (Py.is_empty journal_ref), (Py.is_empty url),
      (Py.is_empty abstract);
      cbn [List.concat List.app Py.join]; rewrite !append_assoc;
      repeat first [ solve [vm_compute; reflexivity] | apply endswith_app_r ].
Qed.

Example bibtex_runs :
  format_citation strptime_sample "03 Nov. 2026" (sample_entry "2301.00001v2") "bibtex"
  = Py.join nl
      [ "@article{230100001v2,"%string;
        "  title = {A Paper},"%string;
        "  author = {Alan Turing},"%string;
        "  year = {2023},"%string;
        "  month = {1},"%string;
        "  eprint = {2301.00001v2},"%string;
        "  archivePrefix = {arXiv},"%string;
        "  primaryClass = {cs.LG},"%string;
        "  url = {http://arxiv.org/abs/2301.00001v2},"%string;
        "  abstract = {An abstract.},"%string;
        "}"%string ].
Proof. vm_compute. reflexivity. Qed.

(** ** The commands [cite] and [show] *)

Example show_runs :
  cmd_show st_three world_three "Downloads"
  = [ ShowHeader;
      ShowItem 3 "arxiv_downloads/a.pdf" true false;
      ShowItem 7 "arxiv_downloads/b.pdf" false false;
      ShowItem 12 "arxiv_downloads/c.pdf" true true ] /\
  cmd_show (st_page 25) world0 "downloads" = [ShowHeader; ShowNone; ShowRule] /\
  cmd_show (st_page 25) world0 "model" = [ShowModel "gemini-2.5-pro-exp-03-25"] /\
  cmd_show (st_page 25) world0 "downloads now" = [ShowUnknown].
Proof. repeat split; vm_compute; reflexivity. Qed.

Example cite_runs :
  cmd_cite strptime_sample "03 Nov. 2026" (st_page 25) "2 APA"
  = [ CiteHeader 2 "apa";
      CiteText "Alan Turing. (2023). A Paper. arXiv preprint. Retrieved from http://arxiv.org/abs/2301.00001v2";
      CiteRule ] /\
  cmd_cite strptime_sample "03 Nov. 2026" (st_page 25) "2 apa style" = [CiteBadFormat "apa style"] /\
  cmd_cite strptime_sample "03 Nov. 2026" (st_page 25) "7 harvard" = [CiteBadFormat "harvard"] /\
  cmd_cite strptime_sample "03 Nov. 2026" (st_page 25) "7" = [CiteBadResult 7] /\
  cmd_cite strptime_sample "03 Nov. 2026" (st_page 25) "two" = [CiteBadNumber "two"] /\
  cmd_cite strptime_sample "03 Nov. 2026" (st_page 25) "" = [CiteMissingArgs] /\
  cmd_cite strptime_sample "03 Nov. 2026" AppState_init "1" = [CiteNoResults].
Proof. repeat split; vm_compute; reflexivity. Qed.

#[export] Instance number_le_transitive : Transitive number_le.
Proof. intros a b c. unfold number_le. lia. Qed.

#[export] Instance number_le_total : Total number_le.
Proof. intros a b. unfold number_le. lia. Qed.

Lemma strictly_sorted (items : list (Z * string)) :
  StronglySorted number_le items -> NoDup items.*1 -> StronglySorted number_lt items.
Proof.
  induction 1 as [|x l Hl IH Hx]; intros Hnd; [constructor|].
  cbn in Hnd. apply NoDup_cons in Hnd. destruct Hnd as [Hnotin Hnd].
  constructor; [exact (IH Hnd)|].
  rewrite Forall_forall in Hx |- *. intros y Hy.
  specialize (Hx y Hy). unfold number_le, number_lt in *.
  assert (x.1 <> y.1).
  { intros Heq. apply Hnotin. rewrite Heq. apply list_elem_of_fmap. exists y. auto. }
  lia.
Qed.

(** X23. [show downloads] lists every download of the session once, in
    the order of the display numbers. With a download map that is not
    empty the command prints the header and then one line per entry of the
    map: the numbers increase strictly from line to line, a pair of number
    and path is listed exactly when the map holds it, and each line says
    whether a file exists at the path and whether the cache holds a handle
    for it. *)
Theorem show_lists_downloads_in_order (st : AppState) (w : World) (args_str : string)
    (Hcmd : Py.lower args_str = "downloads"%string)
    (Hsome : downloaded_pdfs st <> ∅) :
  exists items : list (Z * string),
    cmd_show st w args_str = ShowHeader :: (show_item st w <$> items) /\
    StronglySorted number_lt items /\
    (forall idx path, (idx, path) ∈ items <-> downloaded_pdfs st !! idx = Some path).
Proof.
  exists (sorted_items (downloaded_pdfs st)).
  assert (Hperm : sorted_items (downloaded_pdfs st) ≡ₚ map_to_list (downloaded_pdfs st))
    by apply merge_sort_Permutation.
  split; [|split].
  - unfold cmd_show. cbv zeta. rewrite Hcmd. cbn [String.eqb Ascii.eqb Bool.eqb].
    rewrite bool_decide_eq_false_2 by exact Hsome.
    f_equal. apply list_fmap_ext. intros i [idx path] _. reflexivity.
  - apply strictly_sorted.
    + apply StronglySorted_merge_sort; exact _.
    + rewrite Hperm. apply NoDup_fst_map_to_list.
  - intros idx path. rewrite Hperm. apply elem_of_map_to_list.
Qed.

Lemma show_lists_downloads_in_order_witness :
  exists items : list (Z * string),
    cmd_show st_three world_three "Downloads" = ShowHeader :: (show_item st_three world_three <$> items) /\
    StronglySorted number_lt items /\
    (forall idx path, (idx, path) ∈ items <-> downloaded_pdfs st_three !! idx = Some path).
Proof.
  apply (show_lists_downloads_in_order st_three world_three "Downloads").
  - reflexivity.
  - intros H. apply (f_equal (fun m => m !! 7)) in H. vm_compute in H. discriminate.
Defined.

Lemma in_list_In x l : in_list x l = true -> In x l.
Proof.
  unfold in_list. intros H. apply existsb_exists in H. destruct H as (y & Hy & Heq).
  apply String.eqb_eq in Heq. now subst.
Qed.

Lemma split_maxsplit1_nil s : Py.split_maxsplit1 s = [] -> all_space s = true.
Proof.
  intros Hs.
  destruct (split_maxsplit1_cases s) as [[H _]|[(t & H & _)|(t & r & p & H & _)]];
    [exact H | rewrite Hs in H; discriminate | rewrite Hs in H; discriminate].
Qed.

(** X24. What [cite] prints. It prints either one message or one
    citation, never both and never two. The citation takes three lines,
    the header, the text and a rule; it is printed only for a number that
    [_get_entry_from_results] resolves on the displayed page to a record
    with at least one key, and in a style of [CITATION_FORMATS], and its
    text is what [format_citation] returns for that record and style. Each
    message has its one reason: no displayed page; a blank argument text;
    a first word that [int] rejects; a style that is not supported; a
    number that is outside the page or that resolves to a record without
    any key, which the test [if not entry] takes for no record. *)
Theorem cite_prints_one_supported_citation (strptime : string -> option (Z * Z * string))
    (today : string) (st : AppState) (args_str : string) :
  match cmd_cite strptime today st args_str with
  | [CiteHeader result_num citation_format; CiteText citation; CiteRule] =>
      no_results st = false /\
      In citation_format CITATION_FORMATS /\
      exists entry,
        _get_entry_from_results (last_results_feed st) result_num = Some entry /\
        entry_truthy entry = true /\
        citation = format_citation strptime today entry citation_format
  | [CiteNoResults] => no_results st = true
  | [CiteMissingArgs] => all_space args_str = true
  | [CiteBadNumber text] => Py.int text = None
  | [CiteBadFormat citation_format] => in_list citation_format CITATION_FORMATS = false
  | [CiteBadResult result_num] =>
      _get_entry_from_results (last_results_feed st) result_num = None \/
      exists entry,
        _get_entry_from_results (last_results_feed st) result_num = Some entry /\
        entry_truthy entry = false
  | _ => False
  end.
Proof.
  unfold cmd_cite.
  destruct (no_results st) eqn:Hres; [reflexivity|].
  destruct (Py.split_maxsplit1 args_str) as [|p0 rest] eqn:Hs;
    [exact (split_maxsplit1_nil _ Hs)|].
  destruct (Py.int p0) as [result_num|] eqn:Hint; [|exact Hint].
  cbv zeta.
  destruct (in_list _ CITATION_FORMATS) eqn:Hfmt; cbn [negb]; [|exact Hfmt].
  destruct (truthy_entry (_get_entry_from_results (last_results_feed st) result_num))
    as [entry|] eqn:He.
  - apply truthy_entry_some in He. destruct He as [He Ht].
    split; [reflexivity|]. split; [exact (in_list_In _ _ Hfmt)|].
    exists entry. split; [exact He|]. split; [exact Ht | reflexivity].
  - exact (truthy_entry_none _ He).
Qed.

(** The record without any key: [cite 1] reports an invalid number for a
    number that is on the page. *)
Example cite_empty_record :
  let empty_entry :=
    {| entry_id := None; entry_title := None; entry_link := None; entry_authors := [];
       entry_links := []; entry_published := None; entry_updated := None;
       entry_summary := None; entry_arxiv_doi := None; entry_arxiv_journal_ref := None;
       entry_arxiv_primary_category := None; entry_tags := [] |} in
  let page :=
    {| bozo := false;
       feed := {| opensearch_startindex := Some 0; opensearch_totalresults := Some 1 |};
       entries := [empty_entry] |} in
  let st := set_last_results_feed (Some page) AppState_init in
  _get_entry_from_results (last_results_feed st) 1 = Some empty_entry /\
  cmd_cite strptime_sample "01 Jan. 2024" st "1 apa" = [CiteBadResult 1].
Proof. split; reflexivity. Qed.

Lemma lstrip_word tok rest :
  no_space tok = true -> tok <> ""%string -> Py.lstrip (tok +:+ rest) = tok +:+ rest.
Proof.
  destruct tok as [|c t]; [congruence|]. cbn [no_space]. intros H _.
  apply andb_true_iff in H. destruct H as [Hc _]. apply negb_true_iff in Hc.
  rewrite append_cons. apply lstrip_fixed. exact Hc.
Qed.

Lemma break_ws_word tok rest :
  no_space tok = true ->
  match rest with EmptyString => True | String c _ => Py.isspace c = true end ->
  Py.break_ws (tok +:+ rest) = (tok, rest).
Proof.
  intros Htok Hrest. induction tok as [|c t IH].
  - rewrite append_nil_l. destruct rest as [|c r]; [reflexivity|].
    cbn [Py.break_ws]. now rewrite Hrest.
  - cbn [no_space] in Htok. apply andb_true_iff in Htok. destruct Htok as [Hc Ht].
    apply negb_true_iff in Hc. rewrite append_cons. cbn [Py.break_ws].
    rewrite Hc, (IH Ht). reflexivity.
Qed.

(** A word alone, and a word followed by a blank and a second word. *)
Lemma split_maxsplit1_word tok :
  no_space tok = true -> tok <> ""%string -> Py.split_maxsplit1 tok = [tok].
Proof.
  intros Hns Hne. unfold Py.split_maxsplit1.
  pose proof (lstrip_word tok "" Hns Hne) as Hl. rewrite append_empty_r in Hl. rewrite Hl.
  pose proof (break_ws_word tok "" Hns I) as Hb. rewrite append_empty_r in Hb.
  destruct tok as [|c t]; [congruence|]. rewrite Hb. reflexivity.
Qed.

Lemma split_maxsplit1_two tok c r :
  no_space tok = true -> tok <> ""%string -> Py.isspace c = false ->
  Py.split_maxsplit1 (tok +:+ String " " (String c r)) = [tok; String c r].
Proof.
  intros Hns Hne Hc. unfold Py.split_maxsplit1.
  rewrite (lstrip_word tok _ Hns Hne).
  pose proof (break_ws_word tok (String " " (String c r)) Hns eq_refl) as Hb.
  destruct tok as [|a t]; [congruence|].
  rewrite append_cons in Hb |- *. rewrite Hb.
  cbn [Py.lstrip]. change (Py.isspace " ") with true. cbv iota.
  cbn [Py.lstrip]. rewrite Hc. reflexivity.
Qed.

(** X25. The style of [cite] defaults to BibTeX: for every session and
    every first word, [cite N] prints what [cite N bibtex] prints. *)
Theorem cite_defaults_to_bibtex (strptime : string -> option (Z * Z * string))
    (today : string) (st : AppState) (number : string)
    (Hword : no_space number = true) (Hne : number <> ""%string) :
  cmd_cite strptime today st number
  = cmd_cite strptime today st (number +:+ " bibtex").
Proof.
  unfold cmd_cite.
  rewrite (split_maxsplit1_word _ Hword Hne).
  change (number +:+ " bibtex")%string with (number +:+ String " " (String "b" "ibtex"))%string.
  rewrite (split_maxsplit1_two number "b" "ibtex" Hword Hne eq_refl).
  reflexivity.
Qed.

Lemma cite_defaults_to_bibtex_witness :
  cmd_cite strptime_sample "03 Nov. 2026" (st_page 25) "2"
  = cmd_cite strptime_sample "03 Nov. 2026" (st_page 25) ("2" +:+ " bibtex").
Proof.
  apply (cite_defaults_to_bibtex strptime_sample "03 Nov. 2026" (st_page 25) "2").
  - reflexivity.
  - discriminate.
Defined.

(** ** Related work: the search strategies *)

Lemma take_subseteq_elem {A} (n : nat) (l : list A) x : In x (take n l) -> In x l.
Proof.
  intros H. rewrite <- (firstn_skipn n l). apply in_or_app. left. exact H.
Qed.

Lemma pick_keywords_in keywords :
  forall d0 m0 d m,
    pick_keywords keywords d0 m0 = (d, m) ->
    (forall x, d = Some x -> In x keywords \/ d0 = Some x) /\
    (forall x, m = Some x -> In x keywords \/ m0 = Some x).
Proof.
  induction keywords as [|kw rest IH]; intros d0 m0 d m; cbn [pick_keywords].
  - intros H. inversion H; subst. split; intros x Hx; right; exact Hx.
  - cbv zeta. destruct (any_in DOMAIN_TERMS (Py.lower kw)).
    + intros H. destruct (IH _ _ _ _ H) as [Hd Hm]. split; intros x Hx.
      * destruct (Hd x Hx) as [Hin|Heq]; [left; right; exact Hin|].
        inversion Heq; subst. left. left. reflexivity.
      * destruct (Hm x Hx) as [Hin|Heq]; [left; right; exact Hin | right; exact Heq].
    + destruct (any_in METHOD_TERMS (Py.lower kw)).
      * intros H. destruct (IH _ _ _ _ H) as [Hd Hm]. split; intros x Hx.
        -- destruct (Hd x Hx) as [Hin|Heq]; [left; right; exact Hin | right; exact Heq].
        -- destruct (Hm x Hx) as [Hin|Heq]; [left; right; exact Hin|].
           inversion Heq; subst. left. left. reflexivity.
      * intros H. destruct (IH _ _ _ _ H) as [Hd Hm]. split; intros x Hx.
        -- destruct (Hd x Hx) as [Hin|Heq]; [left; right; exact Hin | right; exact Heq].
        -- destruct (Hm x Hx) as [Hin|Heq]; [left; right; exact Hin | right; exact Heq].
Qed.

(** X26. The search strategies for related work. There is a strategy
    exactly when there is a keyword, so the handler, which starts with the
    first strategy, fails (with an [IndexError]) exactly when the keyword
    list is empty. There are at most three strategies; each is a
    non-empty list of at most three terms, and each term is one of the
    keywords or the word [model]. *)
Theorem search_strategies_shape (keywords : list string) :
  (search_strategies keywords = [] <-> keywords = []) /\
  (first_strategy keywords = None <-> keywords = []) /\
  (length (search_strategies keywords) <= 3)%nat /\
  Forall (fun strategy =>
            strategy <> [] /\ (length strategy <= 3)%nat /\
            Forall (fun term => In term keywords \/ term = "model"%string) strategy)
    (search_strategies keywords).
Proof.
  unfold first_strategy, search_strategies.
  destruct (pick_keywords keywords None None) as [d m] eqn:Hpick.
  destruct (pick_keywords_in _ _ _ _ _ Hpick) as [Hd Hm].
  cbv zeta.
  set (strategy1 := match d, m with
                    | Some d0, Some m0 =>
                        if negb (Py.is_empty d0) && negb (Py.is_empty m0)
                        then [[d0; m0]] else []
                    | _, _ => []
                    end).
  assert (H1 : (length strategy1 <= 1)%nat /\
               Forall (fun strategy =>
                         strategy <> [] /\ (length strategy <= 3)%nat /\
                         Forall (fun term => In term keywords \/ term = "model"%string) strategy)
                 strategy1).
  { subst strategy1. destruct d as [d0|], m as [m0|]; try (split; [cbn; lia | constructor]).
    destruct (_ && _); [|split; [cbn; lia | constructor]].
    split; [cbn; lia|]. constructor; [|constructor].
    split; [discriminate|]. split; [cbn; lia|].
    constructor; [|constructor; [|constructor]].
    - destruct (Hd d0 eq_refl) as [H|H]; [left; exact H | discriminate].
    - destruct (Hm m0 eq_refl) as [H|H]; [left; exact H | discriminate]. }
  destruct H1 as [Hlen1 HF1].
  destruct keywords as [|k0 rest].
  - assert (strategy1 = []) as ->.
    { subst strategy1. cbn in Hpick. inversion Hpick; subst. reflexivity. }
    cbn. repeat split; auto.
  - cbn [List.concat]. rewrite app_nil_r.
    assert (Hne : forall (l1 l2 : list (list string)) x, l1 ++ l2 ++ [x] <> []).
    { intros l1 l2 x H. apply app_eq_nil in H. destruct H as [_ H].
      apply app_eq_nil in H. destruct H as [_ H]. discriminate. }
    split; [split; [|discriminate]; intros H; exfalso; exact (Hne _ _ _ H)|].
    split.
    { split; [|discriminate]. intros H.
      match type of H with
      | head ?l = None => destruct l eqn:E; [exfalso; exact (Hne _ _ _ E) | discriminate]
      end. }
    split.
    { rewrite !length_app. destruct (2 <=? _)%nat; cbn; lia. }
    apply Forall_app. split; [exact HF1|]. apply Forall_app. split.
    + destruct (2 <=? length (k0 :: rest))%nat eqn:E2; [|constructor].
      apply Nat.leb_le in E2. constructor; [|constructor].
      split; [cbn [length] in *; destruct rest; [cbn in E2; lia | discriminate]|].
      split; [rewrite length_take; lia|].
      apply Forall_forall. intros x Hx. left. apply list_elem_of_In in Hx.
      eapply take_subseteq_elem; exact Hx.
    + constructor; [|constructor]. split; [discriminate|].
      split; [destruct (negb _); cbn; lia|].
      constructor; [left; left; reflexivity|].
      destruct (negb _); [|constructor]. constructor; [right; reflexivity | constructor].
Qed.

Example search_strategies_runs :
  search_strategies
    ["multi-phase field model"%string; "biological tissues"%string; "cell migration"%string;
     "tissue growth"%string]
  = [ ["tissue growth"%string; "multi-phase field model"%string];
      ["multi-phase field model"%string; "biological tissues"%string; "cell migration"%string];
      ["multi-phase field model"%string] ] /\
  strategy_terms ["tissue growth"%string; "multi-phase field model"%string]
  = (dq +:+ "tissue growth" +:+ dq +:+ " " +:+ dq +:+ "multi-phase field model" +:+ dq)%string /\
  search_strategies ["graphs"%string] = [["graphs"%string; "model"%string]] /\
  first_strategy [] = None.
Proof. repeat split; vm_compute; reflexivity. Qed.

(** ** The [download] command: the summary line *)

Lemma download_pdf_no_summary env entry directory :
  respects (log_grows no_summary) (download_pdf env entry directory).
Proof.
  unfold download_pdf.
  repeat first
    [ apply respects_write_file_log
    | apply respects_remove_log
    | eapply emits_one_log; [apply requests_get_pdf_emits | intros ? [? ->]; exact I]
    | progress respects_log ].
Qed.

Lemma download_one_no_summary env num : respects (log_grows no_summary) (download_one env num).
Proof. unfold download_one. respects_log; apply download_pdf_no_summary. Qed.

Lemma download_each_summary env paper_nums :
  forall successful st w,
  exists n st' w' d,
    download_each env paper_nums successful st w = (Ok n, st', w') /\
    log w' = log w ++ d /\
    Forall no_summary d /\
    successful <= n <= successful + Z.of_nat (length paper_nums).
Proof.
  induction paper_nums as [|num rest IH]; intros successful st w; cbn [download_each].
  - run. exists successful, st, w, []. split; [reflexivity|].
    split; [now rewrite app_nil_r|]. split; [constructor | cbn; lia].
  - pose proof (download_one_no_summary env num st w) as Hl.
    destruct (download_one_spec env num st w) as (r & st1 & w1 & d1 & Hrun & _).
    unfold bind at 1. rewrite Hrun in Hl |- *. destruct Hl as (d1' & Hlog1 & HF1). cbn in Hlog1.
    destruct r as [p|].
    + destruct (IH (successful + 1) st1 w1) as (n & st' & w' & d & Hrun' & Hlog' & HF' & Hn).
      rewrite Hrun'. exists n, st', w', (d1' ++ d). split; [reflexivity|].
      split; [rewrite Hlog', Hlog1, app_assoc; reflexivity|].
      split; [now apply Forall_app | cbn [length]; lia].
    + destruct (IH successful st1 w1) as (n & st' & w' & d & Hrun' & Hlog' & HF' & Hn).
      rewrite Hrun'. exists n, st', w', (d1' ++ d). split; [reflexivity|].
      split; [rewrite Hlog', Hlog1, app_assoc; reflexivity|].
      split; [now apply Forall_app | cbn [length]; lia].
Qed.

Lemma no_summary_not_in d n total :
  Forall no_summary d -> ~ In (EvPrint (MsgDownloadComplete n total)) d.
Proof.
  intros HF Hin. rewrite Forall_forall in HF. apply list_elem_of_In in Hin.
  exact (HF _ Hin).
Qed.

(** X27. The summary of a batch of downloads is sound. Whatever the
    arguments and the replies of the outside, a line "downloaded [n] out
    of [total]" that [download] prints has [0 <= n <= total]; [total] is
    the number of comma-separated numbers the command was given and is at
    least 2, and the line is the last thing the command prints. *)
Theorem download_summary_counts (env : Env) (args_str : string) (st : AppState) (w : World) :
  exists st' w' d,
    cmd_download env args_str st w = (Ok tt, st', w') /\
    log w' = log w ++ d /\
    forall n total,
      In (EvPrint (MsgDownloadComplete n total)) d ->
      0 <= n <= Z.of_nat total /\ (2 <= total)%nat /\
      (exists paper_nums,
         parse_nums (Py.split "," args_str) = Some paper_nums /\ total = length paper_nums) /\
      exists d0, d = d0 ++ [EvPrint (MsgDownloadComplete n total)] /\
                 ~ In (EvPrint (MsgDownloadComplete n total)) d0.
Proof.
  set (sound := fun (d : list Event) =>
         forall n total,
           In (EvPrint (MsgDownloadComplete n total)) d ->
           0 <= n <= Z.of_nat total /\ (2 <= total)%nat /\
           (exists paper_nums,
              parse_nums (Py.split "," args_str) = Some paper_nums /\
              total = length paper_nums) /\
           exists d0, d = d0 ++ [EvPrint (MsgDownloadComplete n total)] /\
                      ~ In (EvPrint (MsgDownloadComplete n total)) d0).
  assert (Hquiet : forall d, Forall no_summary d -> sound d).
  { intros d HF n total Hin. destruct (no_summary_not_in _ _ _ HF Hin). }
  assert (Hlast : forall paper_nums d k,
            parse_nums (Py.split "," args_str) = Some paper_nums ->
            Forall no_summary d ->
            0 <= k <= 0 + Z.of_nat (length paper_nums) ->
            (1 <? length paper_nums)%nat = true ->
            sound (d ++ [EvPrint (MsgDownloadComplete k (length paper_nums))])).
  { intros paper_nums d k Hparse HF Hk Hmany n total Hin.
    apply Nat.ltb_lt in Hmany. apply in_app_or in Hin. destruct Hin as [Hin|Hin].
    { destruct (no_summary_not_in _ _ _ HF Hin). }
    destruct Hin as [Hin|[]]. inversion Hin; subst n total.
    split; [lia|]. split; [lia|]. split; [eauto|].
    exists d. split; [reflexivity|]. now apply no_summary_not_in. }
  fold (sound : list Event -> Prop). unfold cmd_download. run.
  destruct (no_results st).
  { do 3 eexists. split; [reflexivity|]. log_norm. split; [reflexivity|].
    apply Hquiet. repeat constructor. }
  destruct (Py.is_empty (Py.strip args_str)); run.
  { do 3 eexists. split; [reflexivity|]. log_norm. split; [reflexivity|].
    apply Hquiet. repeat constructor. }
  destruct (parse_nums (Py.split "," args_str)) as [paper_nums|] eqn:Hparse; run.
  2: { do 3 eexists. split; [reflexivity|]. log_norm. split; [reflexivity|].
       apply Hquiet. repeat constructor. }
  destruct (20 <? length paper_nums)%nat; run.
  - unfold input. destruct (input_reply env (log w) _) as [answer|]; run.
    2: { do 3 eexists. split; [reflexivity|]. log_norm. split; [reflexivity|].
         apply Hquiet. repeat constructor. }
    destruct (String.eqb (Py.lower (Py.strip answer)) "y"); run.
    2: { do 3 eexists. split; [reflexivity|]. log_norm. split; [reflexivity|].
         apply Hquiet. repeat constructor. }
    destruct (download_each_summary env paper_nums 0 st
                (record (EvInput (PromptConfirmDownload (length paper_nums))) w))
      as (k & st' & w' & d & Hrun & Hlog & HF & Hk).
    rewrite Hrun. cbn [log record] in Hlog. rewrite <- app_assoc in Hlog.
    destruct (1 <? length paper_nums)%nat eqn:Hmany; run.
    + do 3 eexists. split; [reflexivity|]. cbn [log record]. rewrite Hlog, <- app_assoc.
      split; [reflexivity|].
      apply (Hlast paper_nums ([EvInput (PromptConfirmDownload (length paper_nums))] ++ d) k);
        auto. apply Forall_app. split; [repeat constructor | exact HF].
    + do 3 eexists. split; [reflexivity|]. split; [exact Hlog|].
      apply Hquiet. apply Forall_app. split; [repeat constructor | exact HF].
  - destruct (download_each_summary env paper_nums 0 st w)
      as (k & st' & w' & d & Hrun & Hlog & HF & Hk).
    rewrite Hrun. destruct (1 <? length paper_nums)%nat eqn:Hmany; run.
    + do 3 eexists. split; [reflexivity|]. cbn [log record]. rewrite Hlog, <- app_assoc.
      split; [reflexivity|]. apply (Hlast paper_nums d k); auto.
    + do 3 eexists. split; [reflexivity|]. split; [exact Hlog|]. apply Hquiet, HF.
Qed.

(** ** Summaries *)

(** X28. [summarize_or_explain_pdf] sends at most one request to the
    model and never raises; it leaves the session and the files alone. It
    sends none for a file object without a URI or a MIME type, and an
    answer can only come from a request. The request names the model it
    was given and carries the prompt and the one file object. For a
    summary the prompt is one of four fixed texts, whatever the style is:
    the style selects a text and is never written into it. *)
Theorem summary_requests (env : Env) (file_object : GFile)
    (request_type style model_name : string) (st : AppState) (w : World) :
  (exists r w' d,
     summarize_or_explain_pdf env file_object request_type style model_name st w
     = (Ok r, st, w') /\
     files w' = files w /\
     log w' = log w ++ d /\
     (count_events is_generate d <= 1)%nat /\
     (r <> None -> count_events is_generate d = 1%nat) /\
     (count_events is_generate d = 1%nat ->
        usable file_object /\
        In (EvGenerate model_name (summary_prompt request_type style) [file_object]) d)) /\
  (request_type <> "explain"%string -> In (summary_prompt request_type style) SUMMARY_PROMPTS).
Proof.
  split.
  - unfold summarize_or_explain_pdf.
    destruct (Py.is_empty (guri file_object)) eqn:Hu; cbn [orb].
    { run. do 3 eexists. split; [reflexivity|]. split; [reflexivity|]. log_norm.
      split; [reflexivity|]. cbn. repeat split; try lia; congruence. }
    destruct (Py.is_empty (gmime_type file_object)) eqn:Hm.
    { run. do 3 eexists. split; [reflexivity|]. split; [reflexivity|]. log_norm.
      split; [reflexivity|]. cbn. repeat split; try lia; congruence. }
    assert (Hok : usable file_object).
    { split; intros E; [rewrite E in Hu | rewrite E in Hm]; discriminate. }
    run. unfold generate_content. cbn [log record].
    destruct (generate_reply env _ model_name _ [file_object]) as [text|]; run;
      do 3 eexists; (split; [reflexivity|]); (split; [reflexivity|]); log_norm;
      (split; [reflexivity|]); cbn; repeat split; auto; apply Hok.
  - intros Hreq. unfold summary_prompt, SUMMARY_PROMPTS.
    destruct (String.eqb request_type "explain") eqn:E;
      [apply String.eqb_eq in E; contradiction|].
    destruct (String.eqb style "key_findings"); [cbn; auto|].
    destruct (String.eqb style "technical"); [cbn; auto|].
    destruct (String.eqb style "simple" || String.eqb style "eli5"); cbn; auto.
Qed.

Example summary_prompt_runs :
  summary_prompt "summarize" "ELI5" = "Provide a concise summary of the attached document."%string /\
  summary_prompt "summarize" "eli5" = summary_prompt "summarize" "simple" /\
  summary_prompt "explain" "technical"
  = "Explain the main concepts and findings of the document attached. Use a technical style."%string.
Proof. repeat split; reflexivity. Qed.

(** ** The one-shot run *)

Lemma offline_counts d :
  Forall offline d ->
  count_events is_pdf_get d = 0%nat /\ count_events is_upload d = 0%nat /\
  count_events is_generate d = 0%nat.
Proof.
  intros H. repeat split; apply count_events_none; (eapply Forall_impl; [exact H|]);
    intros e He; unfold offline, is_pdf_work in He;
    destruct (is_pdf_get e), (is_upload e), (is_generate e); try discriminate; reflexivity.
Qed.

Lemma search_arxiv_offline env query start max_results sort_by sort_order :
  respects (log_grows offline) (search_arxiv env query start max_results sort_by sort_order).
Proof. unfold search_arxiv. respects_log. Qed.

Lemma print_results_offline i es : respects (log_grows offline) (print_results i es).
Proof. revert i. induction es as [|e es IH]; intros i; cbn [print_results]; respects_log. Qed.

Lemma display_results_offline fd start_index :
  respects (log_grows offline) (display_results fd start_index).
Proof. unfold display_results. respects_log; apply print_results_offline. Qed.

Lemma action_target_offline args : respects (log_grows offline) (action_target args).
Proof. unfold action_target. respects_log. Qed.

#[export] Hint Resolve search_arxiv_offline display_results_offline action_target_offline
  : traces.

(** What [search_arxiv] returns. *)
Lemma search_arxiv_value env query start max_results sort_by sort_order st w :
  exists w',
    search_arxiv env query start max_results sort_by sort_order st w
    = (Ok (usable_feed
             (arxiv_reply env (log w ++ [EvPrint (MsgQuerying query start max_results)])
                query start max_results sort_by sort_order)), st, w').
Proof.
  unfold search_arxiv, usable_feed. run. unfold requests_get_arxiv. cbn [log record].
  destruct (arxiv_reply env _ query start max_results sort_by sort_order) as [fd|]; run;
    [|eauto].
  destruct (bozo fd); run.
  { destruct (has_error_entry fd); run; eauto. }
  destruct (has_error_entry fd); run; [eauto|].
  destruct (entries fd); run; [|eauto].
  destruct (0 <? _); run; eauto.
Qed.

(** A page without records resolves no number. *)
Lemma no_entries_no_entry results_feed num :
  has_entries results_feed = false -> _get_entry_from_results results_feed num = None.
Proof.
  unfold has_entries, _get_entry_from_results. destruct results_feed as [fd|]; [|reflexivity].
  destruct (entries fd); [reflexivity | discriminate].
Qed.

Lemma only_print_offline e : only_print e -> offline e.
Proof. destruct e; simpl; intros H; try contradiction; reflexivity. Qed.

Lemma only_print_no_query e : only_print e -> no_query e.
Proof. destruct e; simpl; intros H; try contradiction; reflexivity. Qed.

Lemma main_compare_collect_no_entries env fuel results_feed download_dir paper_nums :
  has_entries results_feed = false ->
  forall fos st w,
  exists w' d,
    main_compare_collect env fuel results_feed download_dir paper_nums fos st w
    = (Ok fos, st, w') /\
    log w' = log w ++ d /\ Forall only_print d.
Proof.
  intros Hno. induction paper_nums as [|num rest IH]; intros fos st w;
    cbn [main_compare_collect].
  - exists w, []. split; [reflexivity|]. split; [now rewrite app_nil_r | constructor].
  - rewrite (no_entries_no_entry _ num Hno). cbn [truthy_entry]. run.
    destruct (IH fos st (record (EvPrint (MsgInvalidPaperIndex num)) w)) as (w' & d & Hrun & Hlog & HF).
    rewrite Hrun. exists w', (EvPrint (MsgInvalidPaperIndex num) :: d).
    split; [reflexivity|]. cbn [log record] in Hlog. rewrite Hlog, <- app_assoc.
    split; [reflexivity|]. constructor; [exact I | exact HF].
Qed.

(** The comparison over a page without records: messages only. *)
Lemma main_compare_no_entries env fuel results_feed download_dir paper_nums_str ctype st w :
  has_entries results_feed = false ->
  exists w' d,
    main_compare env fuel results_feed download_dir paper_nums_str ctype st w = (Ok tt, st, w') /\
    log w' = log w ++ d /\ Forall only_print d.
Proof.
  intros Hno. unfold main_compare. run.
  destruct (negb (gemini_enabled st)).
  { do 2 eexists. split; [reflexivity|]. split; [reflexivity | repeat constructor]. }
  assert (Hcollect : forall nums x pre,
            log x = log w ++ pre -> Forall only_print pre ->
            exists w' d,
              (if negb (in_list (Py.lower ctype) COMPARISON_TYPES)
               then print (MsgBadComparisonType (Py.lower ctype))
               else
                 match nums with
                 | [] => ret tt
                 | _ :: _ =>
                     file_objects <- main_compare_collect env fuel results_feed download_dir
                                       nums [];;
                     if (2 <=? length file_objects)%nat
                     then perform_comparison env file_objects (Py.lower ctype)
                     else print MsgNotEnoughPapers
                 end) st x = (Ok tt, st, w') /\
              log w' = log w ++ d /\ Forall only_print d).
  { intros nums x pre Hx Hpre.
    destruct (negb (in_list (Py.lower ctype) COMPARISON_TYPES)).
    { run. do 2 eexists. split; [reflexivity|]. cbn [log record]. rewrite Hx, <- app_assoc.
      split; [reflexivity|]. apply Forall_app. split; [exact Hpre | repeat constructor]. }
    destruct nums as [|n nums].
    { run. do 2 eexists. split; [reflexivity|]. split; [exact Hx | exact Hpre]. }
    destruct (main_compare_collect_no_entries env fuel results_feed download_dir (n :: nums)
                Hno [] st x) as (w1 & d1 & Hrun & Hlog & HF).
    unfold bind at 1. rewrite Hrun. cbn [length Nat.leb]. run.
    do 2 eexists. split; [reflexivity|]. cbn [log record]. rewrite Hlog, Hx, <- !app_assoc.
    split; [reflexivity|]. apply Forall_app. split; [exact Hpre|].
    apply Forall_app. split; [exact HF | repeat constructor]. }
  destruct (parse_nums (Py.split "," paper_nums_str)) as [nums|]; run.
  - destruct (length nums <? 2)%nat; run.
    + apply (Hcollect nums _ [EvPrint MsgCompareNeedTwoNumbers]); [reflexivity | repeat constructor].
    + apply (Hcollect nums w []); [now rewrite app_nil_r | constructor].
  - apply (Hcollect [] _ [EvPrint MsgCompareBadNumbers]); [reflexivity | repeat constructor].
Qed.

Lemma action_target_returns args st w :
  args_summarize args = None ->
  exists t w', action_target args st w = (Ok t, st, w').
Proof.
  intros Hno. unfold action_target. rewrite Hno.
  destruct (args_download args) as [text|]; run; [|eauto].
  destruct (Py.is_empty text); run; [eauto|].
  destruct (Py.int _); run; eauto.
Qed.

(** X29. A one-shot run without a Gemini action never gets to fetch,
    upload or compare anything. With [--compare] but without
    [--summarize] the run queries the index and displays the page, and
    then: without [--download] it raises an [AttributeError]; with
    [--download] and a page that has records it raises a [TypeError];
    with [--download] and no record to show it goes on to the comparison,
    which finds no paper, and ends normally. In no case is a PDF fetched,
    a file uploaded or the model asked, and the download map is as it
    was. *)
Theorem one_shot_needs_gemini_action (env : Env) (fuel : nat) (args : Args)
    (st : AppState) (w : World)
    (Hno : args_summarize args = None) :
  exists res st' w' d,
    main_one_shot env fuel args st w = (res, st', w') /\
    log w' = log w ++ d /\
    count_events is_arxiv_query d = 1%nat /\
    count_events is_pdf_get d = 0%nat /\
    count_events is_upload d = 0%nat /\
    count_events is_generate d = 0%nat /\
    downloaded_pdfs st' = downloaded_pdfs st /\
    res = match args_download args with
          | None => Raise AttributeError
          | Some _ =>
              if has_entries
                   (usable_feed
                      (arxiv_reply env
                         (log w ++ [ EvPrint MsgNonInteractive;
                                     EvPrint (MsgQuerying (args_query args) (args_start args)
                                                (args_max_results args)) ])
                         (args_query args) (args_start args) (args_max_results args)
                         (args_sort_by args) (args_sort_order args)))
              then Raise TypeError
              else Ok tt
          end.
Proof.
  set (st0 := set_current_query (args_query args) st).
  set (w0 := record (EvPrint MsgNonInteractive) w).
  destruct (search_arxiv_value env (args_query args) (args_start args) (args_max_results args)
              (args_sort_by args) (args_sort_order args) st0 w0) as (w1 & Hsearch).
  destruct (search_arxiv_sends_one env (args_query args) (args_start args)
              (args_max_results args) (args_sort_by args) (args_sort_order args) st0 w0)
    as (r' & w1' & d1 & Hsearch' & Hlog1 & Hq1 & _).
  rewrite Hsearch in Hsearch'. inversion Hsearch'; subst r' w1'. clear Hsearch'.
  pose proof (search_arxiv_offline env (args_query args) (args_start args)
                (args_max_results args) (args_sort_by args) (args_sort_order args) st0 w0) as Ho1.
  rewrite Hsearch in Ho1. destruct Ho1 as (d1' & Hlog1' & Hoff1). cbn [fst snd] in Hlog1'.
  rewrite Hlog1 in Hlog1'. apply app_inv_head in Hlog1'. subst d1'.
  set (rf := usable_feed _) in *.
  assert (Hrf : rf = usable_feed
                       (arxiv_reply env
                          (log w ++ [ EvPrint MsgNonInteractive;
                                      EvPrint (MsgQuerying (args_query args) (args_start args)
                                                 (args_max_results args)) ])
                          (args_query args) (args_start args) (args_max_results args)
                          (args_sort_by args) (args_sort_order args))).
  { unfold rf, w0. cbn [log record]. rewrite <- app_assoc. reflexivity. }
  rewrite <- Hrf. clear Hrf.
  destruct (display_results_keeps_state rf (args_start args) st0 w1) as (n & w2 & Hdisplay).
  pose proof (display_results_offline rf (args_start args) st0 w1) as Ho2.
  pose proof (display_results_no_query rf (args_start args) st0 w1) as Hnq2.
  rewrite Hdisplay in Ho2, Hnq2. destruct Ho2 as (d2 & Hlog2 & Hoff2).
  destruct Hnq2 as (d2' & Hlog2' & Hnq2). cbn [fst snd] in Hlog2, Hlog2'.
  rewrite Hlog2 in Hlog2'. apply app_inv_head in Hlog2'. subst d2'.
  destruct (action_target_returns args st0 w2 Hno) as (t & w3 & Htarget).
  pose proof (action_target_offline args st0 w2) as Ho3.
  rewrite Htarget in Ho3. destruct Ho3 as (d3 & Hlog3 & Hoff3). cbn [fst snd] in Hlog3.
  assert (Hnq3 : Forall no_query d3).
  { assert (H : respects (log_grows no_query) (action_target args))
      by (unfold action_target; respects_log).
    specialize (H st0 w2). rewrite Htarget in H. destruct H as (d3' & Hlog3' & H).
    cbn [fst snd] in Hlog3'. rewrite Hlog3 in Hlog3'. apply app_inv_head in Hlog3'.
    now subst d3'. }
  assert (Hlog : log w3 = log w ++ EvPrint MsgNonInteractive :: d1 ++ d2 ++ d3).
  { rewrite Hlog3, Hlog2, Hlog1. unfold w0. cbn [log record].
    rewrite <- !app_assoc. reflexivity. }
  assert (Hoff : Forall offline (EvPrint MsgNonInteractive :: d1 ++ d2 ++ d3)).
  { constructor; [reflexivity|]. repeat (apply Forall_app; split); assumption. }
  assert (Hquery : count_events is_arxiv_query (EvPrint MsgNonInteractive :: d1 ++ d2 ++ d3)
                   = 1%nat).
  { cbn. rewrite !count_events_app, Hq1, (no_query_count d2 Hnq2), (no_query_count d3 Hnq3).
    reflexivity. }
  assert (Hfetch : fetch_target env args rf t
                   = match args_download args with
                     | Some _ =>
                         if has_entries rf then raise TypeError
                         else print MsgCannotDownload;; ret None
                     | None => raise AttributeError
                     end).
  { unfold fetch_target. rewrite Hno. destruct t; reflexivity. }
  unfold main_one_shot, main_before_compare. run. fold st0 w0. rewrite Hsearch.
  run. rewrite Hdisplay. run. rewrite Htarget. run.
  rewrite Hfetch. unfold w0 in Hlog. cbn [log record] in Hlog.
  destruct (offline_counts _ Hoff) as (Hc1 & Hc2 & Hc3).
  destruct (args_download args) as [text|].
  2: { run. exists (Raise AttributeError), st0, w3, (EvPrint MsgNonInteractive :: d1 ++ d2 ++ d3).
       split; [reflexivity|]. split; [exact Hlog|]. repeat split; assumption || reflexivity. }
  destruct (has_entries rf) eqn:Hentries.
  { run. exists (Raise TypeError), st0, w3, (EvPrint MsgNonInteractive :: d1 ++ d2 ++ d3).
    split; [reflexivity|]. split; [exact Hlog|]. repeat split; assumption || reflexivity. }
  run. unfold summarize_action. rewrite Hno. run.
  destruct (args_compare args) as [[paper_nums_str ctype]|]; run.
  - destruct (main_compare_no_entries env fuel rf (args_download_dir args) paper_nums_str ctype
                st0 (record (EvPrint MsgCannotDownload) w3) Hentries)
      as (w4 & d4 & Hrun4 & Hlog4 & Hprint4).
    assert (Hoff4 : Forall offline d4)
      by (eapply Forall_impl; [exact Hprint4 | exact only_print_offline]).
    assert (Hnq4 : Forall no_query d4)
      by (eapply Forall_impl; [exact Hprint4 | exact only_print_no_query]).
    rewrite Hrun4. do 4 eexists. split; [reflexivity|]. cbn [log record] in Hlog4 |- *.
    rewrite Hlog4, Hlog, <- !app_assoc. cbn [List.app]. rewrite <- !app_assoc.
    split; [reflexivity|].
    assert (Hoff' : Forall offline (d3 ++ EvPrint MsgCannotDownload :: d4 ++ [EvPrint MsgExiting])).
    { apply Forall_app. split; [exact Hoff3|]. constructor; [reflexivity|].
      apply Forall_app. split; [exact Hoff4 | repeat constructor]. }
    assert (Hall : Forall offline (EvPrint MsgNonInteractive :: d1 ++ d2 ++ d3
                                     ++ EvPrint MsgCannotDownload :: d4 ++ [EvPrint MsgExiting])).
    { constructor; [reflexivity|]. repeat (apply Forall_app; split); try assumption.
      constructor; [reflexivity|]. apply Forall_app. split; [exact Hoff4 | repeat constructor]. }
    destruct (offline_counts _ Hall) as (Ha1 & Ha2 & Ha3).
    split.
    { cbn. rewrite !count_events_app, Hq1, (no_query_count d2 Hnq2), (no_query_count d3 Hnq3).
      cbn. rewrite count_events_app.
      rewrite (no_query_count d4 Hnq4). reflexivity. }
    repeat split; assumption || reflexivity.
  - do 4 eexists. split; [reflexivity|]. cbn [log record]. rewrite Hlog, <- !app_assoc.
    cbn [List.app]. rewrite <- !app_assoc. split; [reflexivity|].
    assert (Hall : Forall offline (EvPrint MsgNonInteractive :: d1 ++ d2 ++ d3
                                     ++ [EvPrint MsgCannotDownload; EvPrint MsgExiting])).
    { constructor; [reflexivity|]. repeat (apply Forall_app; split); try assumption.
      repeat constructor. }
    destruct (offline_counts _ Hall) as (Ha1 & Ha2 & Ha3).
    split.
    { cbn. rewrite !count_events_app, Hq1, (no_query_count d2 Hnq2), (no_query_count d3 Hnq3).
      reflexivity. }
    repeat split; assumption || reflexivity.
Qed.

Lemma one_shot_needs_gemini_action_witness :
  exists res st' w' d,
    main_one_shot env_ok 1 args_compare_only (configured_state args_compare_only true false) world0
    = (res, st', w') /\
    log w' = log world0 ++ d /\
    count_events is_arxiv_query d = 1%nat /\
    count_events is_pdf_get d = 0%nat /\
    count_events is_upload d = 0%nat /\
    count_events is_generate d = 0%nat /\
    downloaded_pdfs st' = downloaded_pdfs (configured_state args_compare_only true false) /\
    res = match args_download args_compare_only with
          | None => Raise AttributeError
          | Some _ =>
              if has_entries
                   (usable_feed
                      (arxiv_reply env_ok
                         (log world0
                          ++ [ EvPrint MsgNonInteractive;
                               EvPrint (MsgQuerying (args_query args_compare_only)
                                          (args_start args_compare_only)
                                          (args_max_results args_compare_only)) ])
                         (args_query args_compare_only) (args_start args_compare_only)
                         (args_max_results args_compare_only) (args_sort_by args_compare_only)
                         (args_sort_order args_compare_only)))
              then Raise TypeError
              else Ok tt
          end.
Proof.
  apply (one_shot_needs_gemini_action env_ok 1 args_compare_only
           (configured_state args_compare_only true false) world0).
  reflexivity.
Defined.

(** The comparison alone, with the index and the PDF host at work: the
    run ends with the [AttributeError] after the page. *)
Example one_shot_compare_only_runs :
  let '(res, st', w') :=
    main_one_shot env_ok 1 args_compare_only (configured_state args_compare_only true false)
      world0 in
  res = Raise AttributeError /\
  List.last (log w') (EvPrint MsgRule) = EvPrint (MsgResult 2 (sample_entry "2301.00001v2")) /\
  files w' = ∅.
Proof. vm_compute. repeat split; reflexivity. Qed.

Lemma same_state_same_on {A X} (f : AppState -> X) (m : M A) :
  respects same_state m -> respects (same_on f) m.
Proof.
  intros Hm st w. specialize (Hm st w). unfold same_state, same_on in *. cbn in *.
  now rewrite Hm.
Qed.

Lemma main_before_compare_downloads env fuel args :
  respects (same_on downloaded_pdfs) (main_before_compare env fuel args).
Proof.
  unfold main_before_compare, action_target, fetch_target, summarize_action,
    summarize_or_explain_pdf.
  repeat first
    [ apply get_or_upload_downloads
    | solve [apply same_state_same_on; auto with session]
    | progress respects_on ].
Qed.

Lemma main_before_compare_enabled env fuel args :
  respects (same_on gemini_enabled) (main_before_compare env fuel args).
Proof.
  unfold main_before_compare, action_target, fetch_target, summarize_action,
    summarize_or_explain_pdf, _get_or_upload_gemini_file.
  repeat first
    [ solve [apply same_state_same_on; auto with session]
    | progress respects_on ].
Qed.

Lemma main_before_compare_cache env fuel args :
  respects (on_state cache_gains) (main_before_compare env fuel args).
Proof.
  unfold main_before_compare, action_target, fetch_target, summarize_action,
    summarize_or_explain_pdf.
  respects_state cache_leaf.
Qed.

Lemma main_before_compare_disk env fuel args :
  respects disk_kept (main_before_compare env fuel args).
Proof.
  unfold main_before_compare, action_target, fetch_target, summarize_action,
    summarize_or_explain_pdf.
  respects_disk.
Qed.

(** X30. The session in which a one-shot run comes to its [--compare]
    action. Whatever the arguments and the replies of the outside are,
    and however the part of the run before the comparison ends, the
    download map is still empty then: the PDF that [--summarize] fetched
    is on disk but not in the map. Every handle in the cache is ACTIVE,
    no file that existed when the run began is lost, and Gemini is
    enabled exactly when it was configured. *)
Theorem one_shot_state_at_compare (env : Env) (fuel : nat) (args : Args)
    (gemini_ok serper_ok : bool) (w : World) :
  let out := main_before_compare env fuel args (configured_state args gemini_ok serper_ok) w in
  downloaded_pdfs (final_state out) = ∅ /\
  cache_active (final_state out) /\
  files w ⊆ files (final_world out) /\
  gemini_enabled (final_state out) = gemini_ok.
Proof.
  intros out. subst out.
  pose proof (main_before_compare_downloads env fuel args
                (configured_state args gemini_ok serper_ok) w) as Hd.
  pose proof (main_before_compare_enabled env fuel args
                (configured_state args gemini_ok serper_ok) w) as He.
  pose proof (main_before_compare_cache env fuel args
                (configured_state args gemini_ok serper_ok) w) as Hc.
  pose proof (main_before_compare_disk env fuel args
                (configured_state args gemini_ok serper_ok) w) as [Hf _].
  unfold same_on, on_state, cache_gains, final_state, final_world in *. cbn [fst snd] in *.
  split; [exact Hd|]. split; [|split; [exact Hf | exact He]].
  intros path f Hpath. destruct (Hc path f Hpath) as [Ha|Hin]; [exact Ha|].
  cbn in Hin. rewrite lookup_empty in Hin. discriminate.
Qed.
